(** * Condom-use correlates pipeline: data preparation and regression battery

    A shallow embedding of [01_prepare_data.py] (loader, derived variables,
    cohort filter) and of the data handling of [03_regression_models.py]
    (complete-case frames of the five models, age-stratified loop), with the
    properties of the derived variables and of the sample sizes.

    Tables are pandas data frames.  A frame is its ordered list of column
    names and its rows; a row carries its index label and a lookup from
    column names to cells.  Only the cells of the listed columns belong to
    the frame: selecting columns changes the list, not the rows. *)

From Stdlib Require Import List String Bool ZArith QArith Lia Lqa Permutation Arith.
Import ListNotations.
Open Scope string_scope.

Set Implicit Arguments.

(** ** Cells *)

(** A number held by a cell: a finite value or an infinity.  The scripts only
    compare numbers with integer literals and add small integers, which is
    exact on floating-point values, so finite values are rationals. *)
Inductive xnum : Type :=
| Fin (q : Q)
| PInf
| NInf.

(** A cell: missing ([np.nan], [pd.NA], [None]), a number, or text. *)
Inductive cell : Type :=
| NA
| Num (x : xnum)
| Text (s : string).

Definition num_eqb (x : xnum) (k : Q) : bool :=
  match x with Fin q => Qeq_bool q k | _ => false end.

(** [x >= k] *)
Definition num_geb (x : xnum) (k : Q) : bool :=
  match x with Fin q => Qle_bool k q | PInf => true | NInf => false end.

(** [x > k] *)
Definition num_gtb (x : xnum) (k : Q) : bool :=
  match x with Fin q => negb (Qle_bool q k) | PInf => true | NInf => false end.

(** [x < k] *)
Definition num_ltb (x : xnum) (k : Q) : bool :=
  match x with Fin q => negb (Qle_bool k q) | PInf => false | NInf => true end.

Definition num_add (x : xnum) (k : Q) : xnum :=
  match x with Fin q => Fin (q + k) | PInf => PInf | NInf => NInf end.

(** [series == k], elementwise: missing and text cells compare unequal. *)
Definition cell_eq (c : cell) (k : Q) : bool :=
  match c with Num x => num_eqb x k | _ => false end.

(** [series.isin([k1, k2, ...])], elementwise. *)
Definition cell_isin (c : cell) (ks : list Q) : bool :=
  existsb (cell_eq c) ks.

(** [series.notna()] and [series.isna()], elementwise. *)
Definition notna (c : cell) : bool :=
  match c with NA => false | _ => true end.

Definition isna (c : cell) : bool := negb (notna c).

Definition is_text (c : cell) : bool :=
  match c with Text _ => true | _ => false end.

(** [series > k] and [series >= k] on one cell.  A missing cell compares
    false.  Ordering text against a number raises [TypeError] in pandas;
    [series_gt] and [series_ge] below reject such a column before these are
    used, so the [Text] case is never consulted. *)
Definition cell_gt (c : cell) (k : Q) : bool :=
  match c with Num x => num_gtb x k | _ => false end.

Definition cell_ge (c : cell) (k : Q) : bool :=
  match c with Num x => num_geb x k | _ => false end.

(** [.astype(float)] and [.astype(int)] of a boolean. *)
Definition astype_float (b : bool) : cell :=
  if b then Num (Fin 1) else Num (Fin 0).

Definition astype_int (b : bool) : Q :=
  if b then 1 else 0.

(** [series + ints], elementwise.  The only use is the score accumulator,
    which line 112 sets to the integer 0, so it never holds text. *)
Definition cell_add (c : cell) (k : Q) : cell :=
  match c with Num x => Num (num_add x k) | NA => NA | Text s => Text s end.

(** ** Frames *)

Record Row : Type := mkRow { ix : nat; val : string -> cell }.

Record DataFrame : Type := mkDF { columns : list string; rows : list Row }.

(** [c in df.columns] *)
Definition has_col (df : DataFrame) (c : string) : bool :=
  existsb (String.eqb c) (columns df).

Definition add_col (c : string) (cols : list string) : list string :=
  if existsb (String.eqb c) cols then cols else cols ++ [c].

Definition set_cell (c : string) (v : cell) (r : Row) : Row :=
  mkRow (ix r) (fun k => if String.eqb k c then v else val r k).

(** [df[c] = f(row)] for an elementwise [f]: the column is replaced, or
    appended when new. *)
Definition assign (c : string) (f : Row -> cell) (df : DataFrame) : DataFrame :=
  mkDF (add_col c (columns df)) (map (fun r => set_cell c (f r) r) (rows df)).

(** [df.loc[mask, c] = v] on an existing column [c]: the cell becomes [v]
    where the mask holds and stays as it is elsewhere. *)
Definition loc_assign (mask : Row -> bool) (c : string) (v : cell)
    (df : DataFrame) : DataFrame :=
  mkDF (columns df)
    (map (fun r => set_cell c (if mask r then v else val r c) r) (rows df)).

(** [df[mask]]: the rows where the mask holds, labels kept. *)
Definition filter_rows (mask : Row -> bool) (df : DataFrame) : DataFrame :=
  mkDF (columns df) (filter mask (rows df)).

(** The column has no text cell, so ordering it against a number is defined. *)
Definition numeric_col (c : string) (df : DataFrame) : bool :=
  forallb (fun r => negb (is_text (val r c))) (rows df).

(** Errors ([KeyError] on an absent column, [TypeError] on ordering text)
    abort the script: [None]. *)
Definition bind {A B : Type} (m : option A) (f : A -> option B) : option B :=
  match m with Some a => f a | None => None end.

Notation "x <- m ;; k" := (bind m (fun x => k))
  (at level 61, m at next level, right associativity).

(** [df[c]] used for reading: the column must exist. *)
Definition require (c : string) (df : DataFrame) : option unit :=
  if has_col df c then Some tt else None.

(** The mask [df[c] > k]. *)
Definition series_gt (c : string) (k : Q) (df : DataFrame) : option (Row -> bool) :=
  _ <- require c df ;;
  if numeric_col c df then Some (fun r => cell_gt (val r c) k) else None.

(** The mask [df[c] >= k]. *)
Definition series_ge (c : string) (k : Q) (df : DataFrame) : option (Row -> bool) :=
  _ <- require c df ;;
  if numeric_col c df then Some (fun r => cell_ge (val r c) k) else None.

(** ** 01_prepare_data.py *)

Module Prepare.

Section Loader.

(** Python's [float] on a string: [None] when it raises [ValueError],
    otherwise a number or NaN (written [NA]). *)
Variable float_of_text : string -> option cell.

(** [float(age)] for a cell of the raw table: [None] when it raises. *)
Definition py_float (age : cell) : option cell :=
  match age with
  | Num x => Some (Num x)
  | NA => Some NA
  | Text s =>
      match float_of_text s with
      | Some (Num x) => Some (Num x)
      | Some NA => Some NA
      | _ => None
      end
  end.

(** Lines 75-87. *)
Definition assign_age_group (age : cell) : cell :=
  match py_float age with
  | None => NA
  | Some NA => NA
  | Some (Text _) => NA
  | Some (Num age) =>
      if num_geb age 18 && num_ltb age 30 then Num (Fin 1) else
      if num_geb age 30 && num_ltb age 40 then Num (Fin 2) else
      if num_geb age 40 && num_ltb age 50 then Num (Fin 3) else
      if num_geb age 50 && num_ltb age 60 then Num (Fin 4) else
      if num_geb age 60 && num_ltb age 70 then Num (Fin 5) else
      if num_geb age 70 && num_ltb age 80 then Num (Fin 6) else
      if num_geb age 80 then Num (Fin 7) else
      NA
  end.

(** Lines 63-89: the aggregated table when it loads ([excel]), otherwise
    the raw table ([csv]) with age groups computed from [p4]. *)
Definition load (excel csv : option DataFrame) : option DataFrame :=
  match excel with
  | Some df => Some df
  | None =>
      df <- csv ;;
      _ <- require "p4" df ;;
      Some (assign "edad_grupo" (fun r => assign_age_group (val r "p4")) df)
  end.

End Loader.

(** Lines 102-109. *)
Definition hiv_items : list (string * Q) :=
  [ ("i_1_p212", 1); ("i_2_p212", 1); ("i_3_p212", 1);
    ("i_4_p212", 2); ("i_5_p212", 2); ("i_6_p212", 1) ]%Q.

(** Lines 112-116. *)
Definition add_item (df : DataFrame) (it : string * Q) : DataFrame :=
  if has_col df (fst it) then
    assign "hiv_knowledge_score"
      (fun r => cell_add (val r "hiv_knowledge_score")
                  (astype_int (cell_eq (val r (fst it)) (snd it)))) df
  else df.

Definition knowledge_score (df : DataFrame) : DataFrame :=
  fold_left add_item hiv_items
    (assign "hiv_knowledge_score" (fun _ => Num (Fin 0)) df).

(** Lines 132-141. *)
Definition sentinel (c : cell) : bool := cell_isin c [9; 99]%Q.

Definition condom_use (df : DataFrame) : option DataFrame :=
  _ <- require "p73" df ;;
  let df := assign "condom_use_freq" (fun r => val r "p73") df in
  let df := loc_assign (fun r => sentinel (val r "p73")) "condom_use_freq" NA df in
  let df := assign "always_condom" (fun r => astype_float (cell_eq (val r "p73") 1)) df in
  let df := loc_assign (fun r => sentinel (val r "p73")) "always_condom" NA df in
  let df := assign "ever_condom" (fun r => astype_float (cell_isin (val r "p73") [1; 2]%Q)) df in
  let df := loc_assign (fun r => sentinel (val r "p73")) "ever_condom" NA df in
  Some df.

(** Lines 144-148. *)
Definition condom_label (c : cell) : cell :=
  if cell_eq c 1 then Text "Always" else
  if cell_eq c 2 then Text "Sometimes" else
  if cell_eq c 3 then Text "Never" else NA.

(** Lines 164-170. *)
Definition partners (df : DataFrame) : option DataFrame :=
  _ <- require "p71" df ;;
  let df := assign "partners_last_year" (fun r => val r "p71") df in
  let df := loc_assign (fun r => cell_eq (val r "p71") 999) "partners_last_year" NA df in
  gt100 <- series_gt "p71" 100 df ;;
  let df := loc_assign gt100 "partners_last_year" NA df in
  ge2 <- series_ge "partners_last_year" 2 df ;;
  let df := assign "multiple_partners" (fun r => astype_float (ge2 r)) df in
  let df := loc_assign (fun r => isna (val r "partners_last_year")) "multiple_partners" NA df in
  Some df.

(** Lines 186-203. *)
Definition or_sti (df : DataFrame) (var : string) : DataFrame :=
  if has_col df var then
    assign "any_sti"
      (fun r => astype_float (cell_eq (val r "any_sti") 1 || cell_eq (val r var) 1)) df
  else df.

Definition sti (df : DataFrame) : DataFrame :=
  let sti_vars := filter (String.prefix "p202_") (columns df) in
  let df :=
    if has_col df "its_alguna_vez" then
      assign "any_sti" (fun r => astype_float (cell_eq (val r "its_alguna_vez") 1)) df
    else
      fold_left or_sti sti_vars (assign "any_sti" (fun _ => Num (Fin 0)) df) in
  if has_col df "p202_vih" then
    assign "hiv_diagnosis" (fun r => astype_float (cell_eq (val r "p202_vih") 1)) df
  else
    assign "hiv_diagnosis" (fun _ => NA) df.

(** Lines 217-250. *)
Definition flag_1 (raw out : string) (df : DataFrame) : DataFrame :=
  if has_col df raw then
    loc_assign (fun r => sentinel (val r raw)) out NA
      (assign out (fun r => astype_float (cell_eq (val r raw) 1)) df)
  else assign out (fun _ => NA) df.

Definition copy_code (raw out : string) (df : DataFrame) : DataFrame :=
  if has_col df raw then
    loc_assign (fun r => sentinel (val r raw)) out NA
      (assign out (fun r => val r raw) df)
  else assign out (fun _ => NA) df.

Definition testing (df : DataFrame) : DataFrame :=
  let df := flag_1 "p208" "tested_hiv_12mo" df in
  let df := copy_code "p210" "test_reason" df in
  let df := copy_code "p211" "no_test_reason" df in
  flag_1 "p213" "knows_prep" df.

(** Lines 260-271. *)
Definition age_labels : list (Q * string) :=
  [ (1, "18-29"); (2, "30-39"); (3, "40-49"); (4, "50-59");
    (5, "60-69"); (6, "70-79"); (7, "80+") ]%Q.

Definition map_labels (c : cell) : cell :=
  match find (fun kv => cell_eq c (fst kv)) age_labels with
  | Some kv => Text (snd kv)
  | None => NA
  end.

Definition age_group_labels (df : DataFrame) : option DataFrame :=
  if has_col df "edad_grupo_lbl" then Some df
  else
    _ <- require "edad_grupo" df ;;
    Some (assign "edad_grupo_lbl" (fun r => map_labels (val r "edad_grupo")) df).

(** Steps 2 to 7, the derived-variable constructor. *)
Definition construct (df : DataFrame) : option DataFrame :=
  let df := knowledge_score df in
  df <- condom_use df ;;
  let df := assign "condom_use_lbl" (fun r => condom_label (val r "condom_use_freq")) df in
  df <- partners df ;;
  let df := sti df in
  let df := testing df in
  age_group_labels df.

(** Lines 292, 296 and 300: the three inclusion steps of the cohort filter. *)
Definition sexually_active (df : DataFrame) : option DataFrame :=
  mask <- series_gt "partners_last_year" 0 df ;;
  Some (filter_rows mask df).

Definition valid_condom_use (df : DataFrame) : option DataFrame :=
  _ <- require "condom_use_freq" df ;;
  Some (filter_rows (fun r => notna (val r "condom_use_freq")) df).

Definition valid_age (df : DataFrame) : option DataFrame :=
  _ <- require "edad_grupo" df ;;
  Some (filter_rows (fun r => notna (val r "edad_grupo")) df).

(** Inclusion steps applied one after the other. *)
Fixpoint apply_steps (steps : list (DataFrame -> option DataFrame))
    (df : DataFrame) : option DataFrame :=
  match steps with
  | [] => Some df
  | f :: steps' => df' <- f df ;; apply_steps steps' df'
  end.

(** Lines 288-301. *)
Definition df_analysis (df : DataFrame) : option DataFrame :=
  df <- sexually_active df ;;
  df <- valid_condom_use df ;;
  valid_age df.

(** Lines 314-338: the variables kept in the saved dataset, and the frame
    handed to [to_excel]. *)
Definition analysis_vars : list string :=
  [ "folio"; "p4"; "edad_grupo"; "edad_grupo_lbl"; "hiv_knowledge_score";
    "knows_prep"; "tested_hiv_12mo"; "test_reason"; "no_test_reason";
    "condom_use_freq"; "condom_use_lbl"; "always_condom"; "ever_condom";
    "partners_last_year"; "multiple_partners"; "any_sti"; "hiv_diagnosis";
    "p3" ].

Definition df_out (sample : DataFrame) : DataFrame :=
  let vars := filter (has_col sample) analysis_vars in
  mkDF vars (rows sample).

Section Pipeline.

Variable float_of_text : string -> option cell.

(** Steps 1 to 7: the table on which the cohort filter runs. *)
Definition derived (excel csv : option DataFrame) : option DataFrame :=
  df <- load float_of_text excel csv ;;
  construct df.

(** Steps 1 to 8: the full table with its derived columns and the
    analytic sample. *)
Definition prepare (excel csv : option DataFrame) : option (DataFrame * DataFrame) :=
  df <- derived excel csv ;;
  sample <- df_analysis df ;;
  Some (df, sample).

(** The same script with the inclusion steps in another order. *)
Definition prepare_in_order (steps : list (DataFrame -> option DataFrame))
    (excel csv : option DataFrame) : option (DataFrame * DataFrame) :=
  df <- derived excel csv ;;
  sample <- apply_steps steps df ;;
  Some (df, sample).

End Pipeline.

End Prepare.

(** ** 03_regression_models.py *)

Module Regression.

(** [df[[c1, c2, ...]]]: [KeyError] when a column is absent. *)
Definition select (cols : list string) (df : DataFrame) : option DataFrame :=
  if forallb (has_col df) cols then Some (mkDF cols (rows df)) else None.

(** A row with no missing cell among the frame's columns. *)
Definition complete (cols : list string) (r : Row) : bool :=
  forallb (fun c => notna (val r c)) cols.

(** [.dropna()]: listwise deletion over the frame's columns. *)
Definition dropna (df : DataFrame) : DataFrame :=
  mkDF (columns df) (filter (complete (columns df)) (rows df)).

(** [len(df)] *)
Definition len (df : DataFrame) : nat := List.length (rows df).

(** Line 42. *)
Definition model1_data (df : DataFrame) : option DataFrame :=
  option_map dropna
    (select ["always_condom"; "edad_grupo"; "hiv_knowledge_score"] df).

(** Lines 74-75. *)
Definition model2_data (df : DataFrame) : option DataFrame :=
  option_map dropna
    (select ["always_condom"; "edad_grupo"; "hiv_knowledge_score";
             "partners_last_year"] df).

(** Lines 105-106. *)
Definition model3_data (df : DataFrame) : option DataFrame :=
  option_map dropna
    (select ["always_condom"; "edad_grupo"; "hiv_knowledge_score";
             "partners_last_year"; "any_sti"; "tested_hiv_12mo"] df).

(** Lines 137-139. *)
Definition model4_data (df : DataFrame) : option DataFrame :=
  option_map dropna
    (select ["always_condom"; "edad_grupo"; "hiv_knowledge_score";
             "partners_last_year"; "any_sti"; "tested_hiv_12mo";
             "knows_prep"] df).

(** Lines 170-171. *)
Definition model5_data (df : DataFrame) : option DataFrame :=
  option_map dropna
    (select ["always_condom"; "edad_grupo"; "hiv_knowledge_score";
             "partners_last_year"] df).

(** Equality of two numbers, and of a cell with a label ([series == age]):
    a missing cell equals nothing, text and numbers differ. *)
Definition num_same (x y : xnum) : bool :=
  match x, y with
  | Fin p, Fin q => Qeq_bool p q
  | PInf, PInf => true
  | NInf, NInf => true
  | _, _ => false
  end.

Definition cell_same (a b : cell) : bool :=
  match a, b with
  | Num x, Num y => num_same x y
  | Text s, Text t => String.eqb s t
  | _, _ => false
  end.

(** [series.unique()]: first occurrences, missing cells counted as one value. *)
Definition same_key (a b : cell) : bool :=
  match a, b with
  | NA, NA => true
  | _, _ => cell_same a b
  end.

Fixpoint unique_from (seen : list cell) (l : list cell) : list cell :=
  match l with
  | [] => []
  | c :: l' =>
      if existsb (same_key c) seen then unique_from seen l'
      else c :: unique_from (c :: seen) l'
  end.

Definition unique (l : list cell) : list cell := unique_from [] l.

(** [sorted]: text by code units, numbers by value; a list mixing text and
    numbers raises [TypeError]. *)
Definition num_leb (x y : xnum) : bool :=
  match x, y with
  | NInf, _ => true
  | _, PInf => true
  | Fin p, Fin q => Qle_bool p q
  | _, _ => false
  end.

Definition cell_leb (a b : cell) : bool :=
  match a, b with
  | Num x, Num y => num_leb x y
  | Text s, Text t => String.leb s t
  | _, _ => false
  end.

Fixpoint insert_sorted (c : cell) (l : list cell) : list cell :=
  match l with
  | [] => [c]
  | d :: l' => if cell_leb c d then c :: d :: l' else d :: insert_sorted c l'
  end.

Definition is_num (c : cell) : bool :=
  match c with Num _ => true | _ => false end.

Definition sorted (l : list cell) : option (list cell) :=
  if forallb is_text l || forallb is_num l
  then Some (fold_right insert_sorted [] l)
  else None.

(** Lines 212-213. *)
Definition age_groups (df : DataFrame) : option (list cell) :=
  _ <- require "edad_grupo_lbl" df ;;
  sorted (filter notna (unique (map (fun r => val r "edad_grupo_lbl") (rows df)))).

(** Lines 216-218. *)
Definition age_data (df : DataFrame) (age : cell) : option DataFrame :=
  _ <- require "edad_grupo_lbl" df ;;
  option_map dropna
    (select ["always_condom"; "hiv_knowledge_score"; "partners_last_year"]
       (filter_rows (fun r => cell_same (val r "edad_grupo_lbl") age) df)).

Section Stratified.

(** A fitted model, and statsmodels' [logit(formula, data).fit()]:
    [None] when the fit raises. *)
Variable Fit : Type.
Variable logit : string -> DataFrame -> option Fit.

(** One entry of [age_stratified_results]: the odds ratios, interval
    bounds and p-values are read off the fitted model. *)
Record StratRow : Type := mkStrat { Age_Group : cell; N : nat; model_age : Fit }.

(** Lines 215-247. *)
Fixpoint stratified_loop (df : DataFrame) (ages : list cell)
    (results : list StratRow) : option (list StratRow) :=
  match ages with
  | [] => Some results
  | age :: ages' =>
      data <- age_data df age ;;
      if (30 <=? len data)%nat then
        m <- logit "always_condom ~ hiv_knowledge_score + partners_last_year" data ;;
        stratified_loop df ages' (results ++ [mkStrat age (len data) m])
      else stratified_loop df ages' results
  end.

(** Lines 210-247. *)
Definition age_stratified_results (df : DataFrame) : option (list StratRow) :=
  ages <- age_groups df ;;
  stratified_loop df ages [].

End Stratified.

End Regression.

(** * Definitions used by the statements *)

Definition mem (k : string) (l : list string) : bool :=
  existsb (String.eqb k) l.

(** [r'] is [r] with at most the columns [written] changed. *)
Definition frame (written : list string) (r r' : Row) : Prop :=
  ix r' = ix r /\ forall k, mem k written = false -> val r' k = val r k.

Definition add_cols (names cols : list string) : list string :=
  fold_left (fun cs c => add_col c cs) names cols.

(** Loops that update one column from one other column per iteration
    (the knowledge items, the diagnosis columns). *)
Section FoldAssignDefs.

Variables (X : Type) (key : X -> string) (col : string).
Variable upd : cell -> cell -> X -> cell.

Definition fold_step (d : DataFrame) (x : X) : DataFrame :=
  if has_col d (key x) then
    assign col (fun r => upd (val r col) (val r (key x)) x) d
  else d.

Definition fold_cell (hc : string -> bool) (r : Row) (xs : list X) (acc : cell) : cell :=
  fold_left (fun a x => if hc (key x) then upd a (val r (key x)) x else a) xs acc.

End FoldAssignDefs.

Definition score_upd (a v : cell) (it : string * Q) : cell :=
  cell_add a (astype_int (cell_eq v (snd it))).

(** The score cell of a row: the items of the table, scored in order. *)
Definition score_cell (hc : string -> bool) (r : Row) : cell :=
  fold_cell (@fst string Q) score_upd hc r Prepare.hiv_items (Num (Fin 0)).

Definition sti_upd (a v : cell) (var : string) : cell :=
  astype_float (cell_eq a 1 || cell_eq v 1).

(** The diagnosis columns found by name: [sti_vars] of line 186. *)
Definition sti_vars (df : DataFrame) : list string :=
  filter (String.prefix "p202_") (columns df).

(** The columns written by steps 2 to 7. *)
Definition derived_names : list string :=
  [ "hiv_knowledge_score"; "condom_use_freq"; "always_condom"; "ever_condom";
    "condom_use_lbl"; "partners_last_year"; "multiple_partners"; "any_sti";
    "hiv_diagnosis"; "tested_hiv_12mo"; "test_reason"; "no_test_reason";
    "knows_prep"; "edad_grupo_lbl" ].

Definition testing_names : list string :=
  [ "tested_hiv_12mo"; "test_reason"; "no_test_reason"; "knows_prep" ].

(** What steps 2 to 7 make of a row [r] of the loaded table [df0]. *)
Definition constructed (df0 : DataFrame) (r r' : Row) : Prop :=
  frame derived_names r r' /\
  val r' "hiv_knowledge_score" = score_cell (has_col df0) r /\
  val r' "condom_use_freq" =
    (if Prepare.sentinel (val r "p73") then NA else val r "p73") /\
  val r' "always_condom" =
    (if Prepare.sentinel (val r "p73") then NA
     else astype_float (cell_eq (val r "p73") 1)) /\
  val r' "ever_condom" =
    (if Prepare.sentinel (val r "p73") then NA
     else astype_float (cell_isin (val r "p73") [1; 2]%Q)) /\
  val r' "partners_last_year" =
    (if cell_gt (val r "p71") 100 then NA
     else if cell_eq (val r "p71") 999 then NA else val r "p71") /\
  is_text (val r "p71") = false /\
  val r' "any_sti" =
    (if has_col df0 "its_alguna_vez"
     then astype_float (cell_eq (val r "its_alguna_vez") 1)
     else astype_float (existsb (fun v => cell_eq (val r v) 1) (sti_vars df0))).

(** A small aggregated table and a small raw table, for the examples. *)
Definition row_of (i : nat) (cols : list string) (cells : list cell) : Row :=
  mkRow i (fun k =>
    match find (fun kv => String.eqb k (fst kv)) (combine cols cells) with
    | Some kv => snd kv
    | None => NA
    end).

Fixpoint rows_from (i : nat) (cols : list string) (data : list (list cell)) : list Row :=
  match data with
  | [] => []
  | cells :: data' => row_of i cols cells :: rows_from (S i) cols data'
  end.

Definition table (cols : list string) (data : list (list cell)) : DataFrame :=
  mkDF cols (rows_from 0 cols data).

Definition code (z : Z) : cell := Num (Fin (inject_Z z)).

Definition no_text : string -> option cell := fun _ => None.

Definition demo_excel : DataFrame :=
  table [ "folio"; "p4"; "edad_grupo"; "p73"; "p71";
          "i_1_p212"; "i_2_p212"; "i_3_p212"; "i_4_p212"; "i_5_p212"; "i_6_p212";
          "p202_vih"; "p202_sifilis"; "p208" ]
    [ [code 1; code 34; code 2; code 1;  code 2;   code 1; code 1; code 1; code 2; code 2; code 1; code 2; code 1; code 1];
      [code 2; code 25; code 1; code 9;  code 1;   code 1; code 2; code 9; code 2; NA;     code 1; code 2; code 2; code 9];
      [code 3; code 61; code 5; NA;      code 3;   NA;     NA;     NA;     NA;     NA;     NA;     NA;     NA;     NA];
      [code 4; code 47; code 3; code 2;  code 999; code 1; code 1; code 1; code 1; code 1; code 1; code 2; code 2; code 2];
      [code 5; code 52; NA;     code 3;  code 150; code 2; code 2; code 2; code 2; code 2; code 2; code 1; code 2; code 1];
      [code 6; code 19; code 1; code 99; code 0;   code 99; code 1; code 1; code 2; code 2; code 9; code 2; code 2; code 1];
      [code 7; code 40; code 3; code 3;  code 1;   code 1; code 1; code 2; code 2; code 1; code 1; code 2; code 2; code 2] ].

Definition demo_csv : DataFrame :=
  table [ "folio"; "p4"; "p73"; "p71"; "i_1_p212"; "i_4_p212" ]
    [ [code 1; code 34;        code 1; code 2; code 1; code 2];
      [code 2; code 17;        code 2; code 1; code 1; code 1];
      [code 3; Text "n/a";     code 1; code 4; code 2; code 2];
      [code 4; Num (Fin (59 # 2)); code 3; code 1; NA; code 2];
      [code 5; NA;             code 1; code 1; code 1; code 2];
      [code 6; code 85;        code 2; code 3; code 9; code 9] ].

(** The point an item contributes: 1 when its column is in the table and the
    respondent's code equals the item's correct code, else 0. *)
Definition item_point (hc : string -> bool) (r : Row) (it : string * Q) : Z :=
  if hc (fst it) && cell_eq (val r (fst it)) (snd it) then 1%Z else 0%Z.

Definition points_of (hc : string -> bool) (r : Row) (its : list (string * Q)) : Z :=
  fold_right (fun it n => (item_point hc r it + n)%Z) 0%Z its.

(** The point [p] of one knowledge item for the raw record [r0]: 1 exactly
    when the item's column is in the table and the respondent's code equals
    the correct code [k], and otherwise 0, in particular for a column that is
    not in the table, a missing code and the codes 9 and 99. *)
Definition scores_item (raw : DataFrame) (r0 : Row) (item : string) (k : Q)
    (p : Z) : Prop :=
  (p = 1%Z <-> has_col raw item = true /\ cell_eq (val r0 item) k = true) /\
  (p = 0%Z \/ p = 1%Z) /\
  (has_col raw item = false -> p = 0%Z) /\
  (val r0 item = NA -> p = 0%Z) /\
  (Prepare.sentinel (val r0 item) = true -> p = 0%Z).

(** The three inclusion predicates on a row of the prepared table. *)
Definition has_partner (r : Row) : bool := cell_gt (val r "partners_last_year") 0.
Definition has_condom_use (r : Row) : bool := notna (val r "condom_use_freq").
Definition has_age (r : Row) : bool := notna (val r "edad_grupo").

(** The decade bins of the age groups: lower bound, and upper bound when
    there is one. *)
Definition bin_of (g : Z) : option (Q * option Q) :=
  match g with
  | 1%Z => Some (18, Some 30)
  | 2%Z => Some (30, Some 40)
  | 3%Z => Some (40, Some 50)
  | 4%Z => Some (50, Some 60)
  | 5%Z => Some (60, Some 70)
  | 6%Z => Some (70, Some 80)
  | 7%Z => Some (80, None)
  | _ => None
  end%Q.

Definition in_bin (x : xnum) (g : Z) : bool :=
  match bin_of g with
  | Some (lo, Some hi) => num_geb x lo && num_ltb x hi
  | Some (lo, None) => num_geb x lo
  | None => false
  end.

Section CommuteDefs.

Variable Inv : DataFrame -> Prop.

Definition preserves (f : DataFrame -> option DataFrame) : Prop :=
  forall df d, Inv df -> f df = Some d -> Inv d.

Definition commute (f g : DataFrame -> option DataFrame) : Prop :=
  forall df, Inv df -> bind (f df) g = bind (g df) f.

(** A step that, on frames satisfying [Inv], checks for column [c] and keeps
    the rows satisfying [p]. *)
Definition guarded (f : DataFrame -> option DataFrame) (c : string)
    (p : Row -> bool) : Prop :=
  forall df, Inv df ->
    f df = if has_col df c then Some (filter_rows p df) else None.

End CommuteDefs.

(** After step 4 the partner column holds numbers and missing values only. *)
Definition numeric_partners (df : DataFrame) : Prop :=
  numeric_col "partners_last_year" df = true.

(** The inclusion steps in the order of the script. *)
Definition cohort_steps : list (DataFrame -> option DataFrame) :=
  [ Prepare.sexually_active; Prepare.valid_condom_use; Prepare.valid_age ].


(** A small analytic table for the examples of the model frames. *)
Definition demo_battery : DataFrame :=
  table [ "edad_grupo"; "edad_grupo_lbl"; "hiv_knowledge_score"; "knows_prep";
          "tested_hiv_12mo"; "always_condom"; "partners_last_year"; "any_sti" ]
    [ [code 1; Text "18-29"; code 4; code 1; code 1; code 1; code 2; code 0];
      [code 2; Text "30-39"; code 5; code 0; code 0; code 0; code 1; code 0];
      [code 5; Text "60-69"; code 3; code 0; NA;     code 0; code 1; code 0];
      [code 1; Text "18-29"; code 2; NA;     code 1; code 1; NA;     code 0];
      [code 2; Text "30-39"; code 6; NA;     code 1; code 0; code 3; code 1];
      [NA;     NA;           code 0; code 1; code 1; code 0; code 1; code 0] ].


Definition strat_cols : list string :=
  ["always_condom"; "hiv_knowledge_score"; "partners_last_year"].

Section StratifiedDefs.

Variable Fit : Type.
Variable logit : string -> DataFrame -> option Fit.


End StratifiedDefs.

(** A stand-in fit for the examples: it fails on fewer than 30 rows. *)
Definition demo_logit (formula : string) (data : DataFrame) : option nat :=
  if (30 <=? Regression.len data)%nat then Some (Regression.len data) else None.


(** ** Further derived variables *)

(** The indicator of code 1 of a raw column: undefined for the whole column
    when the table lacks the column, undefined on a sentinel code. *)
Definition flag_of (present : bool) (c : cell) : cell :=
  if present then
    if Prepare.sentinel c then NA else astype_float (cell_eq c 1)
  else NA.

(** The copy of a raw code with the sentinels removed. *)
Definition code_of (present : bool) (c : cell) : cell :=
  if present then if Prepare.sentinel c then NA else c else NA.

(** What steps 3 to 7 make of the other derived columns of a row [r] of the
    loaded table [df0]. *)
Definition constructed_more (df0 : DataFrame) (r r' : Row) : Prop :=
  val r' "condom_use_lbl" = Prepare.condom_label (val r' "condom_use_freq") /\
  val r' "multiple_partners" =
    (if isna (val r' "partners_last_year") then NA
     else astype_float (cell_ge (val r' "partners_last_year") 2)) /\
  val r' "hiv_diagnosis" =
    (if has_col df0 "p202_vih"
     then astype_float (cell_eq (val r "p202_vih") 1) else NA) /\
  val r' "tested_hiv_12mo" = flag_of (has_col df0 "p208") (val r "p208") /\
  val r' "test_reason" = code_of (has_col df0 "p210") (val r "p210") /\
  val r' "no_test_reason" = code_of (has_col df0 "p211") (val r "p211") /\
  val r' "knows_prep" = flag_of (has_col df0 "p213") (val r "p213") /\
  val r' "edad_grupo_lbl" =
    (if has_col df0 "edad_grupo_lbl" then val r "edad_grupo_lbl"
     else Prepare.map_labels (val r "edad_grupo")).

(** [out] is the indicator of code 1 of the raw cell [c] of a column that the
    table has or lacks ([present]). *)
Definition is_flag_of (present : bool) (c out : cell) : Prop :=
  (present = false -> out = NA) /\
  (present = true ->
     (out = NA <-> cell_eq c 9 = true \/ cell_eq c 99 = true) /\
     (out = Num (Fin 1) <-> cell_eq c 1 = true) /\
     (out <> NA -> out = Num (Fin 1) \/ out = Num (Fin 0)) /\
     (c = NA -> out = Num (Fin 0))).

(** [out] is the raw cell [c] with the sentinel codes removed. *)
Definition is_code_of (present : bool) (c out : cell) : Prop :=
  (present = false -> out = NA) /\
  (present = true ->
     (out = NA <-> c = NA \/ cell_eq c 9 = true \/ cell_eq c 99 = true) /\
     (out <> NA -> out = c)).

(** * Properties *)

(** ** Frames: rows related one to one *)

Lemma Forall2_map_self (A B : Type) (R : A -> B -> Prop) (g : A -> B) (l : list A) :
  (forall a, In a l -> R a (g a)) -> Forall2 R l (map g l).
Proof.
  induction l as [|a l IH]; intros H; simpl; constructor.
  - apply H. now left.
  - apply IH. intros b Hb. apply H. now right.
Qed.

Lemma Forall2_compose (A B C : Type) (R : A -> B -> Prop) (S : B -> C -> Prop)
    (T : A -> C -> Prop) (l1 : list A) (l2 : list B) (l3 : list C) :
  (forall a b c, R a b -> S b c -> T a c) ->
  Forall2 R l1 l2 -> Forall2 S l2 l3 -> Forall2 T l1 l3.
Proof.
  intros H H12. revert l3.
  induction H12 as [|a b l1 l2 Hab _ IH]; intros l3 H23; inversion H23; subst.
  - constructor.
  - constructor; eauto.
Qed.

Lemma Forall2_weaken (A B : Type) (R S : A -> B -> Prop) (l1 : list A) (l2 : list B) :
  (forall a b, R a b -> S a b) -> Forall2 R l1 l2 -> Forall2 S l1 l2.
Proof. intros H H12. induction H12; constructor; auto. Qed.

Lemma Forall2_same (A : Type) (R : A -> A -> Prop) (l : list A) :
  (forall a, R a a) -> Forall2 R l l.
Proof. intros H. induction l; constructor; auto. Qed.

Lemma frame_refl (w : list string) (r : Row) : frame w r r.
Proof. split; auto. Qed.

Lemma frame_trans (w1 w2 w : list string) (a b c : Row) :
  (forall k, mem k w = false -> mem k w1 = false /\ mem k w2 = false) ->
  frame w1 a b -> frame w2 b c -> frame w a c.
Proof.
  intros Hw [Hi1 H1] [Hi2 H2]. split; [congruence|].
  intros k Hk. destruct (Hw k Hk) as [K1 K2].
  rewrite (H2 k K2). now apply H1.
Qed.

Lemma frame_set_cell (w : list string) (c : string) (v : cell) (r : Row) :
  mem c w = true -> frame w r (set_cell c v r).
Proof.
  intros Hc. split; [reflexivity|]. intros k Hk. simpl.
  destruct (String.eqb_spec k c) as [->|]; [congruence|reflexivity].
Qed.

Lemma val_set_cell_same (c : string) (v : cell) (r : Row) :
  val (set_cell c v r) c = v.
Proof. simpl. now rewrite String.eqb_refl. Qed.

Lemma val_set_cell_other (c k : string) (v : cell) (r : Row) :
  String.eqb k c = false -> val (set_cell c v r) k = val r k.
Proof. simpl. now intros ->. Qed.

Lemma has_col_assign (c k : string) (f : Row -> cell) (df : DataFrame) :
  has_col (assign c f df) k = String.eqb k c || has_col df k.
Proof.
  unfold has_col, assign, add_col. simpl.
  destruct (existsb (String.eqb c) (columns df)) eqn:E.
  - destruct (String.eqb_spec k c) as [->|]; simpl; [now rewrite E | reflexivity].
  - rewrite existsb_app. simpl. rewrite orb_false_r. apply orb_comm.
Qed.

Lemma has_col_add_cols (names : list string) (df df' : DataFrame) (k : string) :
  columns df' = add_cols names (columns df) ->
  mem k names = false -> has_col df' k = has_col df k.
Proof.
  unfold has_col. intros -> . generalize (columns df) as cols.
  induction names as [|c names IH]; intros cols Hk; simpl in *; [reflexivity|].
  apply orb_false_iff in Hk. destruct Hk as [Hc Hk].
  rewrite (IH _ Hk). unfold add_col.
  destruct (existsb (String.eqb c) cols); [reflexivity|].
  rewrite existsb_app. simpl. rewrite String.eqb_sym in Hc. rewrite String.eqb_sym, Hc.
  now rewrite !orb_false_r.
Qed.

Lemma filter_add_cols (p : string -> bool) (names cols : list string) :
  forallb (fun c => negb (p c)) names = true ->
  filter p (add_cols names cols) = filter p cols.
Proof.
  revert cols. induction names as [|c names IH]; intros cols H; simpl in *; [reflexivity|].
  apply andb_true_iff in H. destruct H as [Hc H]. rewrite (IH _ H).
  unfold add_col. destruct (existsb (String.eqb c) cols); [reflexivity|].
  rewrite filter_app. simpl. apply negb_true_iff in Hc. rewrite Hc. apply app_nil_r.
Qed.

(** ** Step lemmas of the derived-variable constructor *)

Ltac row_eval :=
  cbv beta;
  cbn [val set_cell ix String.eqb Ascii.eqb Bool.eqb andb orb negb rows columns map].

Ltac split_mem H :=
  unfold mem in H; cbn [existsb] in H;
  repeat (apply orb_false_iff in H; let K := fresh "K" in destruct H as [K H]).

Ltac solve_frame :=
  split;
  [ reflexivity
  | let k := fresh "k" in let Hk := fresh "Hk" in
    intros k Hk; split_mem Hk; row_eval;
    repeat match goal with
           | K : String.eqb k _ = false |- _ => rewrite K
           end;
    reflexivity ].

Lemma condom_use_rows (df df' : DataFrame) :
  Prepare.condom_use df = Some df' ->
  columns df' = add_cols ["condom_use_freq"; "always_condom"; "ever_condom"] (columns df) /\
  Forall2 (fun r r' =>
      frame ["condom_use_freq"; "always_condom"; "ever_condom"] r r' /\
      val r' "condom_use_freq" =
        (if Prepare.sentinel (val r "p73") then NA else val r "p73") /\
      val r' "always_condom" =
        (if Prepare.sentinel (val r "p73") then NA
         else astype_float (cell_eq (val r "p73") 1)) /\
      val r' "ever_condom" =
        (if Prepare.sentinel (val r "p73") then NA
         else astype_float (cell_isin (val r "p73") [1; 2]%Q)))
    (rows df) (rows df').
Proof.
  unfold Prepare.condom_use, require, bind.
  destruct (has_col df "p73"); [|discriminate].
  intros H. injection H as <-. split; [reflexivity|].
  unfold assign, loc_assign. row_eval. rewrite !map_map.
  apply Forall2_map_self. intros r _. 
  split; [solve_frame|]. row_eval. repeat split; reflexivity.
Qed.

Lemma numeric_col_map (c : string) (cols cols' : list string) (g : Row -> Row)
    (l : list Row) :
  (forall r, is_text (val (g r) c) = is_text (val r c)) ->
  numeric_col c (mkDF cols (map g l)) = numeric_col c (mkDF cols' l).
Proof.
  intros H. unfold numeric_col. simpl.
  induction l as [|r l IH]; simpl; [reflexivity|]. now rewrite H, IH.
Qed.

Lemma has_col_loc_assign (m : Row -> bool) (c k : string) (v : cell) (df : DataFrame) :
  has_col (loc_assign m c v df) k = has_col df k.
Proof. reflexivity. Qed.

Lemma numeric_col_forall (c : string) (df : DataFrame) :
  numeric_col c df = true <-> forall r, In r (rows df) -> is_text (val r c) = false.
Proof.
  unfold numeric_col. rewrite forallb_forall. split; intros H r Hr.
  - apply negb_true_iff. now apply H.
  - apply negb_true_iff. now apply H.
Qed.

Lemma numeric_col_assign_other (c c' : string) (f : Row -> cell) (df : DataFrame) :
  String.eqb c c' = false ->
  numeric_col c (assign c' f df) = numeric_col c df.
Proof.
  intros H. destruct df as [cols l]. unfold assign. cbn [rows columns].
  apply numeric_col_map. intros r. simpl. now rewrite H.
Qed.

Lemma numeric_col_loc_assign_other (c c' : string) (m : Row -> bool) (v : cell)
    (df : DataFrame) :
  String.eqb c c' = false ->
  numeric_col c (loc_assign m c' v df) = numeric_col c df.
Proof.
  intros H. destruct df as [cols l]. unfold loc_assign. cbn [rows columns].
  apply numeric_col_map. intros r. simpl. now rewrite H.
Qed.

Lemma partners_rows (df df' : DataFrame) :
  Prepare.partners df = Some df' ->
  numeric_col "p71" df = true /\
  columns df' = add_cols ["partners_last_year"; "multiple_partners"] (columns df) /\
  Forall2 (fun r r' =>
      frame ["partners_last_year"; "multiple_partners"] r r' /\
      val r' "partners_last_year" =
        (if cell_gt (val r "p71") 100 then NA
         else if cell_eq (val r "p71") 999 then NA else val r "p71"))
    (rows df) (rows df').
Proof.
  unfold Prepare.partners, series_gt, series_ge, require, bind.
  destruct (has_col df "p71") eqn:Hc; [|discriminate].
  rewrite has_col_loc_assign, has_col_assign, Hc, orb_true_r.
  rewrite numeric_col_loc_assign_other, numeric_col_assign_other by reflexivity.
  destruct (numeric_col "p71" df) eqn:Hn; [|discriminate].
  destruct (has_col _ "partners_last_year"); [|discriminate].
  destruct (numeric_col "partners_last_year" _); [|discriminate].
  intros H. injection H as <-. split; [reflexivity|]. split; [reflexivity|].
  unfold assign, loc_assign. row_eval. rewrite !map_map.
  apply Forall2_map_self. intros r _.
  split; [solve_frame|]. row_eval. reflexivity.
Qed.

Section FoldAssign.

Variables (X : Type) (key : X -> string) (col : string).
Variable upd : cell -> cell -> X -> cell.

Lemma fold_cell_ext (hc hc' : string -> bool) (r r' : Row) (xs : list X) (acc : cell) :
  (forall x, In x xs -> hc (key x) = hc' (key x) /\ val r (key x) = val r' (key x)) ->
  fold_cell key upd hc r xs acc = fold_cell key upd hc' r' xs acc.
Proof.
  revert acc. induction xs as [|x xs IH]; intros acc H; simpl; [reflexivity|].
  destruct (H x (or_introl eq_refl)) as [-> ->].
  apply IH. intros y Hy. apply H. now right.
Qed.

Lemma fold_step_columns (d : DataFrame) (x : X) :
  has_col d col = true -> columns (fold_step key col upd d x) = columns d.
Proof.
  intros H. unfold fold_step. destruct (has_col d (key x)); [|reflexivity].
  unfold assign, add_col. simpl. unfold has_col in H. now rewrite H.
Qed.

Lemma fold_step_rows (xs : list X) : forall d : DataFrame,
  has_col d col = true ->
  (forall x, In x xs -> String.eqb (key x) col = false) ->
  columns (fold_left (fold_step key col upd) xs d) = columns d /\
  Forall2 (fun r r' =>
      frame [col] r r' /\ val r' col = fold_cell key upd (has_col d) r xs (val r col))
    (rows d) (rows (fold_left (fold_step key col upd) xs d)).
Proof.
  induction xs as [|x xs IH]; intros d Hcol Hkey; simpl.
  - split; [reflexivity|]. apply Forall2_same. intros r. split; [apply frame_refl|reflexivity].
  - assert (Hc1 : columns (fold_step key col upd d x) = columns d) by now apply fold_step_columns.
    assert (Hcol1 : has_col (fold_step key col upd d x) col = true)
      by (unfold has_col; rewrite Hc1; exact Hcol).
    destruct (IH (fold_step key col upd d x) Hcol1) as [Hc2 HF].
    { intros y Hy. apply Hkey. now right. }
    split; [congruence|].
    apply Forall2_compose with
      (R := fun r r1 => frame [col] r r1 /\
              val r1 col = (if has_col d (key x)
                            then upd (val r col) (val r (key x)) x else val r col))
      (S := fun r1 r' => frame [col] r1 r' /\
              val r' col = fold_cell key upd (has_col (fold_step key col upd d x)) r1 xs (val r1 col))
      (l2 := rows (fold_step key col upd d x)); [| |exact HF].
    + intros a b c [Fab Hab] [Fbc Hbc]. split.
      * eapply frame_trans; [|exact Fab|exact Fbc]. intros k Hk; now split.
      * rewrite Hbc, Hab. apply fold_cell_ext. intros y Hy. split.
        -- unfold has_col. now rewrite Hc1.
        -- apply Fab. unfold mem. simpl. rewrite Hkey by now right. reflexivity.
    + unfold fold_step. destruct (has_col d (key x)).
      * unfold assign. simpl. apply Forall2_map_self. intros r _. split.
        -- apply frame_set_cell. unfold mem. simpl. now rewrite String.eqb_refl.
        -- simpl. now rewrite String.eqb_refl.
      * apply Forall2_same. intros r. split; [apply frame_refl|reflexivity].
Qed.

End FoldAssign.

Lemma knowledge_score_rows (df : DataFrame) :
  columns (Prepare.knowledge_score df) = add_cols ["hiv_knowledge_score"] (columns df) /\
  Forall2 (fun r r' =>
      frame ["hiv_knowledge_score"] r r' /\
      val r' "hiv_knowledge_score" = score_cell (has_col df) r)
    (rows df) (rows (Prepare.knowledge_score df)).
Proof.
  set (d := assign "hiv_knowledge_score" (fun _ => Num (Fin 0)) df).
  assert (Hd : has_col d "hiv_knowledge_score" = true)
    by (unfold d; now rewrite has_col_assign).
  destruct (@fold_step_rows _ (@fst string Q) "hiv_knowledge_score" score_upd
              Prepare.hiv_items d Hd) as [Hc HF].
  { intros x Hx. simpl in Hx.
    repeat (destruct Hx as [<-|Hx]; [reflexivity|]). destruct Hx. }
  split; [exact Hc|].
  apply Forall2_compose with
    (R := fun r r1 => r1 = set_cell "hiv_knowledge_score" (Num (Fin 0)) r)
    (S := fun r1 r' => frame ["hiv_knowledge_score"] r1 r' /\
            val r' "hiv_knowledge_score" =
              fold_cell (@fst string Q) score_upd (has_col d) r1 Prepare.hiv_items
                (val r1 "hiv_knowledge_score"))
    (l2 := rows d); [| |exact HF].
  - intros a b c -> [F H]. split.
    + apply (@frame_trans ["hiv_knowledge_score"] ["hiv_knowledge_score"] _ a
               (set_cell "hiv_knowledge_score" (Num (Fin 0)) a) c);
        [intros k Hk; now split|apply frame_set_cell; reflexivity|exact F].
    + rewrite H. unfold score_cell. apply fold_cell_ext. intros x Hx.
      simpl in Hx. unfold d.
      repeat (destruct Hx as [<-|Hx];
              [split; [now rewrite has_col_assign|reflexivity]|]).
      destruct Hx.
  - unfold d, assign. simpl. apply Forall2_map_self. intros r _. reflexivity.
Qed.

Lemma cell_eq_astype_float (b : bool) : cell_eq (astype_float b) 1 = b.
Proof. now destruct b. Qed.

Lemma fold_cell_sti (hc : string -> bool) (r : Row) (vars : list string) (b : bool) :
  fold_cell (fun v : string => v) sti_upd hc r vars (astype_float b) =
  astype_float (b || existsb (fun v => hc v && cell_eq (val r v) 1) vars).
Proof.
  revert b. induction vars as [|v vars IH]; intros b; simpl.
  - now rewrite orb_false_r.
  - destruct (hc v); simpl.
    + unfold sti_upd. rewrite cell_eq_astype_float, IH. now rewrite orb_assoc.
    + apply IH.
Qed.

Lemma existsb_ext_in (A : Type) (f g : A -> bool) (l : list A) :
  (forall a, In a l -> f a = g a) -> existsb f l = existsb g l.
Proof.
  induction l as [|a l IH]; intros H; simpl; [reflexivity|].
  rewrite (H a) by now left. rewrite IH; [reflexivity|].
  intros b Hb. apply H. now right.
Qed.

Lemma has_col_In (df : DataFrame) (c : string) :
  has_col df c = true <-> In c (columns df).
Proof.
  unfold has_col. rewrite existsb_exists. split.
  - intros [x [Hx He]]. apply String.eqb_eq in He. now subst.
  - intros H. exists c. split; [exact H|apply String.eqb_refl].
Qed.

Lemma sti_rows (df : DataFrame) :
  columns (Prepare.sti df) = add_cols ["any_sti"; "hiv_diagnosis"] (columns df) /\
  Forall2 (fun r r' =>
      frame ["any_sti"; "hiv_diagnosis"] r r' /\
      val r' "any_sti" =
        (if has_col df "its_alguna_vez"
         then astype_float (cell_eq (val r "its_alguna_vez") 1)
         else astype_float (existsb (fun v => cell_eq (val r v) 1) (sti_vars df))))
    (rows df) (rows (Prepare.sti df)).
Proof.
  unfold Prepare.sti. fold (sti_vars df).
  set (d1 := if has_col df "its_alguna_vez" then _ else _).
  assert (H1 : columns d1 = add_cols ["any_sti"] (columns df) /\
    Forall2 (fun r r' =>
      frame ["any_sti"] r r' /\
      val r' "any_sti" =
        (if has_col df "its_alguna_vez"
         then astype_float (cell_eq (val r "its_alguna_vez") 1)
         else astype_float (existsb (fun v => cell_eq (val r v) 1) (sti_vars df))))
    (rows df) (rows d1)).
  { unfold d1. destruct (has_col df "its_alguna_vez").
    - split; [reflexivity|]. unfold assign. simpl.
      apply Forall2_map_self. intros r _. split; [solve_frame|reflexivity].
    - set (d := assign "any_sti" (fun _ => Num (Fin 0)) df).
      assert (Hd : has_col d "any_sti" = true) by (unfold d; now rewrite has_col_assign).
      assert (Hv : forall v, In v (sti_vars df) ->
                String.eqb v "any_sti" = false /\ has_col d v = true).
      { intros v Hv. apply filter_In in Hv. destruct Hv as [Hin Hp]. split.
        - destruct (String.eqb_spec v "any_sti") as [->|]; [discriminate Hp|reflexivity].
        - unfold d. rewrite has_col_assign. apply has_col_In in Hin. rewrite Hin.
          apply orb_true_r. }
      destruct (@fold_step_rows _ (fun v : string => v) "any_sti" sti_upd
                  (sti_vars df) d Hd) as [Hc HF].
      { intros v Hin. now apply Hv. }
      split; [exact Hc|].
      apply Forall2_compose with
        (R := fun r r1 => r1 = set_cell "any_sti" (Num (Fin 0)) r)
        (S := fun r1 r' => frame ["any_sti"] r1 r' /\
                val r' "any_sti" =
                  fold_cell (fun v : string => v) sti_upd (has_col d) r1 (sti_vars df)
                    (val r1 "any_sti"))
        (l2 := rows d); [| |exact HF].
      + intros a b c -> [F H]. split.
        * apply (@frame_trans ["any_sti"] ["any_sti"] _ a
                   (set_cell "any_sti" (Num (Fin 0)) a) c);
            [intros k Hk; now split|apply frame_set_cell; reflexivity|exact F].
        * rewrite H. change (val (set_cell "any_sti" (Num (Fin 0)) a) "any_sti")
            with (astype_float false).
          rewrite fold_cell_sti. simpl. f_equal. apply existsb_ext_in.
          intros v Hin. destruct (Hv v Hin) as [Hne Hh]. rewrite Hh, Hne. reflexivity.
      + unfold d, assign. simpl. apply Forall2_map_self. intros r _. reflexivity. }
  destruct H1 as [Hc1 HF1].
  assert (H2 : forall f,
    columns (assign "hiv_diagnosis" f d1) = add_cols ["any_sti"; "hiv_diagnosis"] (columns df) /\
    Forall2 (fun r r' => frame ["hiv_diagnosis"] r r') (rows d1)
      (rows (assign "hiv_diagnosis" f d1))).
  { intros f. split.
    - unfold assign. simpl. now rewrite Hc1.
    - unfold assign. simpl. apply Forall2_map_self. intros r _. solve_frame. }
  assert (H3 : forall d2,
    columns d2 = add_cols ["any_sti"; "hiv_diagnosis"] (columns df) /\
    Forall2 (fun r r' => frame ["hiv_diagnosis"] r r') (rows d1) (rows d2) ->
    columns d2 = add_cols ["any_sti"; "hiv_diagnosis"] (columns df) /\
    Forall2 (fun r r' =>
      frame ["any_sti"; "hiv_diagnosis"] r r' /\
      val r' "any_sti" =
        (if has_col df "its_alguna_vez"
         then astype_float (cell_eq (val r "its_alguna_vez") 1)
         else astype_float (existsb (fun v => cell_eq (val r v) 1) (sti_vars df))))
      (rows df) (rows d2)).
  { intros d2 [Hc2 HF2]. split; [exact Hc2|].
    eapply Forall2_compose; [|exact HF1|exact HF2].
    intros a b c [Fab Hab] Fbc. split.
    - apply (@frame_trans ["any_sti"] ["hiv_diagnosis"] _ a b c); [|exact Fab|exact Fbc].
      intros k Hk. split_mem Hk. unfold mem. simpl. rewrite K, K0. now split.
    - rewrite <- Hab. apply Fbc. reflexivity. }
  destruct (has_col d1 "p202_vih"); apply H3, H2.
Qed.

Lemma flag_1_rows (raw out : string) (df : DataFrame) :
  Forall2 (frame [out]) (rows df) (rows (Prepare.flag_1 raw out df)).
Proof.
  unfold Prepare.flag_1. destruct (has_col df raw);
    unfold assign, loc_assign; row_eval; rewrite ?map_map;
    apply Forall2_map_self; intros r _; solve_frame.
Qed.

Lemma copy_code_rows (raw out : string) (df : DataFrame) :
  Forall2 (frame [out]) (rows df) (rows (Prepare.copy_code raw out df)).
Proof.
  unfold Prepare.copy_code. destruct (has_col df raw);
    unfold assign, loc_assign; row_eval; rewrite ?map_map;
    apply Forall2_map_self; intros r _; solve_frame.
Qed.

Lemma frame_weaken (w w' : list string) (r r' : Row) :
  forallb (fun c => mem c w') w = true -> frame w r r' -> frame w' r r'.
Proof.
  intros H [Hi Hf]. split; [exact Hi|]. intros k Hk. apply Hf.
  destruct (mem k w) eqn:E; [|reflexivity].
  unfold mem in E. apply existsb_exists in E. destruct E as [c [Hc He]].
  apply String.eqb_eq in He. subst c.
  rewrite forallb_forall in H. rewrite (H k Hc) in Hk. discriminate.
Qed.

Lemma frame_trans_same (w : list string) (a b c : Row) :
  frame w a b -> frame w b c -> frame w a c.
Proof. apply frame_trans. intros k Hk. now split. Qed.

Lemma testing_rows (df : DataFrame) :
  Forall2 (frame testing_names) (rows df) (rows (Prepare.testing df)).
Proof.
  unfold Prepare.testing.
  pose proof (flag_1_rows "p208" "tested_hiv_12mo" df) as H1.
  pose proof (copy_code_rows "p210" "test_reason"
                (Prepare.flag_1 "p208" "tested_hiv_12mo" df)) as H2.
  pose proof (copy_code_rows "p211" "no_test_reason"
                (Prepare.copy_code "p210" "test_reason"
                   (Prepare.flag_1 "p208" "tested_hiv_12mo" df))) as H3.
  pose proof (flag_1_rows "p213" "knows_prep"
                (Prepare.copy_code "p211" "no_test_reason"
                   (Prepare.copy_code "p210" "test_reason"
                      (Prepare.flag_1 "p208" "tested_hiv_12mo" df)))) as H4.
  eapply Forall2_compose; [| |exact H4].
  2:{ eapply Forall2_compose; [| |exact H3].
      2:{ eapply Forall2_compose; [|exact H1|exact H2].
          intros a b c Fab Fbc.
          apply (@frame_trans_same testing_names a b c);
            [eapply frame_weaken; [|exact Fab]|eapply frame_weaken; [|exact Fbc]];
            reflexivity. }
      intros a b c Fab Fbc.
      apply (@frame_trans_same testing_names a b c);
        [exact Fab|eapply frame_weaken; [|exact Fbc]]; reflexivity. }
  intros a b c Fab Fbc.
  apply (@frame_trans_same testing_names a b c);
    [exact Fab|eapply frame_weaken; [|exact Fbc]]; reflexivity.
Qed.

Lemma age_group_labels_rows (df df' : DataFrame) :
  Prepare.age_group_labels df = Some df' ->
  Forall2 (frame ["edad_grupo_lbl"]) (rows df) (rows df').
Proof.
  unfold Prepare.age_group_labels, require, bind.
  destruct (has_col df "edad_grupo_lbl").
  - intros H. injection H as <-. apply Forall2_same. intros r. apply frame_refl.
  - destruct (has_col df "edad_grupo"); [|discriminate].
    intros H. injection H as <-. unfold assign. simpl.
    apply Forall2_map_self. intros r _. solve_frame.
Qed.

Lemma prefix_not_derived (v : string) :
  String.prefix "p202_" v = true -> mem v derived_names = false.
Proof.
  intros Hp. destruct (mem v derived_names) eqn:E; [|reflexivity].
  unfold mem in E. apply existsb_exists in E. destruct E as [c [Hc He]].
  apply String.eqb_eq in He. subst c. simpl in Hc.
  repeat (destruct Hc as [<-|Hc]; [discriminate Hp|]). destruct Hc.
Qed.

Lemma Forall2_chain (A B C : Type) (R : A -> B -> Prop) (S : B -> C -> Prop)
    (l1 : list A) (l2 : list B) (l3 : list C) :
  Forall2 R l1 l2 -> Forall2 S l2 l3 ->
  Forall2 (fun a c => exists b, R a b /\ S b c) l1 l3.
Proof. apply Forall2_compose. intros a b c H1 H2. now exists b. Qed.

Lemma Forall2_right (A B : Type) (R : A -> B -> Prop) (P : B -> Prop)
    (l1 : list A) (l2 : list B) :
  Forall2 R l1 l2 -> (forall b, In b l2 -> P b) ->
  Forall2 (fun a b => R a b /\ P b) l1 l2.
Proof.
  induction 1 as [|a b l1 l2 Hab _ IH]; intros HP; constructor.
  - split; [exact Hab|]. apply HP. now left.
  - apply IH. intros c Hc. apply HP. now right.
Qed.

Lemma construct_rows (df df' : DataFrame) :
  Prepare.construct df = Some df' ->
  Forall2 (constructed df) (rows df) (rows df').
Proof.
  unfold Prepare.construct, bind.
  destruct (Prepare.condom_use (Prepare.knowledge_score df)) as [d3|] eqn:E3; [|discriminate].
  destruct (Prepare.partners _) as [d4|] eqn:E4; [|discriminate].
  intros E7.
  destruct (knowledge_score_rows df) as [C2 F2].
  destruct (condom_use_rows _ E3) as [C3 F3].
  destruct (partners_rows _ E4) as [N4 [C4 F4]].
  destruct (sti_rows d4) as [_ F5].
  pose proof (testing_rows (Prepare.sti d4)) as F6.
  pose proof (age_group_labels_rows _ E7) as F7.
  set (d3' := assign "condom_use_lbl"
                (fun r => Prepare.condom_label (val r "condom_use_freq")) d3) in *.
  assert (FL : Forall2 (fun r r' => frame ["condom_use_lbl"] r r' /\
                          is_text (val r' "p71") = false) (rows d3) (rows d3')).
  { apply Forall2_right.
    - unfold d3', assign. simpl. apply Forall2_map_self. intros r _. solve_frame.
    - now apply numeric_col_forall. }
  assert (Cd4 : columns d4 =
      add_cols ["hiv_knowledge_score"; "condom_use_freq"; "always_condom";
                "ever_condom"; "condom_use_lbl"; "partners_last_year";
                "multiple_partners"] (columns df)).
  { rewrite C4. unfold d3', assign. cbn [columns]. rewrite C3, C2. reflexivity. }
  assert (Hits : has_col d4 "its_alguna_vez" = has_col df "its_alguna_vez")
    by (eapply has_col_add_cols; [exact Cd4|reflexivity]).
  assert (Hvars : sti_vars d4 = sti_vars df).
  { unfold sti_vars. rewrite Cd4. apply filter_add_cols. reflexivity. }
  rewrite Hits, Hvars in F5.
  pose proof (Forall2_chain (Forall2_chain (Forall2_chain (Forall2_chain
                (Forall2_chain (Forall2_chain F2 F3) FL) F4) F5) F6) F7) as F.
  revert F. apply Forall2_weaken. intros r r7.
  intros [r6 [H6 G7]]. destruct H6 as [r5 [H5 G6]].
  destruct H5 as [r4 [H4 [G5 V5]]]. destruct H4 as [r3' [HL [G4 V4]]].
  destruct HL as [r3 [H3 [GL TL]]].
  destruct H3 as [r2 [[G2 S2] [G3 [V3a [V3b V3c]]]]].
  assert (W2 : frame derived_names r r2) by (eapply frame_weaken; [|exact G2]; reflexivity).
  assert (W3 : frame derived_names r2 r3) by (eapply frame_weaken; [|exact G3]; reflexivity).
  assert (WL : frame derived_names r3 r3') by (eapply frame_weaken; [|exact GL]; reflexivity).
  assert (W4 : frame derived_names r3' r4) by (eapply frame_weaken; [|exact G4]; reflexivity).
  assert (W5 : frame derived_names r4 r5) by (eapply frame_weaken; [|exact G5]; reflexivity).
  assert (W6 : frame derived_names r5 r6) by (eapply frame_weaken; [|exact G6]; reflexivity).
  assert (W7 : frame derived_names r6 r7) by (eapply frame_weaken; [|exact G7]; reflexivity).
  pose proof (frame_trans_same W2 W3) as A3.
  pose proof (frame_trans_same A3 WL) as AL.
  pose proof (frame_trans_same AL W4) as A4.
  assert (P73 : val r2 "p73" = val r "p73") by (apply G2; reflexivity).
  assert (P71 : val r3' "p71" = val r "p71") by (apply AL; reflexivity).
  assert (T7 : forall c, mem c (testing_names ++ ["edad_grupo_lbl"]) = false ->
                         val r7 c = val r5 c).
  { intros c Hc. unfold mem in Hc. rewrite existsb_app in Hc.
    apply orb_false_iff in Hc. destruct Hc as [Hc1 Hc2].
    rewrite (proj2 G7 c Hc2). now apply G6. }
  split.
  { exact (frame_trans_same (frame_trans_same (frame_trans_same A4 W5) W6) W7). }
  split.
  { rewrite T7 by reflexivity. rewrite (proj2 G5) by reflexivity.
    rewrite (proj2 G4) by reflexivity. rewrite (proj2 GL) by reflexivity.
    rewrite (proj2 G3) by reflexivity. exact S2. }
  rewrite <- P73.
  split.
  { rewrite T7 by reflexivity. rewrite (proj2 G5) by reflexivity.
    rewrite (proj2 G4) by reflexivity. rewrite (proj2 GL) by reflexivity. exact V3a. }
  split.
  { rewrite T7 by reflexivity. rewrite (proj2 G5) by reflexivity.
    rewrite (proj2 G4) by reflexivity. rewrite (proj2 GL) by reflexivity. exact V3b. }
  split.
  { rewrite T7 by reflexivity. rewrite (proj2 G5) by reflexivity.
    rewrite (proj2 G4) by reflexivity. rewrite (proj2 GL) by reflexivity. exact V3c. }
  rewrite <- P71.
  split.
  { rewrite T7 by reflexivity. rewrite (proj2 G5) by reflexivity. exact V4. }
  split; [exact TL|].
  rewrite T7 by reflexivity. rewrite V5.
  rewrite (proj2 A4 "its_alguna_vez") by reflexivity.
  destruct (has_col df "its_alguna_vez"); [reflexivity|].
  f_equal. apply existsb_ext_in. intros v Hv.
  rewrite (proj2 A4 v); [reflexivity|].
  apply prefix_not_derived. unfold sti_vars in Hv. apply filter_In in Hv. apply Hv.
Qed.

(** ** The prepared table *)

Lemma prepare_inv (fot : string -> option cell) (excel csv : option DataFrame)
    (df sample : DataFrame) :
  Prepare.prepare fot excel csv = Some (df, sample) ->
  exists raw, Prepare.load fot excel csv = Some raw /\
              Prepare.construct raw = Some df /\
              Prepare.df_analysis df = Some sample.
Proof.
  unfold Prepare.prepare, Prepare.derived, bind.
  destruct (Prepare.load fot excel csv) as [raw|]; [|discriminate].
  destruct (Prepare.construct raw) as [d|] eqn:E; [|discriminate].
  destruct (Prepare.df_analysis d) as [s|] eqn:Es; [|discriminate].
  intros H. injection H as <- <-. now exists raw.
Qed.

Lemma prepare_rows (fot : string -> option cell) (excel csv : option DataFrame)
    (raw df sample : DataFrame) :
  Prepare.load fot excel csv = Some raw ->
  Prepare.prepare fot excel csv = Some (df, sample) ->
  Forall2 (constructed raw) (rows raw) (rows df).
Proof.
  intros Hl Hp. destruct (prepare_inv _ _ _ Hp) as [raw' [Hl' [Hc _]]].
  rewrite Hl in Hl'. injection Hl' as <-. now apply construct_rows.
Qed.

Lemma sentinel_iff (c : cell) :
  Prepare.sentinel c = true <-> cell_eq c 9 = true \/ cell_eq c 99 = true.
Proof.
  unfold Prepare.sentinel, cell_isin. simpl. rewrite orb_false_r.
  apply orb_true_iff.
Qed.

(** C1.  In the prepared table, [always_condom] of a respondent is undefined
    exactly when the raw code [p73] is 9 or 99; otherwise it is 1.0 when the
    raw code is 1 and 0.0 for any other raw value.  With a sentinel code,
    [condom_use_freq] and [ever_condom] are undefined too. *)
Theorem always_condom_undefined_iff_sentinel
    (fot : string -> option cell) (excel csv : option DataFrame)
    (raw df sample : DataFrame) :
  Prepare.load fot excel csv = Some raw ->
  Prepare.prepare fot excel csv = Some (df, sample) ->
  Forall2 (fun r0 r =>
      (val r "always_condom" = NA <->
       cell_eq (val r0 "p73") 9 = true \/ cell_eq (val r0 "p73") 99 = true) /\
      (val r "always_condom" <> NA ->
       (cell_eq (val r0 "p73") 1 = true -> val r "always_condom" = Num (Fin 1)) /\
       (cell_eq (val r0 "p73") 1 = false -> val r "always_condom" = Num (Fin 0))) /\
      (cell_eq (val r0 "p73") 9 = true \/ cell_eq (val r0 "p73") 99 = true ->
       val r "condom_use_freq" = NA /\ val r "always_condom" = NA /\
       val r "ever_condom" = NA))
    (rows raw) (rows df).
Proof.
  intros Hl Hp. pose proof (prepare_rows _ _ _ Hl Hp) as F.
  revert F. apply Forall2_weaken. intros r0 r [_ [_ [Hf [Ha [He _]]]]].
  rewrite <- sentinel_iff. rewrite Ha, Hf, He.
  destruct (Prepare.sentinel (val r0 "p73")).
  - split; [tauto|]. split; [congruence|]. auto.
  - split.
    + split; [|discriminate]. destruct (cell_eq (val r0 "p73") 1); discriminate.
    + split; [|discriminate]. intros _. split; intros ->; reflexivity.
Qed.

Lemma always_condom_undefined_iff_sentinel_witness :
  exists df sample,
    Prepare.prepare no_text (Some demo_excel) None = Some (df, sample) /\
    Forall2 (fun r0 r =>
      (val r "always_condom" = NA <->
       cell_eq (val r0 "p73") 9 = true \/ cell_eq (val r0 "p73") 99 = true) /\
      (val r "always_condom" <> NA ->
       (cell_eq (val r0 "p73") 1 = true -> val r "always_condom" = Num (Fin 1)) /\
       (cell_eq (val r0 "p73") 1 = false -> val r "always_condom" = Num (Fin 0))) /\
      (cell_eq (val r0 "p73") 9 = true \/ cell_eq (val r0 "p73") 99 = true ->
       val r "condom_use_freq" = NA /\ val r "always_condom" = NA /\
       val r "ever_condom" = NA))
    (rows demo_excel) (rows df).
Proof.
  eexists. eexists. split; [vm_compute; reflexivity|].
  eapply (@always_condom_undefined_iff_sentinel no_text (Some demo_excel) None
            demo_excel); [reflexivity|vm_compute; reflexivity].
Defined.

(** C9.  A respondent whose raw code [p73] is missing (not a sentinel code)
    has [always_condom] and [ever_condom] both defined and equal to 0.0. *)
Theorem missing_condom_code_scored_zero
    (fot : string -> option cell) (excel csv : option DataFrame)
    (raw df sample : DataFrame) :
  Prepare.load fot excel csv = Some raw ->
  Prepare.prepare fot excel csv = Some (df, sample) ->
  Forall2 (fun r0 r =>
      val r0 "p73" = NA ->
      val r "always_condom" = Num (Fin 0) /\ val r "ever_condom" = Num (Fin 0))
    (rows raw) (rows df).
Proof.
  intros Hl Hp. pose proof (prepare_rows _ _ _ Hl Hp) as F.
  revert F. apply Forall2_weaken. intros r0 r [_ [_ [_ [Ha [He _]]]]] Hna.
  rewrite Ha, He, Hna. split; reflexivity.
Qed.

Lemma missing_condom_code_scored_zero_witness :
  exists df sample,
    Prepare.prepare no_text (Some demo_excel) None = Some (df, sample) /\
    Forall2 (fun r0 r =>
      val r0 "p73" = NA ->
      val r "always_condom" = Num (Fin 0) /\ val r "ever_condom" = Num (Fin 0))
    (rows demo_excel) (rows df).
Proof.
  eexists. eexists. split; [vm_compute; reflexivity|].
  eapply (@missing_condom_code_scored_zero no_text (Some demo_excel) None
            demo_excel); [reflexivity|vm_compute; reflexivity].
Defined.

Lemma Qplus_inject_Z (a b : Z) : (inject_Z a + inject_Z b)%Q = inject_Z (a + b).
Proof. unfold Qplus, inject_Z. simpl. f_equal. lia. Qed.

Lemma fold_cell_points (hc : string -> bool) (r : Row) (its : list (string * Q)) (a : Z) :
  fold_cell (@fst string Q) score_upd hc r its (Num (Fin (inject_Z a))) =
  Num (Fin (inject_Z (a + points_of hc r its))).
Proof.
  unfold fold_cell, points_of.
  revert a. induction its as [|it its IH]; intros a; cbn [fold_left fold_right].
  - now rewrite Z.add_0_r.
  - unfold item_point at 1. destruct (hc (fst it)); cbn [andb].
    + unfold score_upd, astype_int, cell_add, num_add.
      destruct (cell_eq (val r (fst it)) (snd it)).
      * change 1%Q with (inject_Z 1). rewrite Qplus_inject_Z, IH.
        apply (f_equal (fun z => Num (Fin (inject_Z z)))). lia.
      * change 0%Q with (inject_Z 0). rewrite Qplus_inject_Z, IH.
        apply (f_equal (fun z => Num (Fin (inject_Z z)))). lia.
    + rewrite IH. apply (f_equal (fun z => Num (Fin (inject_Z z)))). lia.
Qed.

Lemma points_of_bounds (hc : string -> bool) (r : Row) (its : list (string * Q)) :
  (0 <= points_of hc r its <= Z.of_nat (List.length its))%Z.
Proof.
  induction its as [|it its IH]; simpl points_of; [simpl; lia|].
  rewrite length_cons, Nat2Z.inj_succ.
  unfold item_point. destruct (hc (fst it) && cell_eq (val r (fst it)) (snd it)); lia.
Qed.

Lemma sentinel_not_correct (c : cell) (it : string * Q) :
  In it Prepare.hiv_items -> Prepare.sentinel c = true -> cell_eq c (snd it) = false.
Proof.
  intros Hit Hs. apply sentinel_iff in Hs.
  destruct c as [|[q| |]|s]; try reflexivity.
  simpl in *. rewrite !Qeq_bool_iff in Hs.
  apply not_true_is_false. rewrite Qeq_bool_iff. intros He.
  repeat (destruct Hit as [<-|Hit]; [simpl in He; destruct Hs as [Hs|Hs]; lra|]).
  destruct Hit.
Qed.

Lemma item_point_scores (raw : DataFrame) (r0 : Row) (item : string) (k : Q) :
  ~ k == 9 -> ~ k == 99 ->
  scores_item raw r0 item k (item_point (has_col raw) r0 (item, k)).
Proof.
  intros H9 H99. unfold scores_item, item_point. cbn [fst snd].
  assert (Hs : Prepare.sentinel (val r0 item) = true ->
               cell_eq (val r0 item) k = false).
  { intros Hs. apply sentinel_iff in Hs.
    destruct (val r0 item) as [|[q| |]|s]; try reflexivity.
    simpl in *. rewrite !Qeq_bool_iff in Hs.
    apply not_true_is_false. rewrite Qeq_bool_iff. intros He.
    destruct Hs as [Hs|Hs]; [apply H9|apply H99]; rewrite <- He, <- Hs; reflexivity. }
  assert (Hna : val r0 item = NA -> cell_eq (val r0 item) k = false)
    by (intros ->; reflexivity).
  destruct (has_col raw item); destruct (cell_eq (val r0 item) k); cbn [andb];
    (split; [split; [intros H; first [discriminate H | now split]
                    |intros [H1 H2]; first [reflexivity | discriminate]]|]);
    (split; [auto|]);
    (split; [intros H; first [reflexivity | discriminate H]|]);
    (split; intros H; first [reflexivity | apply Hna in H; discriminate H
                            | apply Hs in H; discriminate H]).
Qed.

(** C2.  In the prepared table every respondent has a defined integer
    [hiv_knowledge_score] between 0 and 6: the sum of the points of the six
    items [i_1_p212] .. [i_6_p212], whose correct codes are 1, 1, 1, 2, 2
    and 1.  An item gives 1 point exactly when its column is in the table
    and the respondent's code equals its correct code; a missing code, the
    codes 9 and 99 and an item whose column is not in the table give 0. *)
Theorem knowledge_score_defined_in_range
    (fot : string -> option cell) (excel csv : option DataFrame)
    (raw df sample : DataFrame) :
  Prepare.load fot excel csv = Some raw ->
  Prepare.prepare fot excel csv = Some (df, sample) ->
  Forall2 (fun r0 r =>
      exists p1 p2 p3 p4 p5 p6 : Z,
        val r "hiv_knowledge_score" =
          Num (Fin (inject_Z (p1 + p2 + p3 + p4 + p5 + p6))) /\
        (0 <= p1 + p2 + p3 + p4 + p5 + p6 <= 6)%Z /\
        scores_item raw r0 "i_1_p212" 1 p1 /\
        scores_item raw r0 "i_2_p212" 1 p2 /\
        scores_item raw r0 "i_3_p212" 1 p3 /\
        scores_item raw r0 "i_4_p212" 2 p4 /\
        scores_item raw r0 "i_5_p212" 2 p5 /\
        scores_item raw r0 "i_6_p212" 1 p6)
    (rows raw) (rows df).
Proof.
  intros Hl Hp. pose proof (prepare_rows _ _ _ Hl Hp) as F.
  revert F. apply Forall2_weaken. intros r0 r [_ [Hs _]].
  exists (item_point (has_col raw) r0 ("i_1_p212", 1%Q)),
         (item_point (has_col raw) r0 ("i_2_p212", 1%Q)),
         (item_point (has_col raw) r0 ("i_3_p212", 1%Q)),
         (item_point (has_col raw) r0 ("i_4_p212", 2%Q)),
         (item_point (has_col raw) r0 ("i_5_p212", 2%Q)),
         (item_point (has_col raw) r0 ("i_6_p212", 1%Q)).
  assert (E : points_of (has_col raw) r0 Prepare.hiv_items =
              (item_point (has_col raw) r0 ("i_1_p212", 1%Q) +
               item_point (has_col raw) r0 ("i_2_p212", 1%Q) +
               item_point (has_col raw) r0 ("i_3_p212", 1%Q) +
               item_point (has_col raw) r0 ("i_4_p212", 2%Q) +
               item_point (has_col raw) r0 ("i_5_p212", 2%Q) +
               item_point (has_col raw) r0 ("i_6_p212", 1%Q))%Z).
  { unfold points_of, Prepare.hiv_items. cbn [fold_right]. lia. }
  split.
  { rewrite Hs. unfold score_cell. change (Fin 0) with (Fin (inject_Z 0)).
    rewrite fold_cell_points. cbn [Z.add]. now rewrite E. }
  split.
  { rewrite <- E. apply (points_of_bounds (has_col raw) r0 Prepare.hiv_items). }
  split; [|split; [|split; [|split; [|split]]]];
    (apply item_point_scores; intros H; vm_compute in H; discriminate H).
Qed.

Lemma knowledge_score_defined_in_range_witness :
  exists df sample,
    Prepare.prepare no_text (Some demo_excel) None = Some (df, sample) /\
    Forall2 (fun r0 r =>
      exists p1 p2 p3 p4 p5 p6 : Z,
        val r "hiv_knowledge_score" =
          Num (Fin (inject_Z (p1 + p2 + p3 + p4 + p5 + p6))) /\
        (0 <= p1 + p2 + p3 + p4 + p5 + p6 <= 6)%Z /\
        scores_item demo_excel r0 "i_1_p212" 1 p1 /\
        scores_item demo_excel r0 "i_2_p212" 1 p2 /\
        scores_item demo_excel r0 "i_3_p212" 1 p3 /\
        scores_item demo_excel r0 "i_4_p212" 2 p4 /\
        scores_item demo_excel r0 "i_5_p212" 2 p5 /\
        scores_item demo_excel r0 "i_6_p212" 1 p6)
    (rows demo_excel) (rows df).
Proof.
  eexists. eexists. split; [vm_compute; reflexivity|].
  eapply (@knowledge_score_defined_in_range no_text (Some demo_excel) None
            demo_excel); [reflexivity|vm_compute; reflexivity].
Defined.

(** ** The cohort filter *)

Lemma sexually_active_rows (df d : DataFrame) :
  Prepare.sexually_active df = Some d ->
  columns d = columns df /\ rows d = filter has_partner (rows df).
Proof.
  unfold Prepare.sexually_active, series_gt, require, bind.
  destruct (has_col df "partners_last_year"); [|discriminate].
  destruct (numeric_col "partners_last_year" df); [|discriminate].
  intros H. injection H as <-. split; reflexivity.
Qed.

Lemma valid_condom_use_rows (df d : DataFrame) :
  Prepare.valid_condom_use df = Some d ->
  columns d = columns df /\ rows d = filter has_condom_use (rows df).
Proof.
  unfold Prepare.valid_condom_use, require, bind.
  destruct (has_col df "condom_use_freq"); [|discriminate].
  intros H. injection H as <-. split; reflexivity.
Qed.

Lemma valid_age_rows (df d : DataFrame) :
  Prepare.valid_age df = Some d ->
  columns d = columns df /\ rows d = filter has_age (rows df).
Proof.
  unfold Prepare.valid_age, require, bind.
  destruct (has_col df "edad_grupo"); [|discriminate].
  intros H. injection H as <-. split; reflexivity.
Qed.

Lemma df_analysis_rows (df sample : DataFrame) :
  Prepare.df_analysis df = Some sample ->
  rows sample = filter has_age (filter has_condom_use (filter has_partner (rows df))).
Proof.
  unfold Prepare.df_analysis, bind.
  destruct (Prepare.sexually_active df) as [d1|] eqn:E1; [|discriminate].
  destruct (Prepare.valid_condom_use d1) as [d2|] eqn:E2; [|discriminate].
  intros E3.
  apply sexually_active_rows in E1. apply valid_condom_use_rows in E2.
  apply valid_age_rows in E3.
  destruct E1 as [_ R1], E2 as [_ R2], E3 as [_ R3]. now rewrite R3, R2, R1.
Qed.

Lemma in_sample (df sample : DataFrame) (r : Row) :
  Prepare.df_analysis df = Some sample ->
  In r (rows sample) ->
  In r (rows df) /\ has_partner r = true /\ has_condom_use r = true /\ has_age r = true.
Proof.
  intros H Hin. rewrite (df_analysis_rows _ H) in Hin.
  apply filter_In in Hin. destruct Hin as [Hin Ha].
  apply filter_In in Hin. destruct Hin as [Hin Hc].
  apply filter_In in Hin. destruct Hin as [Hin Hp]. auto.
Qed.

Lemma cell_eq_999_gt_100 (c : cell) : cell_eq c 999 = true -> cell_gt c 100 = true.
Proof.
  destruct c as [|[q| |]|s]; simpl; try discriminate.
  rewrite Qeq_bool_iff. intros H. apply negb_true_iff, not_true_is_false.
  rewrite Qle_bool_iff. lra.
Qed.

(** C7.  A respondent whose raw partner count [p71] is 999, or any value
    above 100, has an undefined [partners_last_year]; the first inclusion
    predicate ([partners_last_year > 0]) is false on that row, so the row is
    in neither the frame kept by the first step nor the analytic sample. *)
Theorem extreme_partner_count_excluded
    (fot : string -> option cell) (excel csv : option DataFrame)
    (raw df sample : DataFrame) :
  Prepare.load fot excel csv = Some raw ->
  Prepare.prepare fot excel csv = Some (df, sample) ->
  Forall2 (fun r0 r =>
      cell_eq (val r0 "p71") 999 = true \/ cell_gt (val r0 "p71") 100 = true ->
      val r "partners_last_year" = NA /\
      has_partner r = false /\
      (forall d1, Prepare.sexually_active df = Some d1 -> ~ In r (rows d1)) /\
      ~ In r (rows sample))
    (rows raw) (rows df).
Proof.
  intros Hl Hp. pose proof (prepare_rows _ _ _ Hl Hp) as F.
  destruct (prepare_inv _ _ _ Hp) as [raw' [_ [_ Hs]]].
  revert F. apply Forall2_weaken.
  intros r0 r [_ [_ [_ [_ [_ [Hv _]]]]]] Hraw.
  assert (Hgt : cell_gt (val r0 "p71") 100 = true).
  { destruct Hraw as [H|H]; [now apply cell_eq_999_gt_100|exact H]. }
  assert (Hna : val r "partners_last_year" = NA) by now rewrite Hv, Hgt.
  assert (Hpred : has_partner r = false) by (unfold has_partner; now rewrite Hna).
  split; [exact Hna|]. split; [exact Hpred|]. split.
  - intros d1 H1 Hin. apply sexually_active_rows in H1. destruct H1 as [_ R1].
    rewrite R1 in Hin. apply filter_In in Hin. destruct Hin as [_ Hin]. congruence.
  - intros Hin. destruct (@in_sample df sample r Hs Hin) as [_ [H _]]. congruence.
Qed.

Lemma extreme_partner_count_excluded_witness :
  exists df sample,
    Prepare.prepare no_text (Some demo_excel) None = Some (df, sample) /\
    Forall2 (fun r0 r =>
      cell_eq (val r0 "p71") 999 = true \/ cell_gt (val r0 "p71") 100 = true ->
      val r "partners_last_year" = NA /\
      has_partner r = false /\
      (forall d1, Prepare.sexually_active df = Some d1 -> ~ In r (rows d1)) /\
      ~ In r (rows sample))
    (rows demo_excel) (rows df).
Proof.
  eexists. eexists. split; [vm_compute; reflexivity|].
  eapply (@extreme_partner_count_excluded no_text (Some demo_excel) None
            demo_excel); [reflexivity|vm_compute; reflexivity].
Defined.

(** ** Age groups on the fallback path *)

Lemma Qle_bool_true (a b : Q) : a <= b -> Qle_bool a b = true.
Proof. apply Qle_bool_iff. Qed.

Lemma Qle_bool_false (a b : Q) : b < a -> Qle_bool a b = false.
Proof.
  intros H. apply not_true_is_false. rewrite Qle_bool_iff. lra.
Qed.

Ltac qbools q :=
  repeat match goal with
         | |- context [Qle_bool ?k q] =>
             first [ rewrite (@Qle_bool_true k q) by lra
                   | rewrite (@Qle_bool_false k q) by lra ]
         end.

Ltac solve_bin q g :=
  exists g; split; [lia|];
  split; [cbn [num_geb num_ltb]; qbools q; reflexivity|];
  split; [unfold in_bin; cbn [bin_of num_geb num_ltb]; qbools q; reflexivity|];
  let g' := fresh "g'" in let Hr := fresh "Hr" in let Hb := fresh "Hb" in
  intros g' Hr Hb;
  assert (g' = 1 \/ g' = 2 \/ g' = 3 \/ g' = 4 \/ g' = 5 \/ g' = 6 \/ g' = 7)%Z
    as Hg by lia;
  revert Hb; unfold in_bin;
  repeat (destruct Hg as [Hg|Hg]; [subst g'; cbn [bin_of num_geb num_ltb]; qbools q;
                                   cbn [andb negb]; intros Hb;
                                   first [reflexivity | discriminate Hb]|]);
  subst g'; cbn [bin_of num_geb num_ltb]; qbools q; cbn [andb negb]; intros Hb;
  first [reflexivity | discriminate Hb].

Lemma age_bins_exactly_one (x : xnum) :
  num_geb x 18 = true ->
  exists g : Z, (1 <= g <= 7)%Z /\
    (if num_geb x 18 && num_ltb x 30 then Num (Fin 1) else
     if num_geb x 30 && num_ltb x 40 then Num (Fin 2) else
     if num_geb x 40 && num_ltb x 50 then Num (Fin 3) else
     if num_geb x 50 && num_ltb x 60 then Num (Fin 4) else
     if num_geb x 60 && num_ltb x 70 then Num (Fin 5) else
     if num_geb x 70 && num_ltb x 80 then Num (Fin 6) else
     if num_geb x 80 then Num (Fin 7) else NA) = code g /\
    in_bin x g = true /\
    forall g', (1 <= g' <= 7)%Z -> in_bin x g' = true -> g' = g.
Proof.
  destruct x as [q| |]; cbn [num_geb]; [|intros _|discriminate].
  - rewrite Qle_bool_iff. intros H18.
    destruct (Qlt_le_dec q 30); [solve_bin q 1%Z|].
    destruct (Qlt_le_dec q 40); [solve_bin q 2%Z|].
    destruct (Qlt_le_dec q 50); [solve_bin q 3%Z|].
    destruct (Qlt_le_dec q 60); [solve_bin q 4%Z|].
    destruct (Qlt_le_dec q 70); [solve_bin q 5%Z|].
    destruct (Qlt_le_dec q 80); [solve_bin q 6%Z|].
    solve_bin q 7%Z.
  - exists 7%Z. split; [lia|]. split; [reflexivity|]. split; [reflexivity|].
    intros g' Hr Hb.
    assert (g' = 1 \/ g' = 2 \/ g' = 3 \/ g' = 4 \/ g' = 5 \/ g' = 6 \/ g' = 7)%Z
      as Hg by lia.
    repeat (destruct Hg as [Hg|Hg]; [subst g'; discriminate Hb|]). exact Hg.
Qed.

Lemma load_fallback (fot : string -> option cell) (t raw : DataFrame) :
  Prepare.load fot None (Some t) = Some raw ->
  raw = assign "edad_grupo" (fun r => Prepare.assign_age_group fot (val r "p4")) t.
Proof.
  unfold Prepare.load, require, bind.
  destruct (has_col t "p4"); [|discriminate]. intros H. now injection H as <-.
Qed.

(** C10.  On the fallback path (the aggregated table did not load), a
    respondent whose raw age [p4] does not parse, parses to NaN, or parses to
    a number below 18 has an undefined [edad_grupo], fails the age predicate
    and is not in the analytic sample; an age that parses to a number of at
    least 18 gets the code, between 1 and 7, of the one decade bin that
    contains it. *)
Theorem fallback_age_group_assignment
    (fot : string -> option cell) (t df sample : DataFrame) :
  Prepare.prepare fot None (Some t) = Some (df, sample) ->
  Forall2 (fun r0 r =>
      val r "edad_grupo" = Prepare.assign_age_group fot (val r0 "p4") /\
      (Prepare.py_float fot (val r0 "p4") = None \/
       Prepare.py_float fot (val r0 "p4") = Some NA \/
       (exists x, Prepare.py_float fot (val r0 "p4") = Some (Num x) /\
                  num_ltb x 18 = true) ->
       val r "edad_grupo" = NA /\ has_age r = false /\ ~ In r (rows sample)) /\
      (forall x, Prepare.py_float fot (val r0 "p4") = Some (Num x) ->
                 num_geb x 18 = true ->
       exists g : Z, (1 <= g <= 7)%Z /\ val r "edad_grupo" = code g /\
         in_bin x g = true /\
         forall g', (1 <= g' <= 7)%Z -> in_bin x g' = true -> g' = g))
    (rows t) (rows df).
Proof.
  intros Hp. destruct (prepare_inv _ _ _ Hp) as [raw [Hl [Hc Hs]]].
  pose proof (load_fallback _ _ Hl) as Hraw.
  pose proof (construct_rows _ Hc) as F.
  assert (F0 : Forall2 (fun r0 r1 =>
                 r1 = set_cell "edad_grupo"
                        (Prepare.assign_age_group fot (val r0 "p4")) r0)
               (rows t) (rows raw)).
  { rewrite Hraw. unfold assign. simpl. apply Forall2_map_self. reflexivity. }
  pose proof (Forall2_chain F0 F) as G. revert G. apply Forall2_weaken.
  intros r0 r [r1 [-> [[_ Hf] _]]].
  assert (He : val r "edad_grupo" = Prepare.assign_age_group fot (val r0 "p4")).
  { rewrite Hf by reflexivity. reflexivity. }
  split; [exact He|].
  assert (Hout : val r "edad_grupo" = NA ->
                 val r "edad_grupo" = NA /\ has_age r = false /\ ~ In r (rows sample)).
  { intros Hna. split; [exact Hna|].
    assert (Ha : has_age r = false) by (unfold has_age; now rewrite Hna).
    split; [exact Ha|]. intros Hin.
    destruct (@in_sample df sample r Hs Hin) as [_ [_ [_ H]]]. congruence. }
  split.
  - intros H. apply Hout. rewrite He. unfold Prepare.assign_age_group.
    destruct H as [H|[H|[x [H Hlt]]]]; rewrite H; try reflexivity.
    destruct x as [q| |]; cbn [num_ltb num_geb] in *; try discriminate; [|reflexivity].
    apply negb_true_iff in Hlt.
    assert (Hq : q < 18) by (apply Qnot_le_lt; rewrite <- Qle_bool_iff; congruence).
    qbools q. reflexivity.
  - intros x Hpy Hge. rewrite He. unfold Prepare.assign_age_group. rewrite Hpy.
    apply age_bins_exactly_one. exact Hge.
Qed.

Lemma fallback_age_group_assignment_witness :
  exists df sample,
    Prepare.prepare no_text None (Some demo_csv) = Some (df, sample) /\
    Forall2 (fun r0 r =>
      val r "edad_grupo" = Prepare.assign_age_group no_text (val r0 "p4") /\
      (Prepare.py_float no_text (val r0 "p4") = None \/
       Prepare.py_float no_text (val r0 "p4") = Some NA \/
       (exists x, Prepare.py_float no_text (val r0 "p4") = Some (Num x) /\
                  num_ltb x 18 = true) ->
       val r "edad_grupo" = NA /\ has_age r = false /\ ~ In r (rows sample)) /\
      (forall x, Prepare.py_float no_text (val r0 "p4") = Some (Num x) ->
                 num_geb x 18 = true ->
       exists g : Z, (1 <= g <= 7)%Z /\ val r "edad_grupo" = code g /\
         in_bin x g = true /\
         forall g', (1 <= g' <= 7)%Z -> in_bin x g' = true -> g' = g))
    (rows demo_csv) (rows df).
Proof.
  eexists. eexists. split; [vm_compute; reflexivity|].
  eapply (@fallback_age_group_assignment no_text demo_csv); vm_compute; reflexivity.
Defined.

(** ** The STI indicator *)

Lemma any_sti_rows (fot : string -> option cell) (excel csv : option DataFrame)
    (raw df sample : DataFrame) :
  Prepare.load fot excel csv = Some raw ->
  Prepare.prepare fot excel csv = Some (df, sample) ->
  Forall2 (fun r0 r =>
      val r "any_sti" =
        (if has_col raw "its_alguna_vez"
         then astype_float (cell_eq (val r0 "its_alguna_vez") 1)
         else astype_float (existsb (fun v => cell_eq (val r0 v) 1) (sti_vars raw))))
    (rows raw) (rows df).
Proof.
  intros Hl Hp. pose proof (prepare_rows _ _ _ Hl Hp) as F.
  revert F. apply Forall2_weaken. intros r0 r H. apply H.
Qed.

Lemma any_sti_never_undefined (fot : string -> option cell)
    (excel csv : option DataFrame) (raw df sample : DataFrame) :
  Prepare.load fot excel csv = Some raw ->
  Prepare.prepare fot excel csv = Some (df, sample) ->
  Forall (fun r => val r "any_sti" <> NA) (rows df).
Proof.
  intros Hl Hp. pose proof (any_sti_rows _ _ _ Hl Hp) as F.
  induction F as [|r0 r l0 l H _ IH]; constructor; [|exact IH].
  rewrite H. destruct (has_col raw "its_alguna_vez");
    match goal with |- astype_float ?b <> NA => destruct b; discriminate end.
Qed.

(** C3.  The raw table [demo_csv] has neither the summary column
    [its_alguna_vez] nor any [p202_] diagnosis column; the prepared table
    holds 0 in [any_sti] for every respondent, not an undefined value. *)
Theorem any_sti_zero_without_diagnosis_columns :
  has_col demo_csv "its_alguna_vez" = false /\
  sti_vars demo_csv = [] /\
  (exists df sample,
    Prepare.prepare no_text None (Some demo_csv) = Some (df, sample) /\
    map (fun r => val r "any_sti") (rows df) =
      [code 0; code 0; code 0; code 0; code 0; code 0] /\
    map (fun r => val r "hiv_diagnosis") (rows df) = [NA; NA; NA; NA; NA; NA]).
Proof.
  split; [reflexivity|]. split; [reflexivity|].
  eexists. eexists. split; [vm_compute; reflexivity|].
  split; vm_compute; reflexivity.
Qed.

(** ** Order of the inclusion steps *)

Section Commute.

Variable Inv : DataFrame -> Prop.

Hypothesis Inv_filter : forall p df, Inv df -> Inv (filter_rows p df).

Lemma filter_comm (A : Type) (p q : A -> bool) (l : list A) :
  filter p (filter q l) = filter q (filter p l).
Proof.
  induction l as [|a l IH]; simpl; [reflexivity|].
  destruct (q a) eqn:Eq, (p a) eqn:Ep; simpl; rewrite ?Eq, ?Ep, IH; reflexivity.
Qed.

Lemma guarded_preserves (f : DataFrame -> option DataFrame) (c : string)
    (p : Row -> bool) :
  guarded Inv f c p -> preserves Inv f.
Proof.
  intros G df d Hi H. rewrite (G df Hi) in H.
  destruct (has_col df c); [|discriminate]. injection H as <-. now apply Inv_filter.
Qed.

Lemma guarded_commute (f g : DataFrame -> option DataFrame) (c1 c2 : string)
    (p1 p2 : Row -> bool) :
  guarded Inv f c1 p1 -> guarded Inv g c2 p2 -> commute Inv f g.
Proof.
  intros Gf Gg df Hi. rewrite (Gf df Hi), (Gg df Hi).
  destruct (has_col df c1) eqn:H1, (has_col df c2) eqn:H2; simpl.
  - rewrite (Gg _ (Inv_filter p1 Hi)), (Gf _ (Inv_filter p2 Hi)).
    unfold has_col, filter_rows in *. simpl. rewrite H1, H2.
    now rewrite filter_comm.
  - rewrite (Gg _ (Inv_filter p1 Hi)). unfold has_col, filter_rows in *. simpl.
    now rewrite H2.
  - rewrite (Gf _ (Inv_filter p2 Hi)). unfold has_col, filter_rows in *. simpl.
    now rewrite H1.
  - reflexivity.
Qed.

Lemma apply_steps_cons (f : DataFrame -> option DataFrame)
    (l : list (DataFrame -> option DataFrame)) (df : DataFrame) :
  Prepare.apply_steps (f :: l) df = bind (f df) (Prepare.apply_steps l).
Proof. reflexivity. Qed.

Lemma apply_steps_perm (l l' : list (DataFrame -> option DataFrame)) :
  Permutation l l' ->
  (forall f, In f l -> preserves Inv f) ->
  (forall f g, In f l -> In g l -> commute Inv f g) ->
  forall df, Inv df -> Prepare.apply_steps l df = Prepare.apply_steps l' df.
Proof.
  induction 1 as [|x l l' HP IH|x y l|l l' l'' HP1 IH1 HP2 IH2];
    intros Hpres Hcomm df Hi.
  - reflexivity.
  - rewrite !apply_steps_cons. destruct (x df) as [d|] eqn:E; [|reflexivity].
    simpl. apply IH.
    + intros f Hf. apply Hpres. now right.
    + intros f g Hf Hg. apply Hcomm; now right.
    + apply (Hpres x (or_introl eq_refl) df d Hi E).
  - assert (C : commute Inv y x) by (apply Hcomm; simpl; auto).
    specialize (C df Hi).
    change (bind (y df) (fun d => bind (x d) (Prepare.apply_steps l)) =
            bind (x df) (fun d => bind (y d) (Prepare.apply_steps l))).
    transitivity (bind (bind (y df) x) (Prepare.apply_steps l));
      [destruct (y df); reflexivity|].
    rewrite C. destruct (x df); reflexivity.
  - rewrite IH1 by assumption. apply IH2; [| |exact Hi].
    + intros f Hf. apply Hpres. apply (Permutation_in _ (Permutation_sym HP1) Hf).
    + intros f g Hf Hg.
      apply Hcomm; [apply (Permutation_in _ (Permutation_sym HP1) Hf)
                   |apply (Permutation_in _ (Permutation_sym HP1) Hg)].
Qed.

End Commute.

Lemma numeric_partners_filter (p : Row -> bool) (df : DataFrame) :
  numeric_partners df -> numeric_partners (filter_rows p df).
Proof.
  unfold numeric_partners. rewrite !numeric_col_forall. intros H r Hr.
  apply H. unfold filter_rows in Hr. simpl in Hr. apply filter_In in Hr. apply Hr.
Qed.

Lemma sexually_active_guarded :
  guarded numeric_partners Prepare.sexually_active "partners_last_year" has_partner.
Proof.
  intros df Hi. unfold Prepare.sexually_active, series_gt, require, bind.
  destruct (has_col df "partners_last_year"); [|reflexivity].
  unfold numeric_partners in Hi. rewrite Hi. reflexivity.
Qed.

Lemma valid_condom_use_guarded :
  guarded numeric_partners Prepare.valid_condom_use "condom_use_freq" has_condom_use.
Proof.
  intros df Hi. unfold Prepare.valid_condom_use, require, bind.
  destruct (has_col df "condom_use_freq"); reflexivity.
Qed.

Lemma valid_age_guarded :
  guarded numeric_partners Prepare.valid_age "edad_grupo" has_age.
Proof.
  intros df Hi. unfold Prepare.valid_age, require, bind.
  destruct (has_col df "edad_grupo"); reflexivity.
Qed.

Lemma cohort_steps_guarded (f : DataFrame -> option DataFrame) :
  In f cohort_steps -> exists c p, guarded numeric_partners f c p.
Proof.
  intros [<-|[<-|[<-|[]]]].
  - exists "partners_last_year", has_partner. apply sexually_active_guarded.
  - exists "condom_use_freq", has_condom_use. apply valid_condom_use_guarded.
  - exists "edad_grupo", has_age. apply valid_age_guarded.
Qed.

Lemma apply_cohort_steps (df : DataFrame) :
  Prepare.apply_steps cohort_steps df = Prepare.df_analysis df.
Proof.
  unfold cohort_steps, Prepare.df_analysis. simpl. unfold bind.
  destruct (Prepare.sexually_active df) as [d1|]; [|reflexivity].
  destruct (Prepare.valid_condom_use d1) as [d2|]; [|reflexivity].
  destruct (Prepare.valid_age d2); reflexivity.
Qed.

Lemma derived_numeric_partners (fot : string -> option cell)
    (excel csv : option DataFrame) (df : DataFrame) :
  Prepare.derived fot excel csv = Some df -> numeric_partners df.
Proof.
  unfold Prepare.derived, bind.
  destruct (Prepare.load fot excel csv) as [raw|]; [|discriminate].
  intros Hc. pose proof (construct_rows _ Hc) as F.
  unfold numeric_partners. apply numeric_col_forall.
  induction F as [|r0 r l0 l H _ IH]; intros x Hx; [destruct Hx|].
  destruct Hx as [<-|Hx]; [|now apply IH].
  destruct H as [_ [_ [_ [_ [_ [Hv [Ht _]]]]]]]. rewrite Hv.
  destruct (cell_gt (val r0 "p71") 100); [reflexivity|].
  destruct (cell_eq (val r0 "p71") 999); [reflexivity|exact Ht].
Qed.

(** C5.  Running the script with the three inclusion steps in any order
    gives the same result as the order of the script: the same prepared table
    and the same analytic sample. *)
Theorem cohort_filter_order_irrelevant
    (fot : string -> option cell) (excel csv : option DataFrame)
    (steps : list (DataFrame -> option DataFrame)) :
  Permutation steps cohort_steps ->
  Prepare.prepare_in_order fot steps excel csv = Prepare.prepare fot excel csv.
Proof.
  intros HP. unfold Prepare.prepare_in_order, Prepare.prepare, bind.
  destruct (Prepare.derived fot excel csv) as [df|] eqn:E; [|reflexivity].
  assert (Hi : numeric_partners df) by (eapply derived_numeric_partners; exact E).
  rewrite <- apply_cohort_steps.
  rewrite (@apply_steps_perm numeric_partners cohort_steps steps
             (Permutation_sym HP)); [reflexivity| | |exact Hi].
  - intros f Hf. destruct (cohort_steps_guarded Hf) as [c [p G]].
    eapply guarded_preserves; [apply numeric_partners_filter|exact G].
  - intros f g Hf Hg.
    destruct (cohort_steps_guarded Hf) as [c1 [p1 G1]].
    destruct (cohort_steps_guarded Hg) as [c2 [p2 G2]].
    eapply guarded_commute; [apply numeric_partners_filter|exact G1|exact G2].
Qed.

Lemma cohort_filter_order_irrelevant_witness :
  Prepare.prepare_in_order no_text
    [ Prepare.valid_age; Prepare.valid_condom_use; Prepare.sexually_active ]
    (Some demo_excel) None
  = Prepare.prepare no_text (Some demo_excel) None /\
  (exists df sample,
     Prepare.prepare no_text (Some demo_excel) None = Some (df, sample) /\
     map ix (rows sample) = [0; 6]%nat).
Proof.
  split.
  - apply cohort_filter_order_irrelevant.
    exact (Permutation_sym (Permutation_rev cohort_steps)).
  - eexists. eexists. split; vm_compute; reflexivity.
Defined.

(** ** Complete-case frames of the regression battery *)

Lemma select_dropna_rows (cols : list string) (df d : DataFrame) :
  option_map Regression.dropna (Regression.select cols df) = Some d ->
  forallb (has_col df) cols = true /\
  columns d = cols /\
  rows d = filter (Regression.complete cols) (rows df).
Proof.
  unfold Regression.select.
  destruct (forallb (has_col df) cols); [|discriminate].
  simpl. intros H. injection H as <-. auto.
Qed.

Lemma select_dropna_total (cols : list string) (df : DataFrame) :
  forallb (has_col df) cols = true ->
  exists d, option_map Regression.dropna (Regression.select cols df) = Some d.
Proof.
  intros H. unfold Regression.select. rewrite H. simpl. eauto.
Qed.

Lemma filter_length_le (A : Type) (p q : A -> bool) (l : list A) :
  (forall a, p a = true -> q a = true) ->
  (List.length (filter p l) <= List.length (filter q l))%nat.
Proof.
  intros H. induction l as [|a l IH]; simpl; [lia|].
  destruct (p a) eqn:Ep.
  - rewrite (H a Ep). simpl. lia.
  - destruct (q a); simpl; lia.
Qed.

Lemma complete_incl (cols cols' : list string) (r : Row) :
  incl cols cols' ->
  Regression.complete cols' r = true -> Regression.complete cols r = true.
Proof.
  unfold Regression.complete. rewrite !forallb_forall. intros Hi H c Hc.
  apply H, Hi, Hc.
Qed.

Lemma forallb_incl (A : Type) (p : A -> bool) (l l' : list A) :
  incl l l' -> forallb p l' = true -> forallb p l = true.
Proof.
  rewrite !forallb_forall. intros Hi H a Ha. apply H, Hi, Ha.
Qed.

(** Listwise deletion over more columns keeps no more rows. *)
Lemma nested_complete_cases (cols cols' : list string) (df d d' : DataFrame) :
  incl cols cols' ->
  option_map Regression.dropna (Regression.select cols df) = Some d ->
  option_map Regression.dropna (Regression.select cols' df) = Some d' ->
  (Regression.len d' <= Regression.len d)%nat.
Proof.
  intros Hi H H'. apply select_dropna_rows in H, H'.
  destruct H as [_ [_ R]], H' as [_ [_ R']]. unfold Regression.len.
  rewrite R, R'. apply filter_length_le. intros r. now apply complete_incl.
Qed.

Ltac solve_incl :=
  let c := fresh "c" in let Hc := fresh "Hc" in
  intros c Hc; simpl in Hc |- *; tauto.

(** C4.  Model 2 and Model 5 are fit on the same frame: the rows of the
    input table that are complete over [always_condom], [edad_grupo],
    [hiv_knowledge_score] and [partners_last_year]; the two frames name the
    same respondents and have the same size, and one exists exactly when the
    other does. *)
Theorem models_2_and_5_same_rows (df : DataFrame) :
  Regression.model2_data df = Regression.model5_data df /\
  forall d2 d5,
    Regression.model2_data df = Some d2 ->
    Regression.model5_data df = Some d5 ->
    d2 = d5 /\
    map ix (rows d2) = map ix (rows d5) /\
    Regression.len d2 = Regression.len d5 /\
    rows d2 =
      filter (Regression.complete
                ["always_condom"; "edad_grupo"; "hiv_knowledge_score";
                 "partners_last_year"]) (rows df).
Proof.
  split; [reflexivity|]. intros d2 d5 H2 H5.
  assert (E : d2 = d5).
  { unfold Regression.model2_data, Regression.model5_data in *. congruence. }
  subst d5. split; [reflexivity|]. split; [reflexivity|]. split; [reflexivity|].
  apply select_dropna_rows in H2. apply H2.
Qed.

Lemma models_2_and_5_same_rows_witness :
  exists d2 d5,
    Regression.model2_data demo_battery = Some d2 /\
    Regression.model5_data demo_battery = Some d5 /\
    d2 = d5 /\
    map ix (rows d2) = map ix (rows d5) /\
    Regression.len d2 = Regression.len d5 /\
    map ix (rows d2) = [0; 1; 2; 4]%nat.
Proof.
  eexists. eexists.
  split; [vm_compute; reflexivity|]. split; [vm_compute; reflexivity|].
  match goal with
  | |- ?d2 = ?d5 /\ _ =>
      assert (H2 : Regression.model2_data demo_battery = Some d2)
        by (vm_compute; reflexivity);
      assert (H5 : Regression.model5_data demo_battery = Some d5)
        by (vm_compute; reflexivity);
      destruct (proj2 (models_2_and_5_same_rows demo_battery) d2 d5 H2 H5)
        as [E [Hix [Hlen _]]]
  end.
  split; [exact E|]. split; [exact Hix|]. split; [exact Hlen|].
  vm_compute. reflexivity.
Defined.

(** C6.  The complete-case sample sizes of the nested models do not
    increase: N(Model 1) >= N(Model 2) >= N(Model 3) >= N(Model 4).  Each
    inequality holds whenever both frames exist, and when the frame of
    Model 4 exists so do the other three. *)
Theorem nested_models_sample_sizes (df : DataFrame) :
  (forall d1 d2, Regression.model1_data df = Some d1 ->
                 Regression.model2_data df = Some d2 ->
                 (Regression.len d2 <= Regression.len d1)%nat) /\
  (forall d2 d3, Regression.model2_data df = Some d2 ->
                 Regression.model3_data df = Some d3 ->
                 (Regression.len d3 <= Regression.len d2)%nat) /\
  (forall d3 d4, Regression.model3_data df = Some d3 ->
                 Regression.model4_data df = Some d4 ->
                 (Regression.len d4 <= Regression.len d3)%nat) /\
  (forall d4, Regression.model4_data df = Some d4 ->
     exists d1 d2 d3,
       Regression.model1_data df = Some d1 /\
       Regression.model2_data df = Some d2 /\
       Regression.model3_data df = Some d3 /\
       (Regression.len d4 <= Regression.len d3)%nat /\
       (Regression.len d3 <= Regression.len d2)%nat /\
       (Regression.len d2 <= Regression.len d1)%nat).
Proof.
  assert (H12 : forall d1 d2, Regression.model1_data df = Some d1 ->
                 Regression.model2_data df = Some d2 ->
                 (Regression.len d2 <= Regression.len d1)%nat).
  { intros d1 d2 H1 H2. eapply nested_complete_cases; [|exact H1|exact H2]. solve_incl. }
  assert (H23 : forall d2 d3, Regression.model2_data df = Some d2 ->
                 Regression.model3_data df = Some d3 ->
                 (Regression.len d3 <= Regression.len d2)%nat).
  { intros d2 d3 H2 H3. eapply nested_complete_cases; [|exact H2|exact H3]. solve_incl. }
  assert (H34 : forall d3 d4, Regression.model3_data df = Some d3 ->
                 Regression.model4_data df = Some d4 ->
                 (Regression.len d4 <= Regression.len d3)%nat).
  { intros d3 d4 H3 H4. eapply nested_complete_cases; [|exact H3|exact H4]. solve_incl. }
  split; [exact H12|]. split; [exact H23|]. split; [exact H34|].
  intros d4 H4.
  pose proof (select_dropna_rows _ _ H4) as [Hc _].
  destruct (@select_dropna_total
              ["always_condom"; "edad_grupo"; "hiv_knowledge_score"] df) as [d1 H1].
  { eapply forallb_incl; [|exact Hc]. solve_incl. }
  destruct (@select_dropna_total
              ["always_condom"; "edad_grupo"; "hiv_knowledge_score";
               "partners_last_year"] df) as [d2 H2].
  { eapply forallb_incl; [|exact Hc]. solve_incl. }
  destruct (@select_dropna_total
              ["always_condom"; "edad_grupo"; "hiv_knowledge_score";
               "partners_last_year"; "any_sti"; "tested_hiv_12mo"] df) as [d3 H3].
  { eapply forallb_incl; [|exact Hc]. solve_incl. }
  exists d1, d2, d3. repeat split; auto.
Qed.

Lemma nested_models_sample_sizes_witness :
  exists d1 d2 d3 d4,
    Regression.model1_data demo_battery = Some d1 /\
    Regression.model2_data demo_battery = Some d2 /\
    Regression.model3_data demo_battery = Some d3 /\
    Regression.model4_data demo_battery = Some d4 /\
    (Regression.len d4 <= Regression.len d3)%nat /\
    (Regression.len d3 <= Regression.len d2)%nat /\
    (Regression.len d2 <= Regression.len d1)%nat /\
    [Regression.len d1; Regression.len d2; Regression.len d3; Regression.len d4]
      = [5; 4; 3; 2]%nat.
Proof.
  destruct (nested_models_sample_sizes demo_battery) as [H12 [H23 [H34 _]]].
  eexists. eexists. eexists. eexists.
  split; [vm_compute; reflexivity|]. split; [vm_compute; reflexivity|].
  split; [vm_compute; reflexivity|]. split; [vm_compute; reflexivity|].
  split; [apply H34; vm_compute; reflexivity|].
  split; [apply H23; vm_compute; reflexivity|].
  split; [apply H12; vm_compute; reflexivity|]. vm_compute. reflexivity.
Defined.

(** ** Age-stratified models *)

Section StratifiedProps.

Variable Fit : Type.
Variable logit : string -> DataFrame -> option Fit.

Lemma age_data_total (df : DataFrame) (age : cell) :
  has_col df "edad_grupo_lbl" = true ->
  forallb (has_col df) strat_cols = true ->
  exists data, Regression.age_data df age = Some data.
Proof.
  intros Hl Hc. unfold Regression.age_data, require, bind. rewrite Hl.
  apply select_dropna_total. exact Hc.
Qed.



End StratifiedProps.

Lemma same_key_refl (c : cell) : Regression.same_key c c = true.
Proof.
  destruct c as [|[q| |]|t]; simpl; try reflexivity.
  - apply Qeq_bool_iff. reflexivity.
  - apply String.eqb_refl.
Qed.

Lemma unique_from_cover (l : list cell) : forall seen c,
  In c l ->
  exists c', (In c' seen \/ In c' (Regression.unique_from seen l)) /\
             Regression.same_key c c' = true.
Proof.
  induction l as [|a l IH]; intros seen c Hc; [destruct Hc|].
  cbn [Regression.unique_from].
  destruct (existsb (Regression.same_key a) seen) eqn:E.
  - destruct Hc as [<-|Hc]; [|now apply IH].
    apply existsb_exists in E. destruct E as [c' [Hin Hk]]. exists c'. auto.
  - destruct Hc as [<-|Hc].
    + exists a. split; [right; now left|apply same_key_refl].
    + destruct (IH (a :: seen) c Hc) as [c' [[[Ha|Hin]|Hin] Hk]];
        exists c'; (split; [|exact Hk]); simpl;
        [right; left; exact Ha|left; exact Hin|right; right; exact Hin].
Qed.

Lemma unique_from_incl (l : list cell) : forall seen c,
  In c (Regression.unique_from seen l) -> In c l.
Proof.
  induction l as [|a l IH]; intros seen c Hc; [destruct Hc|].
  cbn [Regression.unique_from] in Hc.
  destruct (existsb (Regression.same_key a) seen).
  - right. now apply (IH seen).
  - destruct Hc as [<-|Hc]; [now left|right; now apply (IH (a :: seen))].
Qed.

Lemma In_insert_sorted (c x : cell) (l : list cell) :
  In x (Regression.insert_sorted c l) <-> x = c \/ In x l.
Proof.
  induction l as [|d l IH]; simpl.
  - split; intros [H|H]; auto.
  - destruct (Regression.cell_leb c d); simpl.
    + split; intros [H|H]; auto.
    + rewrite IH. split; intros H; tauto.
Qed.

Lemma In_sorted (l ages : list cell) (x : cell) :
  Regression.sorted l = Some ages -> (In x ages <-> In x l).
Proof.
  unfold Regression.sorted.
  destruct (forallb is_text l || forallb Regression.is_num l); [|discriminate].
  intros H. injection H as <-.
  induction l as [|a l IH]; simpl; [tauto|].
  rewrite In_insert_sorted, IH. split; intros [H|H]; auto.
Qed.

(** The labels the loop visits are the non-missing labels of the table. *)
Lemma age_groups_cover (df : DataFrame) (ages : list cell) :
  Regression.age_groups df = Some ages ->
  (forall r, In r (rows df) -> notna (val r "edad_grupo_lbl") = true ->
     exists age, In age ages /\
                 Regression.cell_same (val r "edad_grupo_lbl") age = true) /\
  (forall age, In age ages ->
     notna age = true /\ exists r, In r (rows df) /\ val r "edad_grupo_lbl" = age).
Proof.
  unfold Regression.age_groups, require, bind.
  destruct (has_col df "edad_grupo_lbl"); [|discriminate].
  intros Hs. split.
  - intros r Hr Hn.
    destruct (@unique_from_cover (map (fun r => val r "edad_grupo_lbl") (rows df))
                [] (val r "edad_grupo_lbl")) as [c' [[Hin|Hin] Hk]];
      [apply in_map_iff; now exists r|destruct Hin|].
    assert (Hc : Regression.cell_same (val r "edad_grupo_lbl") c' = true).
    { destruct (val r "edad_grupo_lbl"); [discriminate Hn|exact Hk|exact Hk]. }
    exists c'. split; [|exact Hc].
    apply (proj2 (@In_sorted _ _ c' Hs)). apply filter_In. split; [exact Hin|].
    destruct c'; [|reflexivity|reflexivity].
    destruct (val r "edad_grupo_lbl"); discriminate.
  - intros age Hin. apply (proj1 (@In_sorted _ _ age Hs)) in Hin.
    apply filter_In in Hin. destruct Hin as [Hin Hn]. split; [exact Hn|].
    apply unique_from_incl in Hin. apply in_map_iff in Hin.
    destruct Hin as [r [He Hr]]. now exists r.
Qed.




(** * Further properties of the preparation script *)

(** ** Step lemmas for the other derived columns *)

Lemma columns_assign (c : string) (f : Row -> cell) (df : DataFrame) :
  columns (assign c f df) = add_col c (columns df).
Proof. reflexivity. Qed.

Lemma flag_1_value (raw out : string) (df : DataFrame) :
  String.eqb raw out = false ->
  columns (Prepare.flag_1 raw out df) = add_col out (columns df) /\
  Forall2 (fun r r' =>
      frame [out] r r' /\ val r' out = flag_of (has_col df raw) (val r raw))
    (rows df) (rows (Prepare.flag_1 raw out df)).
Proof.
  intros Hne. unfold Prepare.flag_1, flag_of.
  destruct (has_col df raw); (split; [reflexivity|]);
    unfold assign, loc_assign; row_eval; rewrite ?map_map;
    apply Forall2_map_self; intros r _; (split; [solve_frame|]);
    row_eval; rewrite ?String.eqb_refl, ?Hne; reflexivity.
Qed.

Lemma copy_code_value (raw out : string) (df : DataFrame) :
  String.eqb raw out = false ->
  columns (Prepare.copy_code raw out df) = add_col out (columns df) /\
  Forall2 (fun r r' =>
      frame [out] r r' /\ val r' out = code_of (has_col df raw) (val r raw))
    (rows df) (rows (Prepare.copy_code raw out df)).
Proof.
  intros Hne. unfold Prepare.copy_code, code_of.
  destruct (has_col df raw); (split; [reflexivity|]);
    unfold assign, loc_assign; row_eval; rewrite ?map_map;
    apply Forall2_map_self; intros r _; (split; [solve_frame|]);
    row_eval; rewrite ?String.eqb_refl, ?Hne; reflexivity.
Qed.

Lemma partners_more (df df' : DataFrame) :
  Prepare.partners df = Some df' ->
  has_col df "p71" = true /\
  Forall2 (fun r r' =>
      val r' "multiple_partners" =
        (if isna (val r' "partners_last_year") then NA
         else astype_float (cell_ge (val r' "partners_last_year") 2)))
    (rows df) (rows df').
Proof.
  unfold Prepare.partners, series_gt, series_ge, require, bind.
  destruct (has_col df "p71") eqn:Hc; [|discriminate].
  rewrite has_col_loc_assign, has_col_assign, Hc, orb_true_r.
  rewrite numeric_col_loc_assign_other, numeric_col_assign_other by reflexivity.
  destruct (numeric_col "p71" df) eqn:Hn; [|discriminate].
  destruct (has_col _ "partners_last_year"); [|discriminate].
  destruct (numeric_col "partners_last_year" _); [|discriminate].
  intros H. injection H as <-. split; [reflexivity|].
  unfold assign, loc_assign. row_eval. rewrite !map_map.
  apply Forall2_map_self. intros r _. row_eval. reflexivity.
Qed.

Lemma partners_total (df : DataFrame) :
  has_col df "p71" = true ->
  numeric_col "p71" df = true ->
  exists df', Prepare.partners df = Some df'.
Proof.
  intros Hc Hn. unfold Prepare.partners, series_gt, series_ge, require, bind.
  rewrite Hc, has_col_loc_assign, has_col_assign, Hc, orb_true_r.
  rewrite numeric_col_loc_assign_other, numeric_col_assign_other by reflexivity.
  rewrite Hn, has_col_loc_assign, has_col_loc_assign, has_col_assign.
  cbn [String.eqb Ascii.eqb Bool.eqb orb].
  match goal with
  | |- context [numeric_col "partners_last_year" ?d] =>
      assert (Hp : numeric_col "partners_last_year" d = true)
  end.
  { apply numeric_col_forall. intros r Hr.
    unfold assign, loc_assign in Hr. cbn [rows] in Hr.
    rewrite !map_map in Hr. apply in_map_iff in Hr. destruct Hr as [r0 [<- Hr0]].
    row_eval.
    rewrite numeric_col_forall in Hn. specialize (Hn r0 Hr0).
    destruct (cell_gt (val r0 "p71") 100); [reflexivity|].
    destruct (cell_eq (val r0 "p71") 999); [reflexivity|exact Hn]. }
  rewrite Hp. eauto.
Qed.

Lemma condom_use_total (df : DataFrame) :
  has_col df "p73" = true -> exists df', Prepare.condom_use df = Some df'.
Proof. intros H. unfold Prepare.condom_use, require, bind. rewrite H. eauto. Qed.

(** The frame after the [any_sti] part of step 5. *)
Lemma sti_any_part (df : DataFrame) :
  let d1 :=
    if has_col df "its_alguna_vez" then
      assign "any_sti" (fun r => astype_float (cell_eq (val r "its_alguna_vez") 1)) df
    else
      fold_left Prepare.or_sti (sti_vars df)
        (assign "any_sti" (fun _ => Num (Fin 0)) df) in
  columns d1 = add_col "any_sti" (columns df) /\
  Forall2 (frame ["any_sti"]) (rows df) (rows d1).
Proof.
  cbv zeta. destruct (has_col df "its_alguna_vez").
  - split; [reflexivity|]. unfold assign. simpl.
    apply Forall2_map_self. intros r _. solve_frame.
  - set (d := assign "any_sti" (fun _ => Num (Fin 0)) df).
    assert (Hd : has_col d "any_sti" = true) by (unfold d; now rewrite has_col_assign).
    destruct (@fold_step_rows _ (fun v : string => v) "any_sti" sti_upd
                (sti_vars df) d Hd) as [Hc HF].
    { intros v Hv. apply filter_In in Hv. destruct Hv as [_ Hp].
      destruct (String.eqb_spec v "any_sti") as [->|]; [discriminate Hp|reflexivity]. }
    split; [exact Hc|].
    apply Forall2_compose with
      (R := fun r r1 => r1 = set_cell "any_sti" (Num (Fin 0)) r)
      (S := fun r1 r' => frame ["any_sti"] r1 r' /\
              val r' "any_sti" =
                fold_cell (fun v : string => v) sti_upd (has_col d) r1 (sti_vars df)
                  (val r1 "any_sti"))
      (l2 := rows d); [| |exact HF].
    + intros a b c -> [F _].
      apply (@frame_trans ["any_sti"] ["any_sti"] _ a
               (set_cell "any_sti" (Num (Fin 0)) a) c);
        [intros k Hk; now split|apply frame_set_cell; reflexivity|exact F].
    + unfold d, assign. simpl. apply Forall2_map_self. intros r _. reflexivity.
Qed.

Lemma sti_more (df : DataFrame) :
  Forall2 (fun r r' =>
      val r' "hiv_diagnosis" =
        (if has_col df "p202_vih"
         then astype_float (cell_eq (val r "p202_vih") 1) else NA))
    (rows df) (rows (Prepare.sti df)).
Proof.
  pose proof (sti_any_part df) as H. cbv zeta in H.
  unfold Prepare.sti. fold (sti_vars df).
  set (d1 := if has_col df "its_alguna_vez" then _ else _) in *.
  destruct H as [Hc HF].
  assert (Hh : has_col d1 "p202_vih" = has_col df "p202_vih").
  { unfold has_col. rewrite Hc. unfold add_col.
    destruct (existsb (String.eqb "any_sti") (columns df)); [reflexivity|].
    rewrite existsb_app. simpl. now rewrite orb_false_r. }
  rewrite Hh. destruct (has_col df "p202_vih").
  - apply Forall2_compose with
      (R := frame ["any_sti"])
      (S := fun b c => c = set_cell "hiv_diagnosis"
                            (astype_float (cell_eq (val b "p202_vih") 1)) b)
      (l2 := rows d1); [|exact HF|].
    + intros a b c [_ Fab] ->. simpl. rewrite (Fab "p202_vih") by reflexivity.
      reflexivity.
    + unfold assign. simpl. apply Forall2_map_self. intros r _. reflexivity.
  - apply Forall2_compose with
      (R := frame ["any_sti"])
      (S := fun b c => c = set_cell "hiv_diagnosis" NA b)
      (l2 := rows d1); [|exact HF|].
    + intros a b c _ ->. reflexivity.
    + unfold assign. simpl. apply Forall2_map_self. intros r _. reflexivity.
Qed.

Lemma testing_more (df : DataFrame) :
  columns (Prepare.testing df) = add_cols testing_names (columns df) /\
  Forall2 (fun r r' =>
      val r' "tested_hiv_12mo" = flag_of (has_col df "p208") (val r "p208") /\
      val r' "test_reason" = code_of (has_col df "p210") (val r "p210") /\
      val r' "no_test_reason" = code_of (has_col df "p211") (val r "p211") /\
      val r' "knows_prep" = flag_of (has_col df "p213") (val r "p213"))
    (rows df) (rows (Prepare.testing df)).
Proof.
  unfold Prepare.testing.
  set (d1 := Prepare.flag_1 "p208" "tested_hiv_12mo" df).
  set (d2 := Prepare.copy_code "p210" "test_reason" d1).
  set (d3 := Prepare.copy_code "p211" "no_test_reason" d2).
  destruct (@flag_1_value "p208" "tested_hiv_12mo" df eq_refl) as [C1 F1].
  destruct (@copy_code_value "p210" "test_reason" d1 eq_refl) as [C2 F2].
  destruct (@copy_code_value "p211" "no_test_reason" d2 eq_refl) as [C3 F3].
  destruct (@flag_1_value "p213" "knows_prep" d3 eq_refl) as [C4 F4].
  fold d1 in C1, F1. fold d2 in C2, F2. fold d3 in C3, F3.
  split.
  { rewrite C4, C3, C2, C1. reflexivity. }
  assert (H2 : has_col d1 "p210" = has_col df "p210").
  { eapply (@has_col_add_cols ["tested_hiv_12mo"]); [exact C1|reflexivity]. }
  assert (H3 : has_col d2 "p211" = has_col df "p211").
  { eapply (@has_col_add_cols ["tested_hiv_12mo"; "test_reason"]);
      [rewrite C2, C1; reflexivity|reflexivity]. }
  assert (H4 : has_col d3 "p213" = has_col df "p213").
  { eapply (@has_col_add_cols ["tested_hiv_12mo"; "test_reason"; "no_test_reason"]);
      [rewrite C3, C2, C1; reflexivity|reflexivity]. }
  rewrite H2 in F2. rewrite H3 in F3. rewrite H4 in F4.
  pose proof (Forall2_chain (Forall2_chain (Forall2_chain F1 F2) F3) F4) as F.
  revert F. apply Forall2_weaken. intros r r4 [r3 [H G4]].
  destruct H as [r2 [H G3]]. destruct H as [r1 [G1 G2]].
  destruct G1 as [[_ E1] V1], G2 as [[_ E2] V2], G3 as [[_ E3] V3], G4 as [[_ E4] V4].
  split.
  { rewrite (E4 "tested_hiv_12mo"), (E3 "tested_hiv_12mo"), (E2 "tested_hiv_12mo")
      by reflexivity. exact V1. }
  split.
  { rewrite (E4 "test_reason"), (E3 "test_reason") by reflexivity.
    rewrite V2. now rewrite (E1 "p210") by reflexivity. }
  split.
  { rewrite (E4 "no_test_reason") by reflexivity. rewrite V3.
    now rewrite (E2 "p211"), (E1 "p211") by reflexivity. }
  rewrite V4. now rewrite (E3 "p213"), (E2 "p213"), (E1 "p213") by reflexivity.
Qed.

Lemma age_group_labels_more (df df' : DataFrame) :
  Prepare.age_group_labels df = Some df' ->
  columns df' = add_col "edad_grupo_lbl" (columns df) /\
  (has_col df "edad_grupo_lbl" = true \/ has_col df "edad_grupo" = true) /\
  Forall2 (fun r r' =>
      val r' "edad_grupo_lbl" =
        (if has_col df "edad_grupo_lbl" then val r "edad_grupo_lbl"
         else Prepare.map_labels (val r "edad_grupo")))
    (rows df) (rows df').
Proof.
  unfold Prepare.age_group_labels, require, bind.
  destruct (has_col df "edad_grupo_lbl") eqn:E.
  - intros H. injection H as <-. split.
    { unfold add_col. unfold has_col in E. now rewrite E. }
    split; [now left|]. apply Forall2_same. reflexivity.
  - destruct (has_col df "edad_grupo"); [|discriminate].
    intros H. injection H as <-. split; [reflexivity|]. split; [now right|].
    unfold assign. simpl. apply Forall2_map_self. intros r _. reflexivity.
Qed.

Lemma age_group_labels_total (df : DataFrame) :
  has_col df "edad_grupo" = true ->
  exists df', Prepare.age_group_labels df = Some df'.
Proof.
  intros H. unfold Prepare.age_group_labels, require, bind. rewrite H.
  destruct (has_col df "edad_grupo_lbl"); eauto.
Qed.

Lemma condom_use_inv (df df' : DataFrame) :
  Prepare.condom_use df = Some df' -> has_col df "p73" = true.
Proof.
  unfold Prepare.condom_use, require, bind.
  destruct (has_col df "p73"); [reflexivity|discriminate].
Qed.

Lemma Forall2_and (A B : Type) (R S : A -> B -> Prop) (l1 : list A) (l2 : list B) :
  Forall2 R l1 l2 -> Forall2 S l1 l2 -> Forall2 (fun a b => R a b /\ S a b) l1 l2.
Proof.
  induction 1 as [|a b l1 l2 Hab _ IH]; intros HS; inversion HS; subst;
    constructor; auto.
Qed.

(** Steps 2 to 7 on the other derived columns, with the columns of the
    result and the raw columns the script needs. *)
Lemma construct_more (df df' : DataFrame) :
  Prepare.construct df = Some df' ->
  columns df' = add_cols derived_names (columns df) /\
  has_col df "p73" = true /\
  has_col df "p71" = true /\
  (has_col df "edad_grupo_lbl" = true \/ has_col df "edad_grupo" = true) /\
  Forall2 (constructed_more df) (rows df) (rows df').
Proof.
  unfold Prepare.construct, bind.
  destruct (Prepare.condom_use (Prepare.knowledge_score df)) as [d3|] eqn:E3; [|discriminate].
  destruct (Prepare.partners _) as [d4|] eqn:E4; [|discriminate].
  intros E7.
  destruct (knowledge_score_rows df) as [C2 F2].
  destruct (condom_use_rows _ E3) as [C3 F3].
  pose proof (condom_use_inv _ E3) as P73.
  destruct (partners_rows _ E4) as [N4 [C4 F4]].
  destruct (partners_more _ E4) as [P71 M4].
  destruct (sti_rows d4) as [C5 F5].
  pose proof (sti_more d4) as M5.
  pose proof (testing_rows (Prepare.sti d4)) as F6.
  destruct (testing_more (Prepare.sti d4)) as [C6 M6].
  pose proof (age_group_labels_rows _ E7) as F7.
  destruct (age_group_labels_more _ E7) as [C7 [Hage M7]].
  set (d3' := assign "condom_use_lbl"
                (fun r => Prepare.condom_label (val r "condom_use_freq")) d3) in *.
  assert (FL : Forall2 (fun r r' => frame ["condom_use_lbl"] r r' /\
                 val r' "condom_use_lbl" = Prepare.condom_label (val r "condom_use_freq"))
                 (rows d3) (rows d3')).
  { unfold d3', assign. simpl. apply Forall2_map_self. intros r _.
    split; [solve_frame|reflexivity]. }
  assert (Cd4 : columns d4 =
      add_cols ["hiv_knowledge_score"; "condom_use_freq"; "always_condom";
                "ever_condom"; "condom_use_lbl"; "partners_last_year";
                "multiple_partners"] (columns df)).
  { rewrite C4. unfold d3', assign. cbn [columns]. rewrite C3, C2. reflexivity. }
  assert (Cd5 : columns (Prepare.sti d4) =
      add_cols ["hiv_knowledge_score"; "condom_use_freq"; "always_condom";
                "ever_condom"; "condom_use_lbl"; "partners_last_year";
                "multiple_partners"; "any_sti"; "hiv_diagnosis"] (columns df)).
  { rewrite C5, Cd4. reflexivity. }
  assert (Cd6 : columns (Prepare.testing (Prepare.sti d4)) =
      add_cols ["hiv_knowledge_score"; "condom_use_freq"; "always_condom";
                "ever_condom"; "condom_use_lbl"; "partners_last_year";
                "multiple_partners"; "any_sti"; "hiv_diagnosis";
                "tested_hiv_12mo"; "test_reason"; "no_test_reason"; "knows_prep"]
        (columns df)).
  { rewrite C6, Cd5. reflexivity. }
  assert (Hd3' : forall k, mem k ["hiv_knowledge_score"; "condom_use_freq";
                   "always_condom"; "ever_condom"; "condom_use_lbl"] = false ->
                 has_col d3' k = has_col df k).
  { intros k Hk. eapply has_col_add_cols; [|exact Hk].
    unfold d3', assign. cbn [columns]. rewrite C3, C2. reflexivity. }
  split; [rewrite C7, Cd6; reflexivity|].
  split.
  { assert (H : has_col (Prepare.knowledge_score df) "p73" = has_col df "p73")
      by (eapply has_col_add_cols; [exact C2|reflexivity]).
    congruence. }
  split.
  { assert (H : has_col d3' "p71" = has_col df "p71") by (apply Hd3'; reflexivity).
    congruence. }
  split.
  { assert (H1 : has_col (Prepare.testing (Prepare.sti d4)) "edad_grupo_lbl" =
                 has_col df "edad_grupo_lbl")
      by (eapply has_col_add_cols; [exact Cd6|reflexivity]).
    assert (H2 : has_col (Prepare.testing (Prepare.sti d4)) "edad_grupo" =
                 has_col df "edad_grupo")
      by (eapply has_col_add_cols; [exact Cd6|reflexivity]).
    destruct Hage as [H|H]; [left|right]; congruence. }
  rewrite (@has_col_add_cols _ df d4 "p202_vih" Cd4 eq_refl) in M5.
  rewrite (@has_col_add_cols _ df _ "p208" Cd5 eq_refl) in M6.
  rewrite (@has_col_add_cols _ df _ "p210" Cd5 eq_refl) in M6.
  rewrite (@has_col_add_cols _ df _ "p211" Cd5 eq_refl) in M6.
  rewrite (@has_col_add_cols _ df _ "p213" Cd5 eq_refl) in M6.
  rewrite (@has_col_add_cols _ df _ "edad_grupo_lbl" Cd6 eq_refl) in M7.
  pose proof (Forall2_chain (Forall2_chain (Forall2_chain (Forall2_chain
                (Forall2_chain (Forall2_chain F2 F3) FL) (Forall2_and F4 M4))
                (Forall2_and F5 M5)) (Forall2_and F6 M6)) (Forall2_and F7 M7)) as F.
  revert F. apply Forall2_weaken. intros r r7.
  intros [r6 [H6 [G7 V7]]]. destruct H6 as [r5 [H5 [G6 V6]]].
  destruct H5 as [r4 [H4 [[G5 _] V5]]]. destruct H4 as [r3' [HL [[G4 _] V4]]].
  destruct HL as [r3 [H3 [GL VL]]].
  destruct H3 as [r2 [[G2 _] [G3 _]]].
  destruct V6 as [V6a [V6b [V6c V6d]]].
  assert (T7 : forall c, mem c (testing_names ++ ["edad_grupo_lbl"]) = false ->
                         val r7 c = val r5 c).
  { intros c Hc. unfold mem in Hc. rewrite existsb_app in Hc.
    apply orb_false_iff in Hc. destruct Hc as [Hc1 Hc2].
    rewrite (proj2 G7 c Hc2). now apply G6. }
  assert (R5 : forall c, mem c derived_names = false -> val r5 c = val r c).
  { intros c Hc. split_mem Hc.
    rewrite (proj2 G5 c), (proj2 G4 c), (proj2 GL c), (proj2 G3 c), (proj2 G2 c);
      [reflexivity| | | | |]; unfold mem; cbn [existsb];
      repeat match goal with K : String.eqb c _ = false |- _ => rewrite K end;
      reflexivity. }
  assert (R4 : forall c, mem c derived_names = false -> val r4 c = val r c).
  { intros c Hc. rewrite <- (R5 c Hc). symmetry. apply G5.
    split_mem Hc. unfold mem. cbn [existsb].
    repeat match goal with K : String.eqb c _ = false |- _ => rewrite K end.
    reflexivity. }
  unfold constructed_more.
  split.
  { rewrite !T7 by reflexivity. rewrite !(proj2 G5) by reflexivity.
    rewrite !(proj2 G4) by reflexivity. rewrite VL.
    now rewrite (proj2 GL "condom_use_freq") by reflexivity. }
  split.
  { rewrite !T7 by reflexivity. rewrite !(proj2 G5) by reflexivity. exact V4. }
  split.
  { rewrite T7 by reflexivity. rewrite V5. now rewrite (R4 "p202_vih") by reflexivity. }
  split.
  { rewrite (proj2 G7) by reflexivity. rewrite V6a.
    now rewrite (R5 "p208") by reflexivity. }
  split.
  { rewrite (proj2 G7) by reflexivity. rewrite V6b.
    now rewrite (R5 "p210") by reflexivity. }
  split.
  { rewrite (proj2 G7) by reflexivity. rewrite V6c.
    now rewrite (R5 "p211") by reflexivity. }
  split.
  { rewrite (proj2 G7) by reflexivity. rewrite V6d.
    now rewrite (R5 "p213") by reflexivity. }
  rewrite V7.
  assert (L6 : val r6 "edad_grupo_lbl" = val r "edad_grupo_lbl").
  { rewrite (proj2 G6), (proj2 G5), (proj2 G4), (proj2 GL), (proj2 G3), (proj2 G2)
      by reflexivity. reflexivity. }
  assert (A6 : val r6 "edad_grupo" = val r "edad_grupo").
  { rewrite (proj2 G6) by reflexivity. apply R5. reflexivity. }
  now rewrite L6, A6.
Qed.

Lemma prepare_more (fot : string -> option cell) (excel csv : option DataFrame)
    (raw df sample : DataFrame) :
  Prepare.load fot excel csv = Some raw ->
  Prepare.prepare fot excel csv = Some (df, sample) ->
  columns df = add_cols derived_names (columns raw) /\
  Forall2 (fun r0 r => constructed raw r0 r /\ constructed_more raw r0 r)
    (rows raw) (rows df).
Proof.
  intros Hl Hp. destruct (prepare_inv _ _ _ Hp) as [raw' [Hl' [Hc _]]].
  rewrite Hl in Hl'. injection Hl' as <-.
  destruct (construct_more _ Hc) as [C [_ [_ [_ F]]]].
  split; [exact C|]. apply Forall2_and; [now apply construct_rows|exact F].
Qed.

(** Two different literals are not both equal to a cell. *)
Lemma cell_eq_exclusive (c : cell) (j k : Q) :
  ~ (j == k)%Q -> cell_eq c j = true -> cell_eq c k = false.
Proof.
  intros Hne. destruct c as [|[q| |]|s]; simpl; try discriminate.
  rewrite Qeq_bool_iff. intros Hj. apply not_true_is_false.
  rewrite Qeq_bool_iff. intros Hk. apply Hne. now rewrite <- Hj, <- Hk.
Qed.

Lemma sentinel_excludes (c : cell) (k : Q) :
  ~ (9 == k)%Q -> ~ (99 == k)%Q ->
  Prepare.sentinel c = true -> cell_eq c k = false.
Proof.
  intros H9 H99 Hs. apply sentinel_iff in Hs.
  destruct Hs as [Hs|Hs];
    [exact (@cell_eq_exclusive c 9 k H9 Hs)|exact (@cell_eq_exclusive c 99 k H99 Hs)].
Qed.

Lemma sentinel_notna (c : cell) : Prepare.sentinel c = true -> c <> NA.
Proof. intros H ->. discriminate H. Qed.

Lemma astype_float_cases (b : bool) :
  (astype_float b = Num (Fin 1) <-> b = true) /\
  (astype_float b = Num (Fin 0) <-> b = false) /\
  astype_float b <> NA.
Proof. destruct b; simpl; repeat split; intros; congruence. Qed.

Ltac close_cases :=
  repeat split; intros;
  first [ congruence | tauto | solve [intuition congruence] ].

(** X1.  Always implies ever: in the prepared table [always_condom] and
    [ever_condom] are undefined together, whoever always uses condoms has
    [ever_condom] 1.0, and whoever never used them has [always_condom] 0.0. *)
Theorem always_implies_ever
    (fot : string -> option cell) (excel csv : option DataFrame)
    (raw df sample : DataFrame) :
  Prepare.load fot excel csv = Some raw ->
  Prepare.prepare fot excel csv = Some (df, sample) ->
  Forall (fun r =>
      (val r "always_condom" = NA <-> val r "ever_condom" = NA) /\
      (val r "always_condom" = Num (Fin 1) -> val r "ever_condom" = Num (Fin 1)) /\
      (val r "ever_condom" = Num (Fin 0) -> val r "always_condom" = Num (Fin 0)))
    (rows df).
Proof.
  intros Hl Hp. pose proof (prepare_rows _ _ _ Hl Hp) as F.
  induction F as [|r0 r l0 l H _ IH]; constructor; [|exact IH].
  destruct H as [_ [_ [_ [Ha [He _]]]]]. rewrite Ha, He.
  destruct (Prepare.sentinel (val r0 "p73")); [repeat split; intros; congruence|].
  unfold cell_isin. cbn [existsb].
  destruct (cell_eq (val r0 "p73") 1); simpl.
  - repeat split; intros; congruence.
  - destruct (cell_eq (val r0 "p73") 2); simpl; repeat split; intros; congruence.
Qed.

Lemma always_implies_ever_witness :
  exists df sample,
    Prepare.prepare no_text (Some demo_excel) None = Some (df, sample) /\
    Forall (fun r =>
      (val r "always_condom" = NA <-> val r "ever_condom" = NA) /\
      (val r "always_condom" = Num (Fin 1) -> val r "ever_condom" = Num (Fin 1)) /\
      (val r "ever_condom" = Num (Fin 0) -> val r "always_condom" = Num (Fin 0)))
    (rows df).
Proof.
  eexists. eexists. split; [vm_compute; reflexivity|].
  eapply (@always_implies_ever no_text (Some demo_excel) None demo_excel);
    [reflexivity|vm_compute; reflexivity].
Defined.

(** X2.  [condom_use_freq] is the raw code [p73] with the sentinels removed,
    and [condom_use_lbl] names the codes 1, 2 and 3 only: a respondent with
    any other defined code keeps a defined [condom_use_freq] (and so passes
    the condom-use step of the cohort filter) but has no label. *)
Theorem condom_frequency_and_label
    (fot : string -> option cell) (excel csv : option DataFrame)
    (raw df sample : DataFrame) :
  Prepare.load fot excel csv = Some raw ->
  Prepare.prepare fot excel csv = Some (df, sample) ->
  Forall2 (fun r0 r =>
      let p73 := val r0 "p73" in
      (val r "condom_use_freq" = NA <->
       p73 = NA \/ cell_eq p73 9 = true \/ cell_eq p73 99 = true) /\
      (val r "condom_use_freq" <> NA ->
       val r "condom_use_freq" = p73 /\ has_condom_use r = true) /\
      (val r "condom_use_lbl" = Text "Always" <-> cell_eq p73 1 = true) /\
      (val r "condom_use_lbl" = Text "Sometimes" <-> cell_eq p73 2 = true) /\
      (val r "condom_use_lbl" = Text "Never" <-> cell_eq p73 3 = true) /\
      (val r "condom_use_lbl" = NA <->
       cell_eq p73 1 = false /\ cell_eq p73 2 = false /\ cell_eq p73 3 = false))
    (rows raw) (rows df).
Proof.
  intros Hl Hp. destruct (prepare_more _ _ _ Hl Hp) as [_ F].
  revert F. apply Forall2_weaken.
  intros r0 r [[_ [_ [Hf _]]] [Hlbl _]]. cbv zeta.
  rewrite Hlbl. unfold has_condom_use. rewrite Hf.
  destruct (Prepare.sentinel (val r0 "p73")) eqn:Hs.
  - assert (E1 : cell_eq (val r0 "p73") 1 = false)
      by (apply sentinel_excludes; [lra|lra|exact Hs]).
    assert (E2 : cell_eq (val r0 "p73") 2 = false)
      by (apply sentinel_excludes; [lra|lra|exact Hs]).
    assert (E3 : cell_eq (val r0 "p73") 3 = false)
      by (apply sentinel_excludes; [lra|lra|exact Hs]).
    rewrite E1, E2, E3. apply sentinel_iff in Hs.
    unfold Prepare.condom_label. simpl. close_cases.
  - assert (Hn : ~ (cell_eq (val r0 "p73") 9 = true \/ cell_eq (val r0 "p73") 99 = true)).
    { rewrite <- sentinel_iff. congruence. }
    unfold Prepare.condom_label.
    split; [split; [tauto|intros [H|H]; [exact H|tauto]]|].
    split.
    { intros H. split; [reflexivity|]. destruct (val r0 "p73"); [congruence| |]; reflexivity. }
    destruct (cell_eq (val r0 "p73") 1) eqn:E1.
    { rewrite (@cell_eq_exclusive _ 1 2 ltac:(lra) E1).
      rewrite (@cell_eq_exclusive _ 1 3 ltac:(lra) E1).
      cbv iota. close_cases. }
    destruct (cell_eq (val r0 "p73") 2) eqn:E2.
    { rewrite (@cell_eq_exclusive _ 2 3 ltac:(lra) E2).
      cbv iota. close_cases. }
    destruct (cell_eq (val r0 "p73") 3) eqn:E3; cbv iota; close_cases.
Qed.

Lemma condom_frequency_and_label_witness :
  exists df sample,
    Prepare.prepare no_text (Some demo_excel) None = Some (df, sample) /\
    Forall2 (fun r0 r =>
      let p73 := val r0 "p73" in
      (val r "condom_use_freq" = NA <->
       p73 = NA \/ cell_eq p73 9 = true \/ cell_eq p73 99 = true) /\
      (val r "condom_use_freq" <> NA ->
       val r "condom_use_freq" = p73 /\ has_condom_use r = true) /\
      (val r "condom_use_lbl" = Text "Always" <-> cell_eq p73 1 = true) /\
      (val r "condom_use_lbl" = Text "Sometimes" <-> cell_eq p73 2 = true) /\
      (val r "condom_use_lbl" = Text "Never" <-> cell_eq p73 3 = true) /\
      (val r "condom_use_lbl" = NA <->
       cell_eq p73 1 = false /\ cell_eq p73 2 = false /\ cell_eq p73 3 = false))
    (rows demo_excel) (rows df).
Proof.
  eexists. eexists. split; [vm_compute; reflexivity|].
  eapply (@condom_frequency_and_label no_text (Some demo_excel) None demo_excel);
    [reflexivity|vm_compute; reflexivity].
Defined.

(** X3.  [multiple_partners] is undefined exactly when [partners_last_year]
    is; otherwise it is 1.0 when [partners_last_year] is at least 2 and 0.0
    when it is not. *)
Theorem multiple_partners_indicator
    (fot : string -> option cell) (excel csv : option DataFrame)
    (raw df sample : DataFrame) :
  Prepare.load fot excel csv = Some raw ->
  Prepare.prepare fot excel csv = Some (df, sample) ->
  Forall (fun r =>
      (val r "multiple_partners" = NA <-> val r "partners_last_year" = NA) /\
      (val r "multiple_partners" = Num (Fin 1) <->
       cell_ge (val r "partners_last_year") 2 = true) /\
      (val r "multiple_partners" = Num (Fin 0) <->
       val r "partners_last_year" <> NA /\
       cell_ge (val r "partners_last_year") 2 = false))
    (rows df).
Proof.
  intros Hl Hp. destruct (prepare_more _ _ _ Hl Hp) as [_ F].
  induction F as [|r0 r l0 l H _ IH]; constructor; [|exact IH].
  destruct H as [_ [_ [Hm _]]]. rewrite Hm.
  destruct (val r "partners_last_year") as [|x|s] eqn:E; simpl.
  - close_cases.
  - destruct (num_geb x 2); simpl; close_cases.
  - close_cases.
Qed.

Lemma multiple_partners_indicator_witness :
  exists df sample,
    Prepare.prepare no_text (Some demo_excel) None = Some (df, sample) /\
    Forall (fun r =>
      (val r "multiple_partners" = NA <-> val r "partners_last_year" = NA) /\
      (val r "multiple_partners" = Num (Fin 1) <->
       cell_ge (val r "partners_last_year") 2 = true) /\
      (val r "multiple_partners" = Num (Fin 0) <->
       val r "partners_last_year" <> NA /\
       cell_ge (val r "partners_last_year") 2 = false))
    (rows df).
Proof.
  eexists. eexists. split; [vm_compute; reflexivity|].
  eapply (@multiple_partners_indicator no_text (Some demo_excel) None demo_excel);
    [reflexivity|vm_compute; reflexivity].
Defined.

(** X4.  [partners_last_year] is the raw count [p71] unless the count is
    missing or above 100, and nothing else is removed: when defined it is a
    number, equal to [p71] and not above 100; a count of 0 or a negative
    count is kept as it is. *)
Theorem partners_last_year_capped
    (fot : string -> option cell) (excel csv : option DataFrame)
    (raw df sample : DataFrame) :
  Prepare.load fot excel csv = Some raw ->
  Prepare.prepare fot excel csv = Some (df, sample) ->
  Forall2 (fun r0 r =>
      (val r "partners_last_year" = NA <->
       val r0 "p71" = NA \/ cell_gt (val r0 "p71") 100 = true) /\
      (val r "partners_last_year" <> NA ->
       val r "partners_last_year" = val r0 "p71" /\
       is_text (val r "partners_last_year") = false /\
       cell_gt (val r "partners_last_year") 100 = false))
    (rows raw) (rows df).
Proof.
  intros Hl Hp. pose proof (prepare_rows _ _ _ Hl Hp) as F.
  revert F. apply Forall2_weaken.
  intros r0 r [_ [_ [_ [_ [_ [Hv [Ht _]]]]]]]. rewrite Hv.
  destruct (cell_gt (val r0 "p71") 100) eqn:Eg.
  - close_cases.
  - destruct (cell_eq (val r0 "p71") 999) eqn:E9.
    + apply cell_eq_999_gt_100 in E9. congruence.
    + split; [split; [tauto|intros [H|H]; congruence]|].
      intros _. auto.
Qed.

Lemma partners_last_year_capped_witness :
  exists df sample,
    Prepare.prepare no_text (Some demo_excel) None = Some (df, sample) /\
    Forall2 (fun r0 r =>
      (val r "partners_last_year" = NA <->
       val r0 "p71" = NA \/ cell_gt (val r0 "p71") 100 = true) /\
      (val r "partners_last_year" <> NA ->
       val r "partners_last_year" = val r0 "p71" /\
       is_text (val r "partners_last_year") = false /\
       cell_gt (val r "partners_last_year") 100 = false))
    (rows demo_excel) (rows df).
Proof.
  eexists. eexists. split; [vm_compute; reflexivity|].
  eapply (@partners_last_year_capped no_text (Some demo_excel) None demo_excel);
    [reflexivity|vm_compute; reflexivity].
Defined.

(** X5.  [hiv_diagnosis] is undefined for every respondent when the table
    has no column [p202_vih]; when it has, [hiv_diagnosis] is never
    undefined: 1.0 when the code is 1 and 0.0 otherwise, a missing code
    included. *)
Theorem hiv_diagnosis_by_column
    (fot : string -> option cell) (excel csv : option DataFrame)
    (raw df sample : DataFrame) :
  Prepare.load fot excel csv = Some raw ->
  Prepare.prepare fot excel csv = Some (df, sample) ->
  Forall2 (fun r0 r =>
      (has_col raw "p202_vih" = false -> val r "hiv_diagnosis" = NA) /\
      (has_col raw "p202_vih" = true ->
       val r "hiv_diagnosis" <> NA /\
       (val r "hiv_diagnosis" = Num (Fin 1) <-> cell_eq (val r0 "p202_vih") 1 = true) /\
       (val r "hiv_diagnosis" = Num (Fin 0) <-> cell_eq (val r0 "p202_vih") 1 = false) /\
       (val r0 "p202_vih" = NA -> val r "hiv_diagnosis" = Num (Fin 0))))
    (rows raw) (rows df).
Proof.
  intros Hl Hp. destruct (prepare_more _ _ _ Hl Hp) as [_ F].
  revert F. apply Forall2_weaken.
  intros r0 r [_ [_ [_ [Hh _]]]]. rewrite Hh.
  destruct (has_col raw "p202_vih"); [|close_cases].
  split; [discriminate|]. intros _.
  destruct (astype_float_cases (cell_eq (val r0 "p202_vih") 1)) as [A1 [A0 An]].
  split; [exact An|]. split; [exact A1|]. split; [exact A0|].
  intros ->. reflexivity.
Qed.

Lemma hiv_diagnosis_by_column_witness :
  exists df sample,
    Prepare.prepare no_text (Some demo_excel) None = Some (df, sample) /\
    Forall2 (fun r0 r =>
      (has_col demo_excel "p202_vih" = false -> val r "hiv_diagnosis" = NA) /\
      (has_col demo_excel "p202_vih" = true ->
       val r "hiv_diagnosis" <> NA /\
       (val r "hiv_diagnosis" = Num (Fin 1) <-> cell_eq (val r0 "p202_vih") 1 = true) /\
       (val r "hiv_diagnosis" = Num (Fin 0) <-> cell_eq (val r0 "p202_vih") 1 = false) /\
       (val r0 "p202_vih" = NA -> val r "hiv_diagnosis" = Num (Fin 0))))
    (rows demo_excel) (rows df).
Proof.
  eexists. eexists. split; [vm_compute; reflexivity|].
  eapply (@hiv_diagnosis_by_column no_text (Some demo_excel) None demo_excel);
    [reflexivity|vm_compute; reflexivity].
Defined.

Lemma flag_of_spec (present : bool) (c : cell) :
  is_flag_of present c (flag_of present c).
Proof.
  unfold is_flag_of, flag_of. destruct present; [|close_cases].
  split; [discriminate|]. intros _. rewrite <- sentinel_iff.
  destruct (Prepare.sentinel c) eqn:Hs.
  - assert (E1 : cell_eq c 1 = false) by (apply sentinel_excludes; [lra|lra|exact Hs]).
    rewrite E1. split; [tauto|]. split; [close_cases|]. split; [congruence|].
    intros ->. discriminate Hs.
  - destruct (astype_float_cases (cell_eq c 1)) as [A1 [A0 An]].
    split; [split; [intros H; now apply An in H|discriminate]|].
    split; [exact A1|]. split.
    + intros _. destruct (cell_eq c 1); auto.
    + intros ->. reflexivity.
Qed.

Lemma code_of_spec (present : bool) (c : cell) :
  is_code_of present c (code_of present c).
Proof.
  unfold is_code_of, code_of. destruct present; [|close_cases].
  split; [discriminate|]. intros _. rewrite <- sentinel_iff.
  destruct (Prepare.sentinel c) eqn:Hs.
  - close_cases.
  - split; [|auto]. split; [tauto|]. intros [H|H]; congruence.
Qed.

(** X6.  [tested_hiv_12mo] and [knows_prep] are the indicators of code 1 of
    [p208] and [p213]: undefined for everyone when the table lacks the
    column, undefined on a sentinel code 9 or 99, 1.0 on code 1 and 0.0 on
    any other code; a missing raw code gives 0.0, not an undefined value. *)
Theorem testing_and_prep_flags
    (fot : string -> option cell) (excel csv : option DataFrame)
    (raw df sample : DataFrame) :
  Prepare.load fot excel csv = Some raw ->
  Prepare.prepare fot excel csv = Some (df, sample) ->
  Forall2 (fun r0 r =>
      is_flag_of (has_col raw "p208") (val r0 "p208") (val r "tested_hiv_12mo") /\
      is_flag_of (has_col raw "p213") (val r0 "p213") (val r "knows_prep"))
    (rows raw) (rows df).
Proof.
  intros Hl Hp. destruct (prepare_more _ _ _ Hl Hp) as [_ F].
  revert F. apply Forall2_weaken.
  intros r0 r [_ [_ [_ [_ [Ht [_ [_ [Hk _]]]]]]]]. rewrite Ht, Hk.
  split; apply flag_of_spec.
Qed.

Lemma testing_and_prep_flags_witness :
  exists df sample,
    Prepare.prepare no_text (Some demo_excel) None = Some (df, sample) /\
    Forall2 (fun r0 r =>
      is_flag_of (has_col demo_excel "p208") (val r0 "p208") (val r "tested_hiv_12mo") /\
      is_flag_of (has_col demo_excel "p213") (val r0 "p213") (val r "knows_prep"))
    (rows demo_excel) (rows df).
Proof.
  eexists. eexists. split; [vm_compute; reflexivity|].
  eapply (@testing_and_prep_flags no_text (Some demo_excel) None demo_excel);
    [reflexivity|vm_compute; reflexivity].
Defined.

(** X7.  [test_reason] and [no_test_reason] are the raw codes [p210] and
    [p211] with the sentinels 9 and 99 removed: undefined for everyone when
    the table lacks the column, undefined on a missing or sentinel code, and
    otherwise the raw code itself. *)
Theorem test_reason_codes
    (fot : string -> option cell) (excel csv : option DataFrame)
    (raw df sample : DataFrame) :
  Prepare.load fot excel csv = Some raw ->
  Prepare.prepare fot excel csv = Some (df, sample) ->
  Forall2 (fun r0 r =>
      is_code_of (has_col raw "p210") (val r0 "p210") (val r "test_reason") /\
      is_code_of (has_col raw "p211") (val r0 "p211") (val r "no_test_reason"))
    (rows raw) (rows df).
Proof.
  intros Hl Hp. destruct (prepare_more _ _ _ Hl Hp) as [_ F].
  revert F. apply Forall2_weaken.
  intros r0 r [_ [_ [_ [_ [_ [Ht [Hn _]]]]]]]. rewrite Ht, Hn.
  split; apply code_of_spec.
Qed.

Lemma test_reason_codes_witness :
  exists df sample,
    Prepare.prepare no_text (Some demo_excel) None = Some (df, sample) /\
    Forall2 (fun r0 r =>
      is_code_of (has_col demo_excel "p210") (val r0 "p210") (val r "test_reason") /\
      is_code_of (has_col demo_excel "p211") (val r0 "p211") (val r "no_test_reason"))
    (rows demo_excel) (rows df).
Proof.
  eexists. eexists. split; [vm_compute; reflexivity|].
  eapply (@test_reason_codes no_text (Some demo_excel) None demo_excel);
    [reflexivity|vm_compute; reflexivity].
Defined.






(** ** The analytic sample *)

Lemma filter_length (A : Type) (p : A -> bool) (l : list A) :
  (List.length (filter p l) <= List.length l)%nat.
Proof. induction l as [|a l IH]; simpl; [lia|]. destruct (p a); simpl; lia. Qed.

(** X9.  The analytic sample is the intersection of the three inclusion
    criteria: a row of the prepared table is in it exactly when it has a
    partner count above 0, a defined [condom_use_freq] and a defined
    [edad_grupo].  The sample keeps the columns of the table, and the count
    kept after each step is at most the count before it. *)
Theorem sample_is_intersection
    (fot : string -> option cell) (excel csv : option DataFrame)
    (df sample : DataFrame) :
  Prepare.prepare fot excel csv = Some (df, sample) ->
  (forall r, In r (rows sample) <->
     In r (rows df) /\ has_partner r = true /\ has_condom_use r = true /\
     has_age r = true) /\
  columns sample = columns df /\
  exists d1 d2,
    Prepare.sexually_active df = Some d1 /\
    Prepare.valid_condom_use d1 = Some d2 /\
    Prepare.valid_age d2 = Some sample /\
    (Regression.len sample <= Regression.len d2)%nat /\
    (Regression.len d2 <= Regression.len d1)%nat /\
    (Regression.len d1 <= Regression.len df)%nat.
Proof.
  intros Hp. destruct (prepare_inv _ _ _ Hp) as [raw [_ [_ Hs]]].
  pose proof (df_analysis_rows _ Hs) as R.
  unfold Prepare.df_analysis, bind in Hs.
  destruct (Prepare.sexually_active df) as [d1|] eqn:E1; [|discriminate].
  destruct (Prepare.valid_condom_use d1) as [d2|] eqn:E2; [|discriminate].
  destruct (sexually_active_rows _ E1) as [C1 R1].
  destruct (valid_condom_use_rows _ E2) as [C2 R2].
  destruct (valid_age_rows _ Hs) as [C3 R3].
  split.
  { intros r. rewrite R, !filter_In. tauto. }
  split; [congruence|].
  exists d1, d2. split; [reflexivity|]. split; [exact E2|]. split; [exact Hs|].
  unfold Regression.len. rewrite R3, R2, R1.
  split; [apply filter_length|]. split; apply filter_length.
Qed.

Lemma sample_is_intersection_witness :
  exists df sample,
    Prepare.prepare no_text (Some demo_excel) None = Some (df, sample) /\
    (forall r, In r (rows sample) <->
       In r (rows df) /\ has_partner r = true /\ has_condom_use r = true /\
       has_age r = true) /\
    columns sample = columns df /\
    map ix (rows sample) = [0; 6]%nat.
Proof.
  eexists. eexists. split; [vm_compute; reflexivity|].
  match goal with
  | |- (forall r, In r (rows ?s) <-> In r (rows ?d) /\ _) /\ _ =>
      assert (H : Prepare.prepare no_text (Some demo_excel) None = Some (d, s))
        by (vm_compute; reflexivity);
      destruct (sample_is_intersection _ _ _ H) as [H1 [H2 _]]
  end.
  split; [exact H1|]. split; [exact H2|]. vm_compute. reflexivity.
Defined.

(** ** When the script runs to the end *)

Lemma has_col_eq_columns (d d' : DataFrame) (c : string) :
  columns d = columns d' -> has_col d c = has_col d' c.
Proof. unfold has_col. now intros ->. Qed.

Lemma construct_total (df : DataFrame) :
  has_col df "p73" = true ->
  has_col df "p71" = true ->
  numeric_col "p71" df = true ->
  has_col df "edad_grupo" = true ->
  exists df', Prepare.construct df = Some df'.
Proof.
  intros H73 H71 Hn Hage. unfold Prepare.construct.
  destruct (knowledge_score_rows df) as [C2 F2].
  destruct (@condom_use_total (Prepare.knowledge_score df)) as [d3 E3].
  { assert (H : has_col (Prepare.knowledge_score df) "p73" = has_col df "p73")
      by (eapply has_col_add_cols; [exact C2|reflexivity]).
    congruence. }
  rewrite E3. cbn [bind].
  destruct (condom_use_rows _ E3) as [C3 F3].
  set (d3' := assign "condom_use_lbl"
                (fun r => Prepare.condom_label (val r "condom_use_freq")) d3).
  assert (Cd3' : columns d3' =
            add_cols ["hiv_knowledge_score"; "condom_use_freq"; "always_condom";
                      "ever_condom"; "condom_use_lbl"] (columns df)).
  { unfold d3', assign. cbn [columns]. rewrite C3, C2. reflexivity. }
  destruct (@partners_total d3') as [d4 E4].
  { assert (H : has_col d3' "p71" = has_col df "p71")
      by (eapply has_col_add_cols; [exact Cd3'|reflexivity]).
    congruence. }
  { apply numeric_col_forall. intros r3' Hr.
    assert (F : Forall2 (fun r r' => val r' "p71" = val r "p71") (rows df) (rows d3')).
    { assert (FL : Forall2 (frame ["condom_use_lbl"]) (rows d3) (rows d3')).
      { unfold d3', assign. simpl. apply Forall2_map_self. intros r _. solve_frame. }
      pose proof (Forall2_chain (Forall2_chain F2 F3) FL) as G.
      revert G. apply Forall2_weaken. intros a c [b [[b0 [[G2 _] [G3 _]]] GL]].
      rewrite (proj2 GL), (proj2 G3), (proj2 G2) by reflexivity. reflexivity. }
    rewrite numeric_col_forall in Hn.
    clear - F Hr Hn. induction F as [|a b l l' Hab _ IH]; [destruct Hr|].
    destruct Hr as [<-|Hr].
    - rewrite Hab. apply Hn. now left.
    - apply IH; [|exact Hr]. intros x Hx. apply Hn. now right. }
  rewrite E4. cbn [bind].
  destruct (partners_rows _ E4) as [_ [C4 _]].
  destruct (sti_rows d4) as [C5 _].
  destruct (testing_more (Prepare.sti d4)) as [C6 _].
  apply age_group_labels_total.
  assert (H : has_col (Prepare.testing (Prepare.sti d4)) "edad_grupo" =
              has_col df "edad_grupo").
  { eapply (@has_col_add_cols
              ["hiv_knowledge_score"; "condom_use_freq"; "always_condom";
               "ever_condom"; "condom_use_lbl"; "partners_last_year";
               "multiple_partners"; "any_sti"; "hiv_diagnosis";
               "tested_hiv_12mo"; "test_reason"; "no_test_reason"; "knows_prep"]);
      [|reflexivity].
    rewrite C6, C5, C4, Cd3'. reflexivity. }
  congruence.
Qed.

Lemma has_col_add_cols_in (names : list string) (df df' : DataFrame) (k : string) :
  columns df' = add_cols names (columns df) ->
  has_col df' k = has_col df k || mem k names.
Proof.
  unfold has_col. intros ->. generalize (columns df) as cols.
  induction names as [|c names IH]; intros cols; simpl.
  - now rewrite orb_false_r.
  - rewrite IH. unfold add_col.
    destruct (existsb (String.eqb c) cols) eqn:E.
    + destruct (String.eqb_spec k c) as [->|]; simpl; [|reflexivity].
      rewrite E. reflexivity.
    + rewrite existsb_app. simpl. rewrite orb_false_r.
      now rewrite orb_assoc.
Qed.

Lemma df_analysis_total (df : DataFrame) :
  has_col df "partners_last_year" = true ->
  numeric_partners df ->
  has_col df "condom_use_freq" = true ->
  has_col df "edad_grupo" = true ->
  exists sample, Prepare.df_analysis df = Some sample.
Proof.
  intros Hp Hn Hc Ha.
  unfold Prepare.df_analysis, Prepare.sexually_active, Prepare.valid_condom_use,
    Prepare.valid_age, series_gt, require, bind.
  rewrite Hp. unfold numeric_partners in Hn. rewrite Hn.
  assert (K : forall m c, has_col (filter_rows m df) c = has_col df c)
    by reflexivity.
  rewrite K, Hc.
  assert (K' : forall m m' c,
             has_col (filter_rows m' (filter_rows m df)) c = has_col df c)
    by reflexivity.
  rewrite K', Ha. eauto.
Qed.

Lemma prepare_needs
    (fot : string -> option cell) (excel csv : option DataFrame)
    (raw df sample : DataFrame) :
  Prepare.load fot excel csv = Some raw ->
  Prepare.prepare fot excel csv = Some (df, sample) ->
  has_col raw "p73" = true /\ has_col raw "p71" = true /\
  numeric_col "p71" raw = true /\ has_col raw "edad_grupo" = true.
Proof.
  intros Hl0 Hp.
  destruct (prepare_inv _ _ _ Hp) as [raw' [Hl [Hc Hs]]].
  rewrite Hl0 in Hl. injection Hl as <-.
  destruct (construct_more _ Hc) as [C [H73 [H71 [_ _]]]].
  split; [exact H73|]. split; [exact H71|]. split.
  - apply numeric_col_forall. intros r0 Hr0.
    pose proof (construct_rows _ Hc) as F.
    clear - F Hr0. induction F as [|a b l l' Hab _ IH]; [destruct Hr0|].
    destruct Hr0 as [<-|Hr0]; [apply Hab|now apply IH].
  - unfold Prepare.df_analysis, bind in Hs.
    destruct (Prepare.sexually_active df) as [d1|] eqn:E1; [|discriminate].
    destruct (Prepare.valid_condom_use d1) as [d2|] eqn:E2; [|discriminate].
    destruct (sexually_active_rows _ E1) as [C1 _].
    destruct (valid_condom_use_rows _ E2) as [C2 _].
    unfold Prepare.valid_age, require, bind in Hs.
    destruct (has_col d2 "edad_grupo") eqn:Ha; [|discriminate].
    assert (Hdf : has_col df "edad_grupo" = has_col d2 "edad_grupo")
      by (apply has_col_eq_columns; congruence).
    pose proof (has_col_add_cols_in derived_names raw df "edad_grupo" C) as K.
    change (mem "edad_grupo" derived_names) with false in K.
    rewrite orb_false_r in K. congruence.
Qed.

(** X10.  The preparation script stops with an error when the loaded table
    lacks one of the columns [p73], [p71] and [edad_grupo], or when [p71]
    holds text: it then produces neither the prepared table nor the
    sample. *)
Theorem prepare_stops_without_columns
    (fot : string -> option cell) (excel csv : option DataFrame)
    (raw : DataFrame) :
  Prepare.load fot excel csv = Some raw ->
  has_col raw "p73" = false \/ has_col raw "p71" = false \/
  numeric_col "p71" raw = false \/ has_col raw "edad_grupo" = false ->
  Prepare.prepare fot excel csv = None.
Proof.
  intros Hl H.
  destruct (Prepare.prepare fot excel csv) as [[df sample]|] eqn:Hp; [|reflexivity].
  destruct (prepare_needs _ _ _ Hl Hp) as [H73 [H71 [Hn Ha]]].
  destruct H as [H|[H|[H|H]]]; congruence.
Qed.

Lemma prepare_stops_without_columns_witness :
  has_col demo_csv "edad_grupo" = false /\
  Prepare.prepare no_text (Some demo_csv) None = None.
Proof.
  split; [reflexivity|].
  apply (@prepare_stops_without_columns no_text (Some demo_csv) None demo_csv);
    [reflexivity|right; right; right; reflexivity].
Defined.

(** ** The diagnosis indicator *)

(** X11.  [any_sti] is an indicator: 0 or 1 for every respondent.  With a
    summary column [its_alguna_vez] it is 1 exactly when that code is 1;
    without one it is 1 exactly when some column of the table whose name
    starts with [p202_] holds the code 1 for the respondent. *)
Theorem any_sti_indicator
    (fot : string -> option cell) (excel csv : option DataFrame)
    (raw df sample : DataFrame) :
  Prepare.load fot excel csv = Some raw ->
  Prepare.prepare fot excel csv = Some (df, sample) ->
  Forall2 (fun r0 r =>
      (val r "any_sti" = Num (Fin 0) \/ val r "any_sti" = Num (Fin 1)) /\
      (has_col raw "its_alguna_vez" = true ->
       (val r "any_sti" = Num (Fin 1) <->
        cell_eq (val r0 "its_alguna_vez") 1 = true)) /\
      (has_col raw "its_alguna_vez" = false ->
       (val r "any_sti" = Num (Fin 1) <->
        exists v, In v (columns raw) /\ String.prefix "p202_" v = true /\
                  cell_eq (val r0 v) 1 = true)))
    (rows raw) (rows df).
Proof.
  intros Hl Hp. pose proof (any_sti_rows _ _ _ Hl Hp) as F.
  revert F. apply Forall2_weaken. intros r0 r H. rewrite H. clear H.
  assert (E : existsb (fun v => cell_eq (val r0 v) 1) (sti_vars raw) = true <->
              exists v, In v (columns raw) /\ String.prefix "p202_" v = true /\
                        cell_eq (val r0 v) 1 = true).
  { rewrite existsb_exists. unfold sti_vars.
    split; intros [v [H1 H2]]; exists v.
    - apply filter_In in H1. tauto.
    - split; [apply filter_In|]; tauto. }
  destruct (has_col raw "its_alguna_vez").
  - destruct (cell_eq (val r0 "its_alguna_vez") 1); cbn [astype_float];
      (split; [auto|]); split; intros H; try discriminate H;
      split; intros H'; solve [reflexivity | discriminate H'].
  - destruct (existsb (fun v => cell_eq (val r0 v) 1) (sti_vars raw));
      cbn [astype_float]; (split; [auto|]); split; intros H; try discriminate H.
    + split; [intros _; now apply E|reflexivity].
    + split; [intros H'; discriminate H'|].
      intros H'. apply E in H'. discriminate H'.
Qed.

Lemma any_sti_indicator_witness :
  exists df sample,
    Prepare.prepare no_text (Some demo_excel) None = Some (df, sample) /\
    Forall2 (fun r0 r =>
      (val r "any_sti" = Num (Fin 0) \/ val r "any_sti" = Num (Fin 1)) /\
      (has_col demo_excel "its_alguna_vez" = true ->
       (val r "any_sti" = Num (Fin 1) <->
        cell_eq (val r0 "its_alguna_vez") 1 = true)) /\
      (has_col demo_excel "its_alguna_vez" = false ->
       (val r "any_sti" = Num (Fin 1) <->
        exists v, In v (columns demo_excel) /\ String.prefix "p202_" v = true /\
                  cell_eq (val r0 v) 1 = true)))
    (rows demo_excel) (rows df).
Proof.
  eexists. eexists. split; [vm_compute; reflexivity|].
  eapply (@any_sti_indicator no_text (Some demo_excel) None demo_excel);
    [reflexivity|vm_compute; reflexivity].
Defined.

(** ** The saved table *)

Lemma existsb_filter (A : Type) (p q : A -> bool) (l : list A) :
  existsb p (filter q l) = existsb (fun x => q x && p x) l.
Proof.
  induction l as [|a l IH]; [reflexivity|]. simpl.
  destruct (q a); simpl; now rewrite IH.
Qed.

Lemma existsb_and_eqb (q : string -> bool) (c : string) (l : list string) :
  existsb (fun x => q x && String.eqb c x) l = existsb (String.eqb c) l && q c.
Proof.
  induction l as [|a l IH]; [reflexivity|]. cbn [existsb]. rewrite IH.
  destruct (String.eqb_spec c a) as [E|E].
  - subst a. destruct (q c), (existsb (String.eqb c) l); reflexivity.
  - rewrite andb_false_r. reflexivity.
Qed.

Lemma has_col_df_out (sample : DataFrame) (c : string) :
  has_col (Prepare.df_out sample) c =
  mem c Prepare.analysis_vars && has_col sample c.
Proof.
  unfold Prepare.df_out, has_col at 1. cbn [columns].
  rewrite existsb_filter. apply existsb_and_eqb.
Qed.

Lemma sample_columns (fot : string -> option cell) (excel csv : option DataFrame)
    (df sample : DataFrame) :
  Prepare.prepare fot excel csv = Some (df, sample) ->
  columns sample = columns df.
Proof.
  intros Hp. destruct (prepare_inv _ _ _ Hp) as [raw [_ [_ Hs]]].
  unfold Prepare.df_analysis, bind in Hs.
  destruct (Prepare.sexually_active df) as [d1|] eqn:E1; [|discriminate].
  destruct (Prepare.valid_condom_use d1) as [d2|] eqn:E2; [|discriminate].
  destruct (sexually_active_rows _ E1) as [C1 _].
  destruct (valid_condom_use_rows _ E2) as [C2 _].
  destruct (valid_age_rows _ Hs) as [C3 _]. congruence.
Qed.

Lemma has_col_saved (fot : string -> option cell) (excel csv : option DataFrame)
    (raw df sample : DataFrame) (c : string) :
  Prepare.load fot excel csv = Some raw ->
  Prepare.prepare fot excel csv = Some (df, sample) ->
  has_col (Prepare.df_out sample) c =
  mem c Prepare.analysis_vars && (has_col raw c || mem c derived_names).
Proof.
  intros Hl Hp. rewrite has_col_df_out. f_equal.
  rewrite (has_col_eq_columns sample df c (sample_columns _ _ _ Hp)).
  destruct (prepare_more _ _ _ Hl Hp) as [C _].
  exact (@has_col_add_cols_in _ _ _ c C).
Qed.

(** X12.  The saved table has the rows of the analytic sample and, of the
    listed analysis variables, those that are in the loaded table or were
    derived.  It always has every column the regression models and the
    age-stratified loop read, and never the raw columns [p73] and [p71]. *)
Theorem saved_table_columns
    (fot : string -> option cell) (excel csv : option DataFrame)
    (raw df sample : DataFrame) :
  Prepare.load fot excel csv = Some raw ->
  Prepare.prepare fot excel csv = Some (df, sample) ->
  rows (Prepare.df_out sample) = rows sample /\
  (forall c, has_col (Prepare.df_out sample) c = true <->
     In c Prepare.analysis_vars /\ (has_col raw c = true \/ In c derived_names)) /\
  forallb (has_col (Prepare.df_out sample))
    [ "always_condom"; "edad_grupo"; "hiv_knowledge_score"; "partners_last_year";
      "any_sti"; "tested_hiv_12mo"; "knows_prep"; "edad_grupo_lbl" ] = true /\
  has_col (Prepare.df_out sample) "p73" = false /\
  has_col (Prepare.df_out sample) "p71" = false.
Proof.
  intros Hl Hp.
  pose proof (fun c => @has_col_saved fot excel csv raw df sample c Hl Hp) as K.
  destruct (prepare_needs _ _ _ Hl Hp) as [_ [_ [_ Ha]]].
  split; [reflexivity|]. split.
  { intros c. rewrite K, andb_true_iff, orb_true_iff. unfold mem.
    rewrite !existsb_exists.
    split.
    - intros [[x [H1 H2]] H]. apply String.eqb_eq in H2. subst x.
      split; [exact H1|]. destruct H as [H|[x [H3 H4]]]; [now left|].
      apply String.eqb_eq in H4. subst x. now right.
    - intros [H1 H]. split; [exists c; split; [exact H1|apply String.eqb_refl]|].
      destruct H as [H|H]; [now left|].
      right. exists c. split; [exact H|apply String.eqb_refl]. }
  split.
  { cbn [forallb]. rewrite !K.
    change (mem "edad_grupo" derived_names) with false.
    change (mem "edad_grupo" Prepare.analysis_vars) with true.
    rewrite Ha.
    repeat match goal with
           | |- context [mem ?c ?l] =>
               let b := eval vm_compute in (mem c l) in change (mem c l) with b
           end.
    rewrite !orb_true_r. reflexivity. }
  split; rewrite K; reflexivity.
Qed.

Lemma saved_table_columns_witness :
  exists df sample,
    Prepare.prepare no_text (Some demo_excel) None = Some (df, sample) /\
    columns (Prepare.df_out sample) =
      [ "folio"; "p4"; "edad_grupo"; "edad_grupo_lbl"; "hiv_knowledge_score";
        "knows_prep"; "tested_hiv_12mo"; "test_reason"; "no_test_reason";
        "condom_use_freq"; "condom_use_lbl"; "always_condom"; "ever_condom";
        "partners_last_year"; "multiple_partners"; "any_sti"; "hiv_diagnosis" ] /\
    has_col (Prepare.df_out sample) "p73" = false /\
    has_col (Prepare.df_out sample) "p71" = false.
Proof.
  eexists. eexists. split; [vm_compute; reflexivity|].
  split; [vm_compute; reflexivity|].
  eapply (@saved_table_columns no_text (Some demo_excel) None demo_excel);
    [reflexivity|vm_compute; reflexivity].
Defined.

(** ** The model frames *)

(** X13.  When the frame of Model 4 exists, so do the frames of Models 1 to
    3, and their row sets are nested: Model 1 keeps the rows of the table
    with a defined outcome, age group and knowledge score; Model 2 keeps
    those of Model 1 with a defined partner count; Model 3 those of Model 2
    with a defined [any_sti] and [tested_hiv_12mo]; Model 4 those of Model 3
    with a defined [knows_prep]. *)
Theorem model_frames_nested_rows (df d4 : DataFrame) :
  Regression.model4_data df = Some d4 ->
  exists d1 d2 d3,
    Regression.model1_data df = Some d1 /\
    Regression.model2_data df = Some d2 /\
    Regression.model3_data df = Some d3 /\
    (forall r, In r (rows d1) <->
       In r (rows df) /\ notna (val r "always_condom") = true /\
       notna (val r "edad_grupo") = true /\
       notna (val r "hiv_knowledge_score") = true) /\
    (forall r, In r (rows d2) <->
       In r (rows d1) /\ notna (val r "partners_last_year") = true) /\
    (forall r, In r (rows d3) <->
       In r (rows d2) /\ notna (val r "any_sti") = true /\
       notna (val r "tested_hiv_12mo") = true) /\
    (forall r, In r (rows d4) <->
       In r (rows d3) /\ notna (val r "knows_prep") = true).
Proof.
  intros H4. unfold Regression.model4_data in H4.
  destruct (select_dropna_rows _ _ H4) as [Hc [_ R4]].
  cbn [forallb] in Hc. rewrite !andb_true_iff in Hc.
  destruct Hc as [A [B [C [D [E [F [G _]]]]]]].
  destruct (@select_dropna_total
              ["always_condom"; "edad_grupo"; "hiv_knowledge_score"] df)
    as [d1 H1]; [cbn [forallb]; now rewrite A, B, C|].
  destruct (@select_dropna_total
              ["always_condom"; "edad_grupo"; "hiv_knowledge_score";
               "partners_last_year"] df)
    as [d2 H2]; [cbn [forallb]; now rewrite A, B, C, D|].
  destruct (@select_dropna_total
              ["always_condom"; "edad_grupo"; "hiv_knowledge_score";
               "partners_last_year"; "any_sti"; "tested_hiv_12mo"] df)
    as [d3 H3]; [cbn [forallb]; now rewrite A, B, C, D, E, F|].
  exists d1, d2, d3.
  destruct (select_dropna_rows _ _ H1) as [_ [_ R1]].
  destruct (select_dropna_rows _ _ H2) as [_ [_ R2]].
  destruct (select_dropna_rows _ _ H3) as [_ [_ R3]].
  split; [exact H1|]. split; [exact H2|]. split; [exact H3|].
  rewrite R1, R2, R3, R4.
  split; [|split; [|split]]; intros r; rewrite !filter_In;
    unfold Regression.complete; cbn [forallb]; rewrite !andb_true_iff; tauto.
Qed.

Lemma model_frames_nested_rows_witness :
  exists d1 d2 d3 d4,
    Regression.model4_data demo_battery = Some d4 /\
    map ix (rows d4) = [0; 1]%nat /\
    Regression.model1_data demo_battery = Some d1 /\
    Regression.model2_data demo_battery = Some d2 /\
    Regression.model3_data demo_battery = Some d3 /\
    (forall r, In r (rows d1) <->
       In r (rows demo_battery) /\ notna (val r "always_condom") = true /\
       notna (val r "edad_grupo") = true /\
       notna (val r "hiv_knowledge_score") = true) /\
    (forall r, In r (rows d2) <->
       In r (rows d1) /\ notna (val r "partners_last_year") = true) /\
    (forall r, In r (rows d3) <->
       In r (rows d2) /\ notna (val r "any_sti") = true /\
       notna (val r "tested_hiv_12mo") = true) /\
    (forall r, In r (rows d4) <->
       In r (rows d3) /\ notna (val r "knows_prep") = true).
Proof.
  assert (H : exists d4, Regression.model4_data demo_battery = Some d4 /\
                         map ix (rows d4) = [0; 1]%nat)
    by (eexists; split; vm_compute; reflexivity).
  destruct H as [d4 [H Hix]].
  destruct (model_frames_nested_rows _ H) as [d1 [d2 [d3 P]]].
  exists d1, d2, d3, d4. split; [exact H|]. split; [exact Hix|exact P].
Defined.

(** ** The age strata *)

Lemma num_same_sym (x y : xnum) :
  Regression.num_same x y = Regression.num_same y x.
Proof.
  destruct x as [p| |], y as [q| |]; try reflexivity. simpl.
  destruct (Qeq_bool p q) eqn:E1, (Qeq_bool q p) eqn:E2; try reflexivity.
  - apply Qeq_bool_iff in E1. symmetry in E1. apply Qeq_bool_iff in E1. congruence.
  - apply Qeq_bool_iff in E2. symmetry in E2. apply Qeq_bool_iff in E2. congruence.
Qed.

Lemma same_key_sym (a b : cell) :
  Regression.same_key a b = Regression.same_key b a.
Proof.
  destruct a as [|x|s], b as [|y|t]; try reflexivity; simpl.
  - apply num_same_sym.
  - apply String.eqb_sym.
Qed.

Lemma num_same_trans (x a b : xnum) :
  Regression.num_same x a = true -> Regression.num_same x b = true ->
  Regression.num_same a b = true.
Proof.
  destruct x as [p| |], a as [q| |], b as [q'| |]; simpl; try discriminate; auto.
  rewrite !Qeq_bool_iff. intros H1 H2. now rewrite <- H1, <- H2.
Qed.

Lemma cell_same_key (x a b : cell) :
  Regression.cell_same x a = true -> Regression.cell_same x b = true ->
  Regression.same_key a b = true.
Proof.
  destruct x as [|x|s], a as [|y|t], b as [|z|u]; simpl; try discriminate.
  - apply num_same_trans.
  - rewrite !String.eqb_eq. congruence.
Qed.

Lemma unique_from_fresh (l : list cell) : forall seen c,
  In c (Regression.unique_from seen l) ->
  existsb (Regression.same_key c) seen = false.
Proof.
  induction l as [|c0 l IH]; intros seen c Hin; [destruct Hin|].
  simpl in Hin. destruct (existsb (Regression.same_key c0) seen) eqn:E.
  - now apply IH.
  - destruct Hin as [<-|Hin]; [exact E|].
    apply IH in Hin. simpl in Hin. apply orb_false_iff in Hin. tauto.
Qed.

Lemma unique_from_distinct (l : list cell) : forall seen a b,
  In a (Regression.unique_from seen l) ->
  In b (Regression.unique_from seen l) ->
  Regression.same_key a b = true -> a = b.
Proof.
  induction l as [|c0 l IH]; intros seen a b Ha Hb Hk; [destruct Ha|].
  simpl in Ha, Hb. destruct (existsb (Regression.same_key c0) seen).
  - now apply (IH seen).
  - destruct Ha as [<-|Ha], Hb as [<-|Hb]; [reflexivity| | |now apply (IH (c0 :: seen))].
    + apply unique_from_fresh in Hb. simpl in Hb. apply orb_false_iff in Hb.
      rewrite same_key_sym in Hk. destruct Hb as [Hb _]. congruence.
    + apply unique_from_fresh in Ha. simpl in Ha. apply orb_false_iff in Ha.
      destruct Ha as [Ha _]. congruence.
Qed.

Lemma age_groups_distinct (df : DataFrame) (ages : list cell) :
  Regression.age_groups df = Some ages ->
  forall a b, In a ages -> In b ages -> Regression.same_key a b = true -> a = b.
Proof.
  unfold Regression.age_groups, require, bind.
  destruct (has_col df "edad_grupo_lbl"); [|discriminate].
  intros Hs a b Ha Hb.
  apply (proj1 (@In_sorted _ _ a Hs)) in Ha. apply (proj1 (@In_sorted _ _ b Hs)) in Hb.
  apply filter_In in Ha. apply filter_In in Hb.
  destruct Ha as [Ha _], Hb as [Hb _]. unfold Regression.unique in Ha, Hb.
  intros Hk. exact (unique_from_distinct _ _ _ _ Ha Hb Hk).
Qed.

Lemma age_data_rows (df data : DataFrame) (age : cell) :
  Regression.age_data df age = Some data ->
  columns data = strat_cols /\
  forall r, In r (rows data) <->
    In r (rows df) /\ Regression.cell_same (val r "edad_grupo_lbl") age = true /\
    Regression.complete strat_cols r = true.
Proof.
  unfold Regression.age_data, require, bind.
  destruct (has_col df "edad_grupo_lbl"); [|discriminate].
  intros H. destruct (select_dropna_rows _ _ H) as [_ [C R]].
  split; [exact C|]. intros r. rewrite R. unfold filter_rows. cbn [rows].
  rewrite !filter_In. unfold strat_cols. tauto.
Qed.

(** X14.  The age strata partition the labelled complete cases: every row
    of a stratum is a row of the table with that stratum's label and with
    defined values in the three model columns, and every such row with a
    defined label is in the stratum of exactly one of the labels the loop
    visits. *)
Theorem age_strata_partition (df : DataFrame) (ages : list cell) :
  Regression.age_groups df = Some ages ->
  forallb (has_col df) strat_cols = true ->
  (forall age data r,
     Regression.age_data df age = Some data -> In r (rows data) ->
     In r (rows df) /\ notna (val r "edad_grupo_lbl") = true /\
     Regression.cell_same (val r "edad_grupo_lbl") age = true /\
     notna (val r "always_condom") = true /\
     notna (val r "hiv_knowledge_score") = true /\
     notna (val r "partners_last_year") = true) /\
  (forall r, In r (rows df) ->
     notna (val r "edad_grupo_lbl") = true ->
     notna (val r "always_condom") = true ->
     notna (val r "hiv_knowledge_score") = true ->
     notna (val r "partners_last_year") = true ->
     exists age data,
       In age ages /\ Regression.age_data df age = Some data /\
       In r (rows data) /\
       forall age' data',
         In age' ages -> Regression.age_data df age' = Some data' ->
         In r (rows data') -> age' = age).
Proof.
  intros Hages Hc.
  assert (Hl : has_col df "edad_grupo_lbl" = true).
  { unfold Regression.age_groups, require, bind in Hages.
    destruct (has_col df "edad_grupo_lbl"); [reflexivity|discriminate]. }
  assert (Hcomp : forall r,
            Regression.complete strat_cols r = true <->
            notna (val r "always_condom") = true /\
            notna (val r "hiv_knowledge_score") = true /\
            notna (val r "partners_last_year") = true).
  { intros r. unfold Regression.complete, strat_cols. cbn [forallb].
    rewrite !andb_true_iff. tauto. }
  split.
  - intros age data r Hd Hin.
    destruct (age_data_rows _ _ Hd) as [_ R]. apply R in Hin.
    destruct Hin as [Hr [Hs Hk]]. apply Hcomp in Hk.
    split; [exact Hr|]. split; [|tauto].
    destruct (val r "edad_grupo_lbl"); [discriminate Hs|reflexivity|reflexivity].
  - intros r Hr Hn H1 H2 H3.
    destruct (age_groups_cover _ Hages) as [Hcov _].
    destruct (Hcov r Hr Hn) as [age [Hin Hs]].
    destruct (@age_data_total df age Hl Hc) as [data Hd].
    exists age, data. split; [exact Hin|]. split; [exact Hd|]. split.
    + apply (proj2 (age_data_rows _ _ Hd)). split; [exact Hr|].
      split; [exact Hs|]. apply Hcomp. tauto.
    + intros age' data' Hin' Hd' Hr'.
      apply (proj2 (age_data_rows _ _ Hd')) in Hr'. destruct Hr' as [_ [Hs' _]].
      apply (age_groups_distinct _ Hages); [exact Hin'|exact Hin|].
      exact (cell_same_key _ _ _ Hs' Hs).
Qed.

Lemma age_strata_partition_witness :
  Regression.age_groups demo_battery =
    Some [Text "18-29"; Text "30-39"; Text "60-69"] /\
  forall r, In r (rows demo_battery) ->
    notna (val r "edad_grupo_lbl") = true ->
    notna (val r "always_condom") = true ->
    notna (val r "hiv_knowledge_score") = true ->
    notna (val r "partners_last_year") = true ->
    exists age data,
      In age [Text "18-29"; Text "30-39"; Text "60-69"] /\
      Regression.age_data demo_battery age = Some data /\
      In r (rows data) /\
      forall age' data',
        In age' [Text "18-29"; Text "30-39"; Text "60-69"] ->
        Regression.age_data demo_battery age' = Some data' ->
        In r (rows data') -> age' = age.
Proof.
  assert (H1 : Regression.age_groups demo_battery =
               Some [Text "18-29"; Text "30-39"; Text "60-69"])
    by (vm_compute; reflexivity).
  assert (H2 : forallb (has_col demo_battery) strat_cols = true)
    by (vm_compute; reflexivity).
  split; [exact H1|].
  exact (proj2 (age_strata_partition demo_battery H1 H2)).
Defined.

(** ** The result rows of the age-stratified loop *)

Section StratifiedResults.

Variable Fit : Type.
Variable logit : string -> DataFrame -> option Fit.


End StratifiedResults.







(** ** Age labels on the fallback path *)

Lemma in_bin_adult (x : xnum) (g : Z) :
  (1 <= g <= 7)%Z -> in_bin x g = true -> num_geb x 18 = true.
Proof.
  intros Hg.
  assert (Hcases : g = 1%Z \/ g = 2%Z \/ g = 3%Z \/ g = 4%Z \/ g = 5%Z \/
                   g = 6%Z \/ g = 7%Z) by lia.
  destruct x as [q| |]; [|reflexivity|].
  - unfold in_bin.
    repeat (destruct Hcases as [->|Hcases]); try subst g; cbn [bin_of num_geb];
      rewrite ?andb_true_iff, ?Qle_bool_iff; intros H;
      try (match type of H with _ /\ _ => destruct H as [H _] end); lra.
  - unfold in_bin.
    repeat (destruct Hcases as [->|Hcases]); try subst g; cbn [bin_of num_geb];
      intros H; discriminate H.
Qed.

(** X16.  On the fallback path, when the raw table brings no label column,
    the label follows the parsed age: an age in the decade bin of code [g]
    gets the label of [g] (18-29, 30-39, ..., 80+), and a respondent with an
    undefined [edad_grupo] has an undefined label. *)
Theorem fallback_age_label
    (fot : string -> option cell) (t df sample : DataFrame) :
  Prepare.prepare fot None (Some t) = Some (df, sample) ->
  has_col t "edad_grupo_lbl" = false ->
  Forall2 (fun r0 r =>
      (val r "edad_grupo" = NA -> val r "edad_grupo_lbl" = NA) /\
      forall x g s,
        Prepare.py_float fot (val r0 "p4") = Some (Num x) ->
        In (g, s) [ (1%Z, "18-29"); (2%Z, "30-39"); (3%Z, "40-49");
                    (4%Z, "50-59"); (5%Z, "60-69"); (6%Z, "70-79");
                    (7%Z, "80+") ] ->
        in_bin x g = true ->
        val r "edad_grupo" = code g /\ val r "edad_grupo_lbl" = Text s)
    (rows t) (rows df).
Proof.
  intros Hp Hlbl. destruct (prepare_inv _ _ _ Hp) as [raw [Hl [Hc Hs]]].
  pose proof (load_fallback _ _ Hl) as Hraw.
  destruct (prepare_more _ _ _ Hl Hp) as [_ F].
  assert (Hraw_lbl : has_col raw "edad_grupo_lbl" = false).
  { rewrite Hraw, has_col_assign, Hlbl. reflexivity. }
  assert (F0 : Forall2 (fun r0 r1 =>
                 r1 = set_cell "edad_grupo"
                        (Prepare.assign_age_group fot (val r0 "p4")) r0)
               (rows t) (rows raw)).
  { rewrite Hraw. unfold assign. simpl. apply Forall2_map_self. reflexivity. }
  pose proof (Forall2_chain F0 F) as G. revert G. apply Forall2_weaken.
  intros r0 r [r1 [-> [[[_ Hf] _] [_ [_ [_ [_ [_ [_ [_ Hlab]]]]]]]]]].
  rewrite Hraw_lbl in Hlab.
  assert (He : val r "edad_grupo" = Prepare.assign_age_group fot (val r0 "p4")).
  { rewrite Hf by reflexivity. reflexivity. }
  assert (Hl1 : val r "edad_grupo_lbl" = Prepare.map_labels (val r "edad_grupo")).
  { rewrite Hlab, He. reflexivity. }
  split.
  - intros Hna. rewrite Hl1, Hna. reflexivity.
  - intros x g s Hx Hin Hbin.
    assert (Hg : (1 <= g <= 7)%Z).
    { simpl in Hin.
      repeat (destruct Hin as [Hin|Hin]; [injection Hin as <- _; lia|]).
      destruct Hin. }
    pose proof (in_bin_adult x Hg Hbin) as H18.
    destruct (age_bins_exactly_one x H18) as [g0 [Hg0 [Hcode [_ Huniq]]]].
    assert (g = g0) by (apply Huniq; assumption). subst g0.
    assert (Hcode' : val r "edad_grupo" = code g).
    { rewrite He. unfold Prepare.assign_age_group. rewrite Hx. exact Hcode. }
    split; [exact Hcode'|]. rewrite Hl1, Hcode'.
    simpl in Hin.
    repeat (destruct Hin as [Hin|Hin];
            [injection Hin as <- <-; vm_compute; reflexivity|]).
    destruct Hin.
Qed.

Lemma fallback_age_label_witness :
  exists df sample,
    Prepare.prepare no_text None (Some demo_csv) = Some (df, sample) /\
    map (fun r => val r "edad_grupo_lbl") (rows df) =
      [Text "30-39"; NA; NA; Text "18-29"; NA; Text "80+"] /\
    Forall2 (fun r0 r =>
      (val r "edad_grupo" = NA -> val r "edad_grupo_lbl" = NA) /\
      forall x g s,
        Prepare.py_float no_text (val r0 "p4") = Some (Num x) ->
        In (g, s) [ (1%Z, "18-29"); (2%Z, "30-39"); (3%Z, "40-49");
                    (4%Z, "50-59"); (5%Z, "60-69"); (6%Z, "70-79");
                    (7%Z, "80+") ] ->
        in_bin x g = true ->
        val r "edad_grupo" = code g /\ val r "edad_grupo_lbl" = Text s)
    (rows demo_csv) (rows df).
Proof.
  eexists. eexists. split; [vm_compute; reflexivity|].
  split; [vm_compute; reflexivity|].
  eapply (@fallback_age_label no_text demo_csv);
    [vm_compute; reflexivity|reflexivity].
Defined.

(** ** The knowledge score and the items in the table *)

Lemma points_of_present (hc : string -> bool) (r : Row) (its : list (string * Q)) :
  (points_of hc r its <= Z.of_nat (List.length (filter hc (map fst its))))%Z.
Proof.
  induction its as [|it its IH]; [simpl; lia|].
  change (points_of hc r (it :: its))
    with (item_point hc r it + points_of hc r its)%Z.
  cbn [map filter]. unfold item_point.
  destruct (hc (fst it)); cbn [andb].
  - rewrite length_cons, Nat2Z.inj_succ.
    destruct (cell_eq (val r (fst it)) (snd it)); lia.
  - lia.
Qed.

(** X17.  The knowledge score of a respondent is at most the number of the
    six item columns that are in the loaded table: every item whose column
    is absent lowers the highest score that can be reached by one. *)
Theorem knowledge_score_at_most_items_present
    (fot : string -> option cell) (excel csv : option DataFrame)
    (raw df sample : DataFrame) :
  Prepare.load fot excel csv = Some raw ->
  Prepare.prepare fot excel csv = Some (df, sample) ->
  Forall (fun r =>
      exists n : Z,
        val r "hiv_knowledge_score" = Num (Fin (inject_Z n)) /\
        (0 <= n <=
         Z.of_nat (List.length
           (filter (has_col raw)
              [ "i_1_p212"; "i_2_p212"; "i_3_p212";
                "i_4_p212"; "i_5_p212"; "i_6_p212" ])))%Z)
    (rows df).
Proof.
  intros Hl Hp. pose proof (prepare_rows _ _ _ Hl Hp) as F.
  induction F as [|r0 r l0 l H _ IH]; constructor; [|exact IH].
  destruct H as [_ [Hs _]].
  exists (points_of (has_col raw) r0 Prepare.hiv_items). split.
  { rewrite Hs. unfold score_cell. change (Fin 0) with (Fin (inject_Z 0)).
    now rewrite fold_cell_points. }
  split; [apply (points_of_bounds (has_col raw) r0 Prepare.hiv_items)|].
  apply (points_of_present (has_col raw) r0 Prepare.hiv_items).
Qed.

Lemma knowledge_score_at_most_items_present_witness :
  exists df sample,
    Prepare.prepare no_text None (Some demo_csv) = Some (df, sample) /\
    List.length (filter (has_col demo_csv)
              [ "i_1_p212"; "i_2_p212"; "i_3_p212";
                "i_4_p212"; "i_5_p212"; "i_6_p212" ]) = 2%nat /\
    Forall (fun r =>
      exists n : Z,
        val r "hiv_knowledge_score" = Num (Fin (inject_Z n)) /\
        (0 <= n <= 2)%Z)
    (rows df).
Proof.
  eexists. eexists. split; [vm_compute; reflexivity|].
  split; [reflexivity|].
  eapply Forall_impl;
    [|eapply (@knowledge_score_at_most_items_present no_text None (Some demo_csv));
      vm_compute; reflexivity].
  intros r [n [H1 H2]]. exists n. split; [exact H1|]. exact H2.
Defined.

(** ** What the constructor leaves alone *)

Lemma mem_false_iff (c : string) (l : list string) :
  mem c l = false <-> ~ In c l.
Proof.
  unfold mem. split.
  - intros H Hin. apply not_true_iff_false in H. apply H.
    apply existsb_exists. exists c. split; [exact Hin|apply String.eqb_refl].
  - intros H. apply not_true_iff_false. intros E.
    apply existsb_exists in E. destruct E as [x [Hx He]].
    apply String.eqb_eq in He. subst x. now apply H.
Qed.

(** X18.  Steps 2 to 7 add columns and change nothing else: the prepared
    table has the respondents of the loaded table, in the same order and
    with the same index labels; every column other than the fourteen derived
    ones keeps its values; and the columns of the prepared table are those
    of the loaded table and the derived ones. *)
Theorem raw_columns_untouched
    (fot : string -> option cell) (excel csv : option DataFrame)
    (raw df sample : DataFrame) :
  Prepare.load fot excel csv = Some raw ->
  Prepare.prepare fot excel csv = Some (df, sample) ->
  List.length (rows df) = List.length (rows raw) /\
  Forall2 (fun r0 r =>
      ix r = ix r0 /\
      forall c, ~ In c derived_names -> val r c = val r0 c)
    (rows raw) (rows df) /\
  (forall c, has_col df c = true <-> has_col raw c = true \/ In c derived_names).
Proof.
  intros Hl Hp. pose proof (prepare_rows _ _ _ Hl Hp) as F.
  destruct (prepare_more _ _ _ Hl Hp) as [C _].
  split; [symmetry; exact (Forall2_length F)|]. split.
  - revert F. apply Forall2_weaken. intros r0 r [[Hi Hf] _].
    split; [exact Hi|]. intros c Hc. apply Hf. now apply mem_false_iff.
  - intros c. rewrite (@has_col_add_cols_in _ _ _ c C), orb_true_iff.
    assert (M : mem c derived_names = true <-> In c derived_names).
    { destruct (mem c derived_names) eqn:E.
      - split; [intros _|reflexivity].
        destruct (in_dec string_dec c derived_names) as [Hin|Hn]; [exact Hin|].
        apply mem_false_iff in Hn. congruence.
      - split; [discriminate|]. intros Hin. apply mem_false_iff in E. tauto. }
    rewrite M. tauto.
Qed.

Lemma raw_columns_untouched_witness :
  exists df sample,
    Prepare.prepare no_text (Some demo_excel) None = Some (df, sample) /\
    List.length (rows df) = 7%nat /\
    Forall2 (fun r0 r =>
        ix r = ix r0 /\
        forall c, ~ In c derived_names -> val r c = val r0 c)
      (rows demo_excel) (rows df).
Proof.
  eexists. eexists. split; [vm_compute; reflexivity|].
  match goal with
  | |- List.length (rows ?d) = _ /\ _ =>
      assert (H : exists s, Prepare.prepare no_text (Some demo_excel) None = Some (d, s))
        by (eexists; vm_compute; reflexivity)
  end.
  destruct H as [s H].
  destruct (@raw_columns_untouched no_text (Some demo_excel) None demo_excel _ _
              eq_refl H) as [H1 [H2 _]].
  split; [exact H1|exact H2].
Defined.

(** ** Labels that do not sort *)

Lemma forallb_false_In (A : Type) (p : A -> bool) (l : list A) (x : A) :
  In x l -> p x = false -> forallb p l = false.
Proof.
  intros Hin Hp. destruct (forallb p l) eqn:E; [|reflexivity].
  rewrite forallb_forall in E. rewrite (E x Hin) in Hp. discriminate Hp.
Qed.

(** X19.  The age-stratified loop stops with an error, and produces no
    result rows, when the table has no column [edad_grupo_lbl] or when the
    labels mix text and numbers, which cannot be sorted. *)
Theorem stratified_loop_stops_on_bad_labels (Fit : Type)
    (logit : string -> DataFrame -> option Fit) (df : DataFrame) :
  has_col df "edad_grupo_lbl" = false \/
  (exists r1 r2,
     In r1 (rows df) /\ In r2 (rows df) /\
     is_text (val r1 "edad_grupo_lbl") = true /\
     Regression.is_num (val r2 "edad_grupo_lbl") = true) ->
  Regression.age_stratified_results logit df = None.
Proof.
  intros H.
  unfold Regression.age_stratified_results, Regression.age_groups, require, bind.
  destruct H as [H|[r1 [r2 [H1 [H2 [Ht Hn]]]]]]; [now rewrite H|].
  destruct (has_col df "edad_grupo_lbl"); [|reflexivity].
  set (labels := map (fun r => val r "edad_grupo_lbl") (rows df)).
  assert (Hkeep : forall r, In r (rows df) -> notna (val r "edad_grupo_lbl") = true ->
            exists c, In c (filter notna (Regression.unique labels)) /\
                      Regression.same_key (val r "edad_grupo_lbl") c = true).
  { intros r Hr Hna.
    destruct (@unique_from_cover labels [] (val r "edad_grupo_lbl"))
      as [c [[Hc|Hc] Hk]]; [apply in_map_iff; now exists r|destruct Hc|].
    exists c. split; [|exact Hk]. apply filter_In. split; [exact Hc|].
    destruct (val r "edad_grupo_lbl"), c; try discriminate; reflexivity. }
  assert (E1 : forallb is_text (filter notna (Regression.unique labels)) = false).
  { destruct (Hkeep r2 H2) as [c [Hc Hk]].
    { destruct (val r2 "edad_grupo_lbl"); [discriminate Hn|reflexivity|reflexivity]. }
    apply (forallb_false_In _ _ _ Hc).
    destruct (val r2 "edad_grupo_lbl"), c; try discriminate; reflexivity. }
  assert (E2 : forallb Regression.is_num
                 (filter notna (Regression.unique labels)) = false).
  { destruct (Hkeep r1 H1) as [c [Hc Hk]].
    { destruct (val r1 "edad_grupo_lbl"); [discriminate Ht|reflexivity|reflexivity]. }
    apply (forallb_false_In _ _ _ Hc).
    destruct (val r1 "edad_grupo_lbl"), c; try discriminate; reflexivity. }
  unfold Regression.sorted. fold labels. rewrite E1, E2. reflexivity.
Qed.

Lemma stratified_loop_stops_on_bad_labels_witness :
  Regression.age_stratified_results demo_logit
    (table [ "edad_grupo_lbl"; "always_condom"; "hiv_knowledge_score";
             "partners_last_year" ]
       [ [Text "18-29"; code 1; code 4; code 2];
         [code 2;       code 0; code 5; code 1] ]) = None.
Proof.
  apply stratified_loop_stops_on_bad_labels. right.
  eexists. eexists.
  split; [left; reflexivity|].
  split; [right; left; reflexivity|].
  split; reflexivity.
Defined.
